(** * Coffee sales dashboard: the modelling pipeline of [dashboard.py]

    A shallow embedding of the data path of [dashboard.py]: loading and
    preprocessing ([load_data]), the sidebar filters, and the "Model Analysis"
    tab (feature building, train/test split, ordinary least squares,
    on-demand prediction, evaluation).

    Numbers.  The script computes with IEEE doubles (numpy / pandas).  The
    embedding uses the real numbers [R]: [np.log1p] is [ln (1 + x)],
    [np.expm1] is [exp x - 1], [np.sqrt] is [sqrt].  Rounding, NaN and the
    infinities are outside the model.  Where the script would divide by zero
    (the deviation of a constant column or of a one-row table, the total sum
    of squares of held-out targets that are all equal) numpy yields NaN or an
    infinity and the model yields the quotient of [Rdiv]; the counterexamples
    below involve no such division.

    Two ways the script fails are outside the model as well, and the theorems
    that would meet them carry a hypothesis instead.  A loaded table without
    rows: the script raises when it builds the date input of line 136 from
    the minimum and maximum of an empty column; the embedding takes the
    values of the widgets as inputs, so theorems about a run assume that the
    loaded table has a row.  A constant numeric column in a table of two rows
    or more: line 643 makes it NaN, line 648 keeps it and [sm.OLS] raises at
    line 669, where the model's quotient is zero and the column is dropped;
    theorems about the fitted schema assume [no_constant_feature].

    Library code.  What the script calls but does not define is a parameter of
    the development: the timestamp parser [pd.to_datetime], the weekday of a
    timestamp, numpy's seeded generator ([np.random.seed],
    [np.random.permutation]) and the least-squares solver [sm.OLS(...).fit()].
    Their contracts are stated as predicates and assumed only by the theorems
    that need them. *)

From Stdlib Require Import Reals Lra Lia ZArith List String Ascii Bool.
From Stdlib Require Import QArith Qround Permutation Sorted DecimalString.
Import ListNotations.

Local Open Scope string_scope.
Local Open Scope Z_scope.

(* ===================================================================== *)
(** * Data model *)
(* ===================================================================== *)

(** A calendar date, [YYYY-MM-DD]. *)
Record date := mkDate { d_year : Z; d_month : Z; d_day : Z }.

(** [a <= b] on dates, as pandas compares timestamps. *)
Definition date_leb (a b : date) : bool :=
  (d_year a <? d_year b)
  || ((d_year a =? d_year b)
      && ((d_month a <? d_month b)
          || ((d_month a =? d_month b) && (d_day a <=? d_day b)))).

(** A parsed [Date + ' ' + Time] timestamp: its date and its hour. *)
Record timestamp := mkTimestamp { ts_date : date; ts_hour : Z }.

(** One line of [Coffe_sales.csv]. *)
Record csv_row := mkCsvRow {
  csv_Date : date;
  csv_Time : string;
  csv_cash_type : string;
  csv_coffee_name : string;
  csv_money : R;
  csv_Time_of_Day : string
}.

(** One row of the frame [load_data] returns: the columns of the file and the
    derived columns. *)
Record transaction := mkTransaction {
  Date : date;
  cash_type : string;
  coffee_name : string;
  money : R;
  Time_of_Day : string;
  datetime : timestamp;
  hour : Z;
  month : Z;
  day_of_week : Z;
  year : Z;
  season : string;
  is_weekend : bool
}.

Definition DataFrame := list transaction.

(* ===================================================================== *)
(** * Seasons: the three places that map a month to a season *)
(* ===================================================================== *)

Definition Z_in (x : Z) (l : list Z) : bool := existsb (Z.eqb x) l.

(** [get_season], nested in [load_data] (lines 104-112). *)
Definition get_season (month : Z) : string :=
  if Z_in month [12; 1; 2] then "Winter"
  else if Z_in month [3; 4; 5] then "Spring"
  else if Z_in month [6; 7; 8] then "Summer"
  else "Fall".

(** The dictionary of [df_model['Month'].map({...})] (lines 618-623), as the
    association list the literal writes. *)
Definition Season_map : list (Z * string) :=
  [ (12, "Winter"); (1, "Winter"); (2, "Winter");
    (3, "Spring"); (4, "Spring"); (5, "Spring");
    (6, "Summer"); (7, "Summer"); (8, "Summer");
    (9, "Autumn"); (10, "Autumn"); (11, "Autumn") ].

Fixpoint dict_get {V : Type} (d : list (Z * V)) (k : Z) : option V :=
  match d with
  | [] => None
  | (k', v) :: d' => if k =? k' then Some v else dict_get d' k
  end.

(** [Series.map(dict)]: a key missing from the dictionary maps to NaN
    ([None]). *)
Definition model_Season (Month : Z) : option string := dict_get Season_map Month.

(** The conditional expression of line 699, at prediction time. *)
Definition input_season (input_month : Z) : string :=
  if Z_in input_month [12; 1; 2] then "Winter"
  else if Z_in input_month [3; 4; 5] then "Spring"
  else if Z_in input_month [6; 7; 8] then "Summer"
  else "Fall".

(** The season sets the specification gives, in its words: winter is
    {12,1,2}, spring {3,4,5}, summer {6,7,8}, the remaining months the fourth
    season. *)
Inductive season_class := Winter | Spring | Summer | FourthSeason.

Definition spec_season (m : Z) : season_class :=
  if Z_in m [12; 1; 2] then Winter
  else if Z_in m [3; 4; 5] then Spring
  else if Z_in m [6; 7; 8] then Summer
  else FourthSeason.

(** The label each of the three places uses for a class. *)
Definition label_preprocessing (c : season_class) : string :=
  match c with
  | Winter => "Winter" | Spring => "Spring" | Summer => "Summer"
  | FourthSeason => "Fall"
  end.

Definition label_model (c : season_class) : string :=
  match c with
  | Winter => "Winter" | Spring => "Spring" | Summer => "Summer"
  | FourthSeason => "Autumn"
  end.

Definition valid_month (m : Z) : Prop := 1 <= m <= 12.

(* ===================================================================== *)
(** * Strings, numbers and small list utilities *)
(* ===================================================================== *)

(** [str(n)] for an integer: its decimal notation. *)
Definition str_of_Z (n : Z) : string := NilZero.string_of_int (Z.to_int n).

Definition str_in (s : string) (l : list string) : bool := existsb (String.eqb s) l.

(** Insertion of a level into a sorted list without repetition; strings are
    ordered as Python orders them (by code unit). *)
Fixpoint insert_level (s : string) (l : list string) : list string :=
  match l with
  | [] => [s]
  | x :: l' =>
      match String.compare s x with
      | Lt => s :: l
      | Eq => l
      | Gt => x :: insert_level s l'
      end
  end.

(** [sorted(set(l))]: the distinct values in increasing order. *)
Definition sorted_unique (l : list string) : list string :=
  fold_right insert_level [] l.

Fixpoint somes {A : Type} (l : list (option A)) : list A :=
  match l with
  | [] => []
  | Some a :: l' => a :: somes l'
  | None :: l' => somes l'
  end.

(** All-or-nothing traversal: the first failure fails the whole. *)
Fixpoint sequence_opt {A : Type} (l : list (option A)) : option (list A) :=
  match l with
  | [] => Some []
  | None :: _ => None
  | Some a :: l' =>
      match sequence_opt l' with
      | Some r => Some (a :: r)
      | None => None
      end
  end.

Local Open Scope R_scope.

Definition Reqb (a b : R) : bool := if Req_dec_T a b then true else false.

Definition Rsum (l : list R) : R := fold_right Rplus 0 l.

Definition Rlen (l : list R) : R := INR (List.length l).

(** [Series.mean()] and [np.mean]. *)
Definition mean (l : list R) : R := Rsum l / Rlen l.

(** [Series.std()]: pandas' sample standard deviation ([ddof = 1]). *)
Definition std (l : list R) : R :=
  sqrt (Rsum (map (fun x => (x - mean l) ^ 2) l) / (Rlen l - 1)).

(** [np.log1p] and [np.expm1] on the reals. *)
Definition log1p (x : R) : R := ln (1 + x).
Definition expm1 (x : R) : R := exp x - 1.

(** Inner product of a coefficient vector and a row. *)
Fixpoint dot (a b : list R) : R :=
  match a, b with
  | x :: a', y :: b' => x * y + dot a' b'
  | _, _ => 0
  end.

(* ===================================================================== *)
(** * Frames of numbers: the feature matrix *)
(* ===================================================================== *)

(** A numeric [DataFrame], column by column: its number of rows (the length of
    its index) and its labelled columns in order. *)
Record frame := mkFrame { nrows : nat; cols : list (string * list R) }.

Definition columns (f : frame) : list string := map fst (cols f).

(** Every column of a frame has one entry per row. *)
Definition well_formed (f : frame) : Prop :=
  forall c, In c (cols f) -> List.length (snd c) = nrows f.

(** [DataFrame.empty]: some axis has length 0. *)
Definition frame_empty (f : frame) : bool :=
  (nrows f =? 0)%nat || (List.length (cols f) =? 0)%nat.

(** [pd.concat([a, b], axis=1)] of two frames over the same index. *)
Definition concat_columns (a b : frame) : frame :=
  mkFrame (nrows a) (cols a ++ cols b)%list.

(** [X.loc[:, (X != 0).any(axis=0)]]: the columns with some non-zero entry. *)
Definition any_nonzero (c : list R) : bool := existsb (fun x => negb (Reqb x 0)) c.

Definition drop_zero_columns (f : frame) : frame :=
  mkFrame (nrows f) (filter (fun c => any_nonzero (snd c)) (cols f)).

(** statsmodels' test for an existing constant column: [np.ptp(s) == 0] and
    [np.any(s != 0)] (the range is zero, some entry is not). *)
Definition is_constant_column (c : list R) : bool :=
  match c with
  | [] => false
  | x :: c' => forallb (Reqb x) c' && any_nonzero c
  end.

(** [sm.add_constant(X)], [prepend=True], [has_constant='skip']: a column
    ["const"] of ones in front, unless the frame already holds a constant
    column. *)
Definition add_constant (f : frame) : frame :=
  if existsb (fun c => is_constant_column (snd c)) (cols f) then f
  else mkFrame (nrows f) (("const", repeat 1 (nrows f)) :: cols f).

(** [Series.iloc[idx]]: positional selection; a position out of range raises
    [IndexError] ([None]). *)
Definition series_iloc (s : list R) (idx : list nat) : option (list R) :=
  sequence_opt (map (fun i => nth_error s i) idx).

(** [DataFrame.iloc[idx]]: the rows at the positions [idx], in that order. *)
Definition frame_iloc (f : frame) (idx : list nat) : option frame :=
  if forallb (fun i => (i <? nrows f)%nat) idx then
    match sequence_opt (map (fun c => match series_iloc (snd c) idx with
                                      | Some v => Some (fst c, v)
                                      | None => None
                                      end) (cols f)) with
    | Some cs => Some (mkFrame (List.length idx) cs)
    | None => None
    end
  else None.

(** The rows of a frame, each in column order: the matrix handed to the
    solver and to [model.predict]. *)
Definition frame_row (f : frame) (i : nat) : list R :=
  map (fun c => nth i (snd c) 0) (cols f).

Definition frame_rows (f : frame) : list (list R) :=
  map (frame_row f) (seq 0 (nrows f)).

(* ===================================================================== *)
(** * Model Analysis tab: data preparation (lines 611-651) *)
(* ===================================================================== *)

(** A row of [df_model]: a row of [df] with the added columns [Year], [Month]
    and [Season], all three derived from [Date]. *)
Record model_row := mkModelRow {
  base : transaction;
  Year : string;
  Month : Z;
  Season : option string
}.

Definition prepare_model_row (t : transaction) : model_row :=
  mkModelRow t (str_of_Z (d_year (Date t))) (d_month (Date t))
             (model_Season (d_month (Date t))).

(** [y = np.log1p(df_model["money"])]. *)
Definition target (df_model : list model_row) : list R :=
  map (fun r => log1p (money (base r))) df_model.

(** The feature lists of lines 629-630.  Every name is a column of [df_model],
    so the comprehensions of lines 633-634 keep both lists whole. *)
Definition categorical_cols : list string :=
  ["coffee_name"; "Time_of_Day"; "Year"; "Season"]%string.

Definition numerical_cols : list string :=
  ["hour"; "day_of_week"; "month"]%string.

(** [df_model[col]] for a categorical column; NaN is [None]. *)
Definition categorical_value (col : string) (r : model_row) : option string :=
  if (col =? "coffee_name")%string then Some (coffee_name (base r))
  else if (col =? "Time_of_Day")%string then Some (Time_of_Day (base r))
  else if (col =? "Year")%string then Some (Year r)
  else Season r.

(** [df_model[col]] for a numeric column. *)
Definition numeric_value (col : string) (r : model_row) : R :=
  if (col =? "hour")%string then IZR (hour (base r))
  else if (col =? "day_of_week")%string then IZR (day_of_week (base r))
  else IZR (month (base r)).

Definition numeric_column (col : string) (df_model : list model_row) : list R :=
  map (numeric_value col) df_model.

(** The indicator columns [pd.get_dummies] makes of one column with
    [drop_first=True]: one per level but the first, named [col_level]. *)
Definition indicator (level : string) (v : option string) : R :=
  match v with
  | Some s => if (s =? level)%string then 1 else 0
  | None => 0
  end.

Definition dummy_columns (col : string) (vals : list (option string))
  : list (string * list R) :=
  map (fun level => ((col ++ "_" ++ level)%string, map (indicator level) vals))
      (tl (sorted_unique (somes vals))).

Definition get_dummies (df_model : list model_row) : frame :=
  mkFrame (List.length df_model)
    (flat_map (fun col => dummy_columns col (map (categorical_value col) df_model))
              categorical_cols).

(** [(column - column.mean()) / column.std()]. *)
Definition standardize (v : list R) : list R :=
  map (fun x => (x - mean v) / std v) v.

(** [X_num], lines 640-643 ([numerical_cols] is never empty). *)
Definition X_num (df_model : list model_row) : frame :=
  mkFrame (List.length df_model)
    (map (fun col => (col, standardize (numeric_column col df_model))) numerical_cols).

Definition X_combined (df_model : list model_row) : frame :=
  drop_zero_columns (concat_columns (X_num df_model) (get_dummies df_model)).

Definition X_final (df_model : list model_row) : frame :=
  add_constant (X_combined df_model).

(** No numeric feature has deviation zero: the tables on which line 643
    divides by a number that is not zero. *)
Definition no_constant_feature (df_model : list model_row) : Prop :=
  forall col, In col numerical_cols -> std (numeric_column col df_model) <> 0.

(* ===================================================================== *)
(** * Train/test split sizes (lines 654-655) *)
(* ===================================================================== *)

(** [int(0.8 * n)], with the product taken exactly (the product of doubles
    has the same integer part for every [n] below 2^53: it is off by less
    than half a unit in the last place, and four fifths of [n] is an integer
    or at least a fifth away from one). *)
Definition train_size (n : nat) : nat :=
  Z.to_nat (Qfloor (0.8 * inject_Z (Z.of_nat n))%Q).

(* ===================================================================== *)
(** * Predictor (lines 686-726) *)
(* ===================================================================== *)

Record prediction_input := mkInput {
  input_coffee : string;
  input_cash_type : string;
  input_time_of_day : string;
  input_year : Z;
  input_month : Z;
  input_day_of_week : Z;
  input_hour : Z
}.

(** The one-row frame [input_df]: its labelled cells in column order. *)
Definition input_frame := list (string * R).

Definition zero_row (cols : list string) : input_frame :=
  map (fun c => (c, 0)) cols.

Definition has_column (name : string) (row : input_frame) : bool :=
  str_in name (map fst row).

Definition assign (name : string) (v : R) (row : input_frame) : input_frame :=
  map (fun c => if (fst c =? name)%string then (fst c, v) else c) row.

(** [input_df.loc[0, name] = v]: assignment; a label that is not a column
    yet is added as a new last column. *)
Definition loc_set (name : string) (v : R) (row : input_frame) : input_frame :=
  if has_column name row then assign name v row else (row ++ [(name, v)])%list.

(** [if name in input_df.columns: input_df[name] = v]. *)
Definition set_if_present (name : string) (v : R) (row : input_frame) : input_frame :=
  if has_column name row then assign name v row else row.

Fixpoint cell (name : string) (row : input_frame) : option R :=
  match row with
  | [] => None
  | (c, v) :: row' => if (c =? name)%string then Some v else cell name row'
  end.

(** [input_df[x_train.columns]]: the cells in the order of the training
    columns; a label missing from [input_df] raises [KeyError] ([None]). *)
Definition reindex (cols : list string) (row : input_frame) : option (list R) :=
  sequence_opt (map (fun c => cell c row) cols).

(** The row after lines 687-689: zeros over the training columns, the
    intercept set to one. *)
Definition const_row (cols : list string) : input_frame :=
  loc_set "const" 1 (zero_row cols).

(** The dictionary [numerical_data] of lines 707-711. *)
Definition numerical_data (inp : prediction_input) (col : string) : R :=
  if (col =? "hour")%string then IZR (input_hour inp)
  else if (col =? "month")%string then IZR (input_month inp)
  else IZR (input_day_of_week inp).

Definition numerical_features : list string :=
  ["hour"; "month"; "day_of_week"]%string.

(** One turn of the loop of lines 714-719. *)
Definition standardize_input (df_model : list model_row) (train_cols : list string)
    (inp : prediction_input) (row : input_frame) (col : string) : input_frame :=
  if str_in col train_cols then
    let mean_val := mean (numeric_column col df_model) in
    let std_val := std (numeric_column col df_model) in
    loc_set col ((numerical_data inp col - mean_val) / std_val) row
  else row.

(** Lines 687-719: [input_df] before it is reordered. *)
Definition build_input (df_model : list model_row) (train_cols : list string)
    (inp : prediction_input) : input_frame :=
  let r := zero_row train_cols in
  let r := loc_set "const" 1 r in
  let r := set_if_present ("coffee_name_" ++ input_coffee inp) 1 r in
  let r := set_if_present ("Time_of_Day_" ++ input_time_of_day inp) 1 r in
  let r := set_if_present ("cash_type_" ++ input_cash_type inp) 1 r in
  let r := set_if_present ("Season_" ++ input_season (input_month inp)) 1 r in
  let r := set_if_present ("Year_" ++ str_of_Z (input_year inp)) 1 r in
  fold_left (standardize_input df_model train_cols inp) numerical_features r.

(** Lines 722-726: reorder, predict on the log scale, transform back. *)
Definition log_prediction (params : list R) (df_model : list model_row)
    (train_cols : list string) (inp : prediction_input) : option R :=
  match reindex train_cols (build_input df_model train_cols inp) with
  | Some x => Some (dot params x)
  | None => None
  end.

Definition predict_sales (params : list R) (df_model : list model_row)
    (train_cols : list string) (inp : prediction_input) : option R :=
  option_map expm1 (log_prediction params df_model train_cols inp).

(** The value the prediction form supplies for an encoded column, and the
    five labels lines 692-703 test and set. *)
Definition input_category (col : string) (inp : prediction_input) : string :=
  if (col =? "coffee_name")%string then input_coffee inp
  else if (col =? "Time_of_Day")%string then input_time_of_day inp
  else if (col =? "Year")%string then str_of_Z (input_year inp)
  else input_season (input_month inp).

Definition derived_labels (inp : prediction_input) : list string :=
  [ "coffee_name_" ++ input_coffee inp;
    "Time_of_Day_" ++ input_time_of_day inp;
    "cash_type_" ++ input_cash_type inp;
    "Season_" ++ input_season (input_month inp);
    "Year_" ++ str_of_Z (input_year inp) ]%string.

(** The same input with another payment type. *)
Definition with_cash_type (c : string) (inp : prediction_input) : prediction_input :=
  mkInput (input_coffee inp) c (input_time_of_day inp) (input_year inp)
          (input_month inp) (input_day_of_week inp) (input_hour inp).

(* ===================================================================== *)
(** * Evaluator (lines 732-738) *)
(* ===================================================================== *)

(** [model.predict(x)]: one fitted value per row. *)
Definition model_predict (params : list R) (x : frame) : list R :=
  map (dot params) (frame_rows x).

Fixpoint squared_errors (y y_pred : list R) : list R :=
  match y, y_pred with
  | a :: y', b :: p' => (a - b) ^ 2 :: squared_errors y' p'
  | _, _ => []
  end.

Record metrics := mkMetrics { r2 : R; rmse : R }.

Definition evaluate (y_test y_pred : list R) : metrics :=
  let ssr := Rsum (squared_errors y_test y_pred) in
  let sst := Rsum (map (fun a => (a - mean y_test) ^ 2) y_test) in
  mkMetrics (1 - ssr / sst) (sqrt (mean (squared_errors y_test y_pred))).

(** What statsmodels documents of [OLS(y, X).fit().params]: one coefficient
    per column, and no coefficient vector has a smaller residual sum of
    squares on the rows it was fitted on. *)
Definition rss (rows : list (list R)) (y b : list R) : R :=
  Rsum (squared_errors y (map (dot b) rows)).

Definition least_squares (rows : list (list R)) (y b : list R) : Prop :=
  List.length b = List.length (hd [] rows) /\
  forall b', List.length b' = List.length b -> rss rows y b <= rss rows y b'.

(** The metrics in the words of the specification, as sums over the
    positions of the held-out rows: the residual sum of squares, the total
    sum of squares about the mean of the held-out targets, their quotient
    subtracted from one, and the root of the mean squared residual. *)
Definition sum_over (n : nat) (f : nat -> R) : R := Rsum (map f (seq 0 n)).

Definition spec_RSS (y y_hat : list R) : R :=
  sum_over (List.length y) (fun i => (nth i y 0 - nth i y_hat 0) ^ 2).

Definition spec_mean (y : list R) : R :=
  sum_over (List.length y) (fun i => nth i y 0) / INR (List.length y).

Definition spec_TSS (y : list R) : R :=
  sum_over (List.length y) (fun i => (nth i y 0 - spec_mean y) ^ 2).

Definition spec_R2 (y y_hat : list R) : R := 1 - spec_RSS y y_hat / spec_TSS y.

Definition spec_RMSE (y y_hat : list R) : R :=
  sqrt (spec_RSS y y_hat / INR (List.length y)).

(* ===================================================================== *)
(** * The script as a computation: what it shows and how it ends *)
(* ===================================================================== *)

(** What a run of the script puts on the page, in order.  Of tabs 1 to 5
    only the three KPI cards are kept; the charts are rendering. *)
Inductive ui_event :=
| st_error (msg : string)
| st_warning (msg : string)
| st_sidebar_warning (msg : string)
| st_metric (title : string) (value : R)
| st_subheader (text : string)
| st_predicted_sales (prediction : R)
| st_r2_score (value : R)
| st_rmse (value : R).

(** How a block of the script ends: it falls through with a value, the
    function returns early, [st.stop()] ends the run, or an exception is
    raised. *)
Inductive flow (A : Type) :=
| Next (a : A)
| Return
| Stop
| Raise (exn : string).
Arguments Next {A} a.
Arguments Return {A}.
Arguments Stop {A}.
Arguments Raise {A} exn.

Definition script (A : Type) : Type := (flow A * list ui_event)%type.

Definition ret {A : Type} (a : A) : script A := (Next a, []).

Definition bind {A B : Type} (m : script A) (k : A -> script B) : script B :=
  match fst m with
  | Next a => (fst (k a), (snd m ++ snd (k a))%list)
  | Return => (Return, snd m)
  | Stop => (Stop, snd m)
  | Raise e => (Raise e, snd m)
  end.

Definition emit (e : ui_event) : script unit := (Next tt, [e]).
Definition return_ {A : Type} : script A := (Return, []).
Definition st_stop {A : Type} : script A := (Stop, []).
Definition raise {A : Type} (e : string) : script A := (Raise e, []).

Declare Scope script_scope.
Delimit Scope script_scope with script.
Notation "x <- m ;; k" := (bind m (fun x => k))
  (at level 61, m at next level, right associativity) : script_scope.
Notation "m ;; k" := (bind m (fun _ => k))
  (at level 61, right associativity) : script_scope.

Definition events {A : Type} (m : script A) : list ui_event := snd m.
Definition outcome {A : Type} (m : script A) : flow A := fst m.

(** Does the run show a prediction or a test-set metric? *)
Definition is_model_output (e : ui_event) : bool :=
  match e with
  | st_predicted_sales _ | st_r2_score _ | st_rmse _ => true
  | _ => false
  end.

Definition msg_file_not_found : string :=
  "Error: The file 'Coffe_sales.csv' was not found. Please ensure it's in the same directory as the script.".
Definition msg_date_range : string := "Please select a valid date range.".
Definition msg_no_data : string :=
  "No data available for the selected filters. Please adjust your selections.".
Definition msg_not_enough : string :=
  "Not enough data to train the model with the current filters. Please broaden your date range.".

(** The state of the sidebar and of the prediction form in one run. *)
Record widgets := mkWidgets {
  date_range : list date;
  selected_coffees : list string;
  selected_cash_types : list string;
  selected_seasons : list string;
  selected_times : list string;
  predict_clicked : bool;
  inputs : prediction_input
}.

(** The same sidebar with another prediction form. *)
Definition with_inputs (inp : prediction_input) (w : widgets) : widgets :=
  mkWidgets (date_range w) (selected_coffees w) (selected_cash_types w)
            (selected_seasons w) (selected_times w) (predict_clicked w) inp.

(** Lines 139 and 156-159: the date window, then the four [isin] masks. *)
Definition filter_dates (start_date end_date : date) (df : DataFrame) : DataFrame :=
  filter (fun t => date_leb start_date (Date t) && date_leb (Date t) end_date) df.

Definition filter_isin (col : transaction -> string) (selected : list string)
    (df : DataFrame) : DataFrame :=
  filter (fun t => str_in (col t) selected) df.

Definition apply_selections (w : widgets) (df : DataFrame) : DataFrame :=
  filter_isin Time_of_Day (selected_times w)
    (filter_isin season (selected_seasons w)
      (filter_isin cash_type (selected_cash_types w)
        (filter_isin coffee_name (selected_coffees w) df))).

(** [DataFrame.empty] for a table of transactions. *)
Definition df_empty (df : DataFrame) : bool := (List.length df =? 0)%nat.

(** Tab 1, lines 175-184. *)
Definition kpi_tab (df_filtered : DataFrame) : script unit :=
  (emit (st_metric "Total Sales" (Rsum (map money df_filtered))) ;;
   emit (st_metric "Total Orders" (INR (List.length df_filtered))) ;;
   emit (st_metric "Avg. Order Value" (mean (map money df_filtered))))%script.


(* ===================================================================== *)
(** * Sidebar options and the aggregations of tabs 1, 3 and 4 *)
(* ===================================================================== *)

(** The strict order in which pandas and [sorted] arrange strings. *)
Definition slt (a b : string) : Prop := String.compare a b = Lt.

(** [sorted(df_filtered[col].unique())], the options of a multiselect and
    its default selection (lines 144-154). *)
Definition options (col : transaction -> string) (df : DataFrame) : list string :=
  sorted_unique (map col df).

(** The literal list of line 150. *)
Definition all_seasons : list string := ["Winter"; "Spring"; "Summer"; "Fall"]%string.

(** The sidebar as it opens: a date window and every option selected. *)
Definition default_widgets (start_date end_date : date) (df : DataFrame)
    (clicked : bool) (inp : prediction_input) : widgets :=
  let df_dates := filter_dates start_date end_date df in
  mkWidgets [start_date; end_date]
            (options coffee_name df_dates) (options cash_type df_dates)
            all_seasons (options Time_of_Day df_dates) clicked inp.

(** [df.groupby(key)['money'].sum().reset_index()] and
    [df.groupby(key).size().reset_index()] for a column of strings: one row
    per value present, in increasing order of the value. *)
Definition group (key : transaction -> string) (k : string) (df : DataFrame) : DataFrame :=
  filter (fun t => (key t =? k)%string) df.

Definition groupby_sum (key : transaction -> string) (df : DataFrame)
  : list (string * R) :=
  map (fun k => (k, Rsum (map money (group key k df)))) (sorted_unique (map key df)).

Definition groupby_size (key : transaction -> string) (df : DataFrame)
  : list (string * nat) :=
  map (fun k => (k, List.length (group key k df))) (sorted_unique (map key df)).

(** Tab 1, lines 190-194: sales and orders by [is_weekend], [False] before
    [True], the key then renamed. *)
Definition day_type (b : bool) : string := if b then "Weekend" else "Weekday".

Definition weekend_keys (df : DataFrame) : list bool :=
  filter (fun b => existsb (fun t => Bool.eqb (is_weekend t) b) df) [false; true].

Definition weekday_weekend_sales (df : DataFrame) : list (string * R) :=
  map (fun b => (day_type b,
                 Rsum (map money (filter (fun t => Bool.eqb (is_weekend t) b) df))))
      (weekend_keys df).

Definition weekday_weekend_counts (df : DataFrame) : list (string * nat) :=
  map (fun b => (day_type b,
                 List.length (filter (fun t => Bool.eqb (is_weekend t) b) df)))
      (weekend_keys df).

(** Tab 3, lines 292-313: the summary by season and the four metrics read
    from it. *)
Record season_row := mkSeasonRow {
  sr_season : string; total_sales : R; total_orders : nat
}.

Definition seasonal_summary (df : DataFrame) : list season_row :=
  map (fun k => mkSeasonRow k (Rsum (map money (group season k df)))
                            (List.length (group season k df)))
      (sorted_unique (map season df)).

(** [summary[summary['season'] == name]['total_sales'].sum()]. *)
Definition season_sales (name : string) (df : DataFrame) : R :=
  Rsum (map total_sales
            (filter (fun r => (sr_season r =? name)%string) (seasonal_summary df))).

(** Tab 4, line 447. *)
Definition sales_by_payment (df : DataFrame) : list (string * R) :=
  groupby_sum cash_type df.

(** The prediction form filled with the values of a row of the table. *)
Definition input_of_row (t : transaction) (payment : string) : prediction_input :=
  mkInput (coffee_name t) payment (Time_of_Day t) (year t) (month t)
          (day_of_week t) (hour t).

(** [df['Date'].min().date()] and [df['Date'].max().date()], the default of
    the date input (lines 134-136); NaT ([None]) for a table without
    rows. *)
Definition date_min (a b : date) : date := if date_leb a b then a else b.
Definition date_max (a b : date) : date := if date_leb a b then b else a.

Definition min_date (df : DataFrame) : option date :=
  match df with
  | [] => None
  | t :: df' => Some (fold_right date_min (Date t) (map Date df'))
  end.

Definition max_date (df : DataFrame) : option date :=
  match df with
  | [] => None
  | t :: df' => Some (fold_right date_max (Date t) (map Date df'))
  end.
(* ===================================================================== *)
(** * Sample instances of the library functions and sample data *)
(* ===================================================================== *)

(** A generator for the examples: its state counts the draws, seeding sets
    the counter, and a draw returns the positions in decreasing order. *)
Definition sample_seed (s : Z) : nat := Z.to_nat s.

Definition sample_permutation (n : nat) (s : nat) : list nat * nat :=
  (rev (seq 0 n), S s).

(** A timestamp parser for the examples: the time must start with two
    digits, the hour. *)
Definition digit (a : ascii) : option Z :=
  let n := Z.of_N (N_of_ascii a) in
  if ((48 <=? n) && (n <=? 57))%Z then Some (n - 48)%Z else None.

Definition sample_to_datetime (d : date) (t : string) : option timestamp :=
  match t with
  | String a (String b _) =>
      match digit a, digit b with
      | Some x, Some y => Some (mkTimestamp d (10 * x + y)%Z)
      | _, _ => None
      end
  | _ => None
  end.

(** The weekday of a date of the Gregorian calendar, Monday being 0, from the
    number of days since 1970-01-01 (a Thursday). *)
Definition days_from_civil (d : date) : Z :=
  let y := (if d_month d <=? 2 then d_year d - 1 else d_year d)%Z in
  let era := (y / 400)%Z in
  let yoe := (y - era * 400)%Z in
  let mp := ((d_month d + 9) mod 12)%Z in
  let doy := ((153 * mp + 2) / 5 + d_day d - 1)%Z in
  let doe := (yoe * 365 + yoe / 4 - yoe / 100 + doy)%Z in
  (era * 146097 + doe - 719468)%Z.

Definition sample_dayofweek (ts : timestamp) : Z :=
  ((days_from_civil (ts_date ts) + 3) mod 7)%Z.

(** Five sales of one product in the spring of 2024. *)
Definition sample_rows : list csv_row :=
  [ mkCsvRow (mkDate 2024 3 1) "08:15:50" "card" "Latte" 15 "Morning";
    mkCsvRow (mkDate 2024 3 4) "09:02:11" "cash" "Latte" 7 "Morning";
    mkCsvRow (mkDate 2024 4 1) "10:40:00" "card" "Latte" 3 "Morning";
    mkCsvRow (mkDate 2024 4 2) "11:05:27" "cash" "Latte" 1 "Morning";
    mkCsvRow (mkDate 2024 5 1) "12:30:45" "card" "Latte" 0 "Morning" ].

(** The rows of the frame [load_data] makes of them. *)
Definition sale_0 : transaction :=
  mkTransaction (mkDate 2024 3 1) "card" "Latte" 15 "Morning"
    (mkTimestamp (mkDate 2024 3 1) 8) 8 3 4 2024 "Spring" false.
Definition sale_1 : transaction :=
  mkTransaction (mkDate 2024 3 4) "cash" "Latte" 7 "Morning"
    (mkTimestamp (mkDate 2024 3 4) 9) 9 3 0 2024 "Spring" false.
Definition sale_2 : transaction :=
  mkTransaction (mkDate 2024 4 1) "card" "Latte" 3 "Morning"
    (mkTimestamp (mkDate 2024 4 1) 10) 10 4 0 2024 "Spring" false.
Definition sale_3 : transaction :=
  mkTransaction (mkDate 2024 4 2) "cash" "Latte" 1 "Morning"
    (mkTimestamp (mkDate 2024 4 2) 11) 11 4 1 2024 "Spring" false.
Definition sale_4 : transaction :=
  mkTransaction (mkDate 2024 5 1) "card" "Latte" 0 "Morning"
    (mkTimestamp (mkDate 2024 5 1) 12) 12 5 2 2024 "Spring" false.

Definition sample_df : DataFrame := [sale_0; sale_1; sale_2; sale_3; sale_4].

(** A prediction for a late hour. *)
Definition sample_input : prediction_input :=
  mkInput "Latte" "card" "Morning" 2024 3 0 23.

(** Sidebars: everything selected; card payments only; no coffee selected. *)
Definition sample_widgets : widgets :=
  mkWidgets [mkDate 2024 3 1; mkDate 2024 5 1] ["Latte"] ["card"; "cash"]
            ["Winter"; "Spring"; "Summer"; "Fall"] ["Morning"] true sample_input.

Definition card_only_widgets : widgets :=
  mkWidgets [mkDate 2024 3 1; mkDate 2024 5 1] ["Latte"] ["card"]
            ["Winter"; "Spring"; "Summer"; "Fall"] ["Morning"] true sample_input.

(** A date window of one day: only the first sale is kept. *)
Definition one_day_widgets : widgets :=
  mkWidgets [mkDate 2024 3 1; mkDate 2024 3 1] ["Latte"] ["card"; "cash"]
            ["Winter"; "Spring"; "Summer"; "Fall"] ["Morning"] true sample_input.

Definition no_coffee_widgets : widgets :=
  mkWidgets [mkDate 2024 3 1; mkDate 2024 5 1] [] ["card"; "cash"]
            ["Winter"; "Spring"; "Summer"; "Fall"] ["Morning"] true sample_input.

(** The table of the model tab for the sample, and its numeric columns. *)
Definition sample_model : list model_row := map prepare_model_row sample_df.

Definition sample_hours : list R := [8; 9; 10; 11; 12].
Definition sample_weekdays : list R := [4; 0; 0; 1; 2].
Definition sample_months : list R := [3; 3; 4; 4; 5].

(** Coefficients that fit every row of the sample exactly. *)
Definition sample_exact_fit : list R :=
  [2 * ln 2; - ln 2 * std sample_hours; 0; 0].

(** A table with two products, and an input for a third. *)
Definition sale_americano : transaction :=
  mkTransaction (mkDate 2024 3 4) "cash" "Americano" 7 "Morning"
    (mkTimestamp (mkDate 2024 3 4) 9) 9 3 0 2024 "Spring" false.

Definition two_coffees : DataFrame := [sale_0; sale_americano].

Definition mocha_input : prediction_input :=
  mkInput "Mocha" "card" "Morning" 2024 3 0 9.

(** The five sales again, the second one an Americano: two products, and
    no numeric column constant. *)
Definition two_products : DataFrame :=
  [sale_0; sale_americano; sale_2; sale_3; sale_4].

(** Six sales, so that two rows are held out. *)
Definition sale_5 : transaction :=
  mkTransaction (mkDate 2024 5 2) "cash" "Latte" 31 "Afternoon"
    (mkTimestamp (mkDate 2024 5 2) 13) 13 5 3 2024 "Spring" false.

Definition six_sales : DataFrame :=
  [sale_0; sale_1; sale_2; sale_3; sale_4; sale_5].

Definition six_model : list model_row := map prepare_model_row six_sales.


(** A date window entered backwards. *)
Definition inverted_widgets : widgets :=
  mkWidgets [mkDate 2024 5 1; mkDate 2024 3 1] ["Latte"] ["card"; "cash"]
            ["Winter"; "Spring"; "Summer"; "Fall"] ["Morning"] true sample_input.

(* ===================================================================== *)
(** * The dashboard, over the library functions it calls *)
(* ===================================================================== *)

Section Dashboard.

Set Default Proof Using "Type".

(** [pd.to_datetime(Date + ' ' + Time, errors='coerce')]: [None] is NaT.
    The parser is applied row by row: it stands for pandas' parser once the
    format of the column is fixed (pandas infers one format for the whole
    column and coerces the rows of another format to NaT).  The [Date]
    column is taken as parsed already (line 91 raises on a date it cannot
    parse). *)
Variable to_datetime : date -> string -> option timestamp.
(** [Series.dt.dayofweek]: Monday is 0. *)
Variable dayofweek : timestamp -> Z.
(** numpy's global generator: [np.random.seed(s)] replaces its state by one
    computed from [s]; [np.random.permutation(n)] draws an arrangement of
    [range(n)] and advances the state. *)
Variable rng_state : Type.
Variable np_random_seed : Z -> rng_state.
Variable np_random_permutation : nat -> rng_state -> list nat * rng_state.
(** [sm.OLS(y, X).fit().params], [X] given by rows. *)
Variable OLS_fit : list R -> list (list R) -> list R.

(** What numpy documents of [np.random.permutation(n)]: the result is an
    arrangement of [0, ..., n-1]. *)
Definition permutation_contract : Prop :=
  forall (n : nat) (s : rng_state),
    Permutation (fst (np_random_permutation n s)) (seq 0 n).

(** Lines 91-116, one row: a row whose timestamp does not parse is
    dropped. *)
Definition preprocess (r : csv_row) : option transaction :=
  match to_datetime (csv_Date r) (csv_Time r) with
  | None => None
  | Some ts =>
      Some (mkTransaction (csv_Date r) (csv_cash_type r) (csv_coffee_name r)
              (csv_money r) (csv_Time_of_Day r) ts
              (ts_hour ts) (d_month (ts_date ts)) (dayofweek ts)
              (d_year (ts_date ts))
              (get_season (d_month (ts_date ts)))
              (Z_in (dayofweek ts) [5; 6]%Z))
  end.

(** [load_data]: [None] for the file stands for [FileNotFoundError]. *)
Definition load_data (file : option (list csv_row)) : script (option DataFrame) :=
  match file with
  | None => (emit (st_error msg_file_not_found) ;; ret None)%script
  | Some rows => ret (Some (somes (map preprocess rows)))
  end.

(** Lines 654-662: the positions of the train and of the test rows.  The
    generator is seeded on the spot, whatever its state was. *)
Definition split_indices (n : nat) (s0 : rng_state)
  : (list nat * list nat) * rng_state :=
  let s1 := np_random_seed 42 in
  let idx := fst (np_random_permutation n s1) in
  ((firstn (train_size n) idx, skipn (train_size n) idx),
   snd (np_random_permutation n s1)).

Definition train_idx (n : nat) (s0 : rng_state) : list nat :=
  fst (fst (split_indices n s0)).
Definition test_idx (n : nat) (s0 : rng_state) : list nat :=
  snd (fst (split_indices n s0)).

(** The four partitions of lines 661-662. *)
Record partitions := mkPartitions {
  x_train : frame; x_test : frame; y_train : list R; y_test : list R
}.

Definition split (X : frame) (y : list R) (s0 : rng_state) : option partitions :=
  match frame_iloc X (train_idx (nrows X) s0), frame_iloc X (test_idx (nrows X) s0),
        series_iloc y (train_idx (nrows X) s0), series_iloc y (test_idx (nrows X) s0) with
  | Some xtr, Some xte, Some ytr, Some yte => Some (mkPartitions xtr xte ytr yte)
  | _, _, _, _ => None
  end.

(** [sm.OLS(y_train, x_train).fit()]. *)
Definition fit (p : partitions) : list R :=
  OLS_fit (y_train p) (frame_rows (x_train p)).

(** Lines 685-728: the prediction form, when its button was pressed. *)
Definition prediction_form (params : list R) (df_model : list model_row)
    (p : partitions) (w : widgets) : script unit :=
  if predict_clicked w then
    match predict_sales params df_model (columns (x_train p)) (inputs w) with
    | Some prediction => emit (st_predicted_sales prediction)
    | None => raise "KeyError"
    end
  else ret tt.

(** Lines 731-741. *)
Definition evaluation (params : list R) (p : partitions) : script unit :=
  (emit (st_subheader "Model Performance on Test Set") ;;
   emit (st_r2_score (r2 (evaluate (y_test p) (model_predict params (x_test p))))) ;;
   emit (st_rmse (rmse (evaluate (y_test p) (model_predict params (x_test p))))))%script.

(** Tab 6, lines 609-741.  [df] is the frame [load_data] returned. *)
Definition model_tab (df : DataFrame) (w : widgets) (s0 : rng_state) : script unit :=
  let df_model := map prepare_model_row df in
  match split (X_final df_model) (target df_model) s0 with
  | None => raise "IndexError"
  | Some p =>
      if frame_empty (x_train p) || (List.length (y_train p) =? 0)%nat then
        emit (st_warning msg_not_enough)
      else
        (prediction_form (fit p) df_model p w ;;
         evaluation (fit p) p)%script
  end.

(** [create_dashboard], lines 121-741. *)
Definition create_dashboard (file : option (list csv_row)) (w : widgets)
    (s0 : rng_state) : script unit :=
  (loaded <- load_data file ;;
   match loaded with
   | None => return_
   | Some df =>
       match date_range w with
       | [start_date; end_date] =>
           let df_filtered := apply_selections w (filter_dates start_date end_date df) in
           if df_empty df_filtered then
             emit (st_warning msg_no_data) ;; return_
           else
             kpi_tab df_filtered ;;
             model_tab df w s0
       | _ => emit (st_sidebar_warning msg_date_range) ;; st_stop
       end
   end)%script.

(** The coefficient vector a run fits, when it gets that far. *)
Definition fitted_model (df : DataFrame) (s0 : rng_state) : option (list R) :=
  let df_model := map prepare_model_row df in
  match split (X_final df_model) (target df_model) s0 with
  | None => None
  | Some p =>
      if frame_empty (x_train p) || (List.length (y_train p) =? 0)%nat then None
      else Some (fit p)
  end.
(** An equation between a literal and an element of a literal list of
    labels: every case is decided by comparing constructors. *)
Ltac label_cases H :=
  cbn in H; repeat (destruct H as [H | H]; try discriminate H); try contradiction.

Ltac pick_disjunct :=
  first [ reflexivity | assumption | left; pick_disjunct | right; pick_disjunct ].

(* =================================================================== *)
(** * Seasons *)
(* =================================================================== *)

Lemma valid_month_cases (m : Z) :
  valid_month m ->
  (m = 1 \/ m = 2 \/ m = 3 \/ m = 4 \/ m = 5 \/ m = 6 \/
   m = 7 \/ m = 8 \/ m = 9 \/ m = 10 \/ m = 11 \/ m = 12)%Z.
Proof. unfold valid_month; lia. Qed.

(** [get_season] is defined on every integer and follows the sets of the
    specification, with the label "Fall" for the fourth season. *)
Lemma get_season_spec (m : Z) :
  get_season m = label_preprocessing (spec_season m).
Proof.
  unfold get_season, spec_season.
  destruct (Z_in m [12; 1; 2]%Z); [reflexivity|].
  destruct (Z_in m [3; 4; 5]%Z); [reflexivity|].
  destruct (Z_in m [6; 7; 8]%Z); reflexivity.
Qed.

(** The prediction form computes what [get_season] computes. *)
Lemma input_season_get_season (m : Z) : input_season m = get_season m.
Proof. reflexivity. Qed.

(** The dictionary of the model tab is defined on the twelve months and
    follows the same sets, with the label "Autumn" for the fourth. *)
Lemma model_Season_spec (m : Z) :
  valid_month m -> model_Season m = Some (label_model (spec_season m)).
Proof.
  intros H. apply valid_month_cases in H.
  repeat (destruct H as [H | H]; [subst m; reflexivity|]).
  subst m; reflexivity.
Qed.

(** Outside the twelve months the dictionary has no entry. *)
Lemma model_Season_total_only_on_months (m : Z) :
  model_Season m <> None <-> valid_month m.
Proof.
  split.
  - unfold model_Season, Season_map, valid_month. cbn [dict_get].
    repeat match goal with
           | |- context [(m =? ?k)%Z] => destruct (Z.eqb_spec m k); [lia|]
           end.
    intros H; exfalso; apply H; reflexivity.
  - intros H. rewrite (model_Season_spec m H). discriminate.
Qed.

(** The three places agree on every month of winter, spring and summer. *)
Lemma season_labels_agree_outside_fourth (m : Z) :
  valid_month m -> spec_season m <> FourthSeason ->
  model_Season m = Some (get_season m) /\ input_season m = get_season m.
Proof.
  intros Hm Hc. split; [|reflexivity].
  rewrite (model_Season_spec m Hm), get_season_spec.
  destruct (spec_season m); try reflexivity. contradiction.
Qed.

(** C3 (the code at months 9, 10 and 11): preprocessing and the prediction
    form label the fourth season "Fall", the feature builder of the model
    tab labels it "Autumn"; the same month gets two labels. *)
Theorem season_label_mismatch :
  Forall (fun m => get_season m = "Fall" /\
                   input_season m = "Fall" /\
                   model_Season m = Some "Autumn" /\
                   model_Season m <> Some (get_season m))
         [9; 10; 11]%Z.
Proof.
  repeat constructor; cbv; discriminate.
Qed.

(* =================================================================== *)
(** * The training schema: which columns [X_final] can have *)
(* =================================================================== *)

Lemma str_in_In (s : string) (l : list string) : str_in s l = true <-> In s l.
Proof.
  unfold str_in. rewrite existsb_exists. split.
  - intros [x [Hx He]]. apply String.eqb_eq in He. now subst.
  - intros H. exists s. split; [assumption | apply String.eqb_refl].
Qed.

Lemma str_in_false (s : string) (l : list string) :
  str_in s l = false <-> ~ In s l.
Proof.
  rewrite <- str_in_In. destruct (str_in s l); split; intros; congruence.
Qed.

Lemma columns_add_constant (f : frame) :
  incl (columns (add_constant f)) ("const" :: columns f).
Proof.
  unfold add_constant.
  destruct (existsb _ (cols f)); unfold columns; cbn [cols map fst].
  - apply incl_tl, incl_refl.
  - apply incl_refl.
Qed.

Lemma columns_drop_zero_columns (f : frame) :
  incl (columns (drop_zero_columns f)) (columns f).
Proof.
  unfold columns, drop_zero_columns; cbn [cols].
  intros c Hc. apply in_map_iff in Hc as [x [<- Hx]].
  apply filter_In in Hx as [Hx _]. now apply in_map.
Qed.

Lemma columns_X_num (df_model : list model_row) :
  columns (X_num df_model) = numerical_cols.
Proof. reflexivity. Qed.

Lemma insert_level_In (s x : string) (l : list string) :
  In x (insert_level s l) -> x = s \/ In x l.
Proof.
  induction l as [|y l IH]; cbn.
  - intros [<- | []]; now left.
  - destruct (String.compare s y); cbn.
    + intros H; now right.
    + intros [<- | H]; [now left | now right].
    + intros [<- | H]; [right; now left|].
      destruct (IH H) as [-> | H']; [now left | right; now right].
Qed.

Lemma sorted_unique_In (x : string) (l : list string) :
  In x (sorted_unique l) -> In x l.
Proof.
  induction l as [|y l IH]; cbn; [intros []|].
  intros H. apply insert_level_In in H as [-> | H]; [now left | right; auto].
Qed.

Lemma somes_In {A : Type} (x : A) (l : list (option A)) :
  In x (somes l) <-> In (Some x) l.
Proof.
  induction l as [|[a|] l IH]; cbn; [split; intros [] | |].
  - rewrite IH. split; intros [H | H]; auto; left; congruence.
  - rewrite IH. split; [auto | intros [H | H]; [discriminate | auto]].
Qed.

Lemma tl_In {A : Type} (x : A) (l : list A) : In x (tl l) -> In x l.
Proof. destruct l; cbn; auto. Qed.

(** An indicator column is named after an encoded column and one of the
    values that column takes in the data. *)
Lemma columns_get_dummies (df_model : list model_row) (c : string) :
  In c (columns (get_dummies df_model)) ->
  exists col level r,
    In col categorical_cols /\ In r df_model /\
    categorical_value col r = Some level /\
    c = (col ++ "_" ++ level)%string.
Proof.
  unfold columns, get_dummies; cbn [cols].
  intros Hc. apply in_map_iff in Hc as [[name v] [Hn Hx]]. cbn in Hn. subst name.
  apply in_flat_map in Hx as [col [Hcol Hx]].
  unfold dummy_columns in Hx. apply in_map_iff in Hx as [level [He Hl]].
  apply tl_In, sorted_unique_In, somes_In, in_map_iff in Hl as [r [Hr Hin]].
  exists col, level, r. repeat split; try assumption. now inversion He.
Qed.

(** Every column of the feature matrix is the intercept, a numeric feature
    or an indicator [col_level] of one of the four encoded columns. *)
Lemma X_final_columns (df_model : list model_row) (c : string) :
  In c (columns (X_final df_model)) ->
  c = "const" \/ In c numerical_cols \/
  exists col level r,
    In col categorical_cols /\ In r df_model /\
    categorical_value col r = Some level /\
    c = (col ++ "_" ++ level)%string.
Proof.
  intros Hc. apply columns_add_constant in Hc. destruct Hc as [<- | Hc]; [now left|].
  right. apply columns_drop_zero_columns in Hc.
  unfold columns, concat_columns in Hc; cbn [cols] in Hc.
  rewrite map_app in Hc. apply in_app_or in Hc as [Hc | Hc].
  - left. exact Hc.
  - right. now apply (columns_get_dummies df_model).
Qed.

(** No column of the feature matrix is a payment-type indicator:
    [cash_type] is not among the encoded columns. *)
Lemma no_cash_type_column (df_model : list model_row) (payment : string) :
  ~ In ("cash_type_" ++ payment)%string (columns (X_final df_model)).
Proof.
  intros Hc. apply X_final_columns in Hc.
  destruct Hc as [Hc | [Hc | [col [level [r [Hcol [_ [_ Hc]]]]]]]].
  - discriminate Hc.
  - label_cases Hc.
  - cbn in Hcol. destruct Hcol as [<- | [<- | [<- | [<- | []]]]]; discriminate Hc.
Qed.

Lemma model_Season_values (m : Z) (s : string) :
  model_Season m = Some s ->
  s = "Winter" \/ s = "Spring" \/ s = "Summer" \/ s = "Autumn".
Proof.
  unfold model_Season, Season_map. cbn [dict_get].
  repeat match goal with
         | |- context [(m =? ?k)%Z] => destruct (m =? k)%Z; [intros [= <-]; pick_disjunct|]
         end.
  discriminate.
Qed.

(** The label the prediction form derives for a month of the fourth season
    names no column of the feature matrix, whatever the data: the test of
    line 700 fails for every such month. *)
Lemma no_Season_Fall_column (df : DataFrame) :
  ~ In "Season_Fall" (columns (X_final (map prepare_model_row df))).
Proof.
  intros Hc. apply X_final_columns in Hc.
  destruct Hc as [Hc | [Hc | [col [level [r [Hcol [Hr [Hv Hc]]]]]]]].
  - discriminate Hc.
  - label_cases Hc.
  - cbn in Hcol. destruct Hcol as [<- | [<- | [<- | [<- | []]]]]; try discriminate Hc.
    apply in_map_iff in Hr as [t [<- _]]. cbn in Hv.
    injection Hc as <-.
    apply model_Season_values in Hv.
    destruct Hv as [Hv | [Hv | [Hv | Hv]]]; discriminate Hv.
Qed.

(* =================================================================== *)
(** * The one-row frame of the prediction form *)
(* =================================================================== *)

Lemma labels_assign (name : string) (v : R) (row : input_frame) :
  map fst (assign name v row) = map fst row.
Proof.
  unfold assign. rewrite map_map. apply map_ext.
  intros [c x]; cbn. now destruct (c =? name)%string.
Qed.

Lemma labels_set_if_present (name : string) (v : R) (row : input_frame) :
  map fst (set_if_present name v row) = map fst row.
Proof.
  unfold set_if_present. destruct (has_column name row); [apply labels_assign | reflexivity].
Qed.

Lemma labels_loc_set (name : string) (v : R) (row : input_frame) :
  map fst (loc_set name v row) =
  if has_column name row then map fst row else (map fst row ++ [name])%list.
Proof.
  unfold loc_set. destruct (has_column name row); [apply labels_assign|].
  now rewrite map_app.
Qed.

Lemma labels_zero_row (cols : list string) : map fst (zero_row cols) = cols.
Proof.
  unfold zero_row. rewrite map_map. cbn. apply map_id.
Qed.

Lemma has_column_labels (name : string) (r r' : input_frame) :
  map fst r = map fst r' -> has_column name r = has_column name r'.
Proof. unfold has_column. now intros ->. Qed.

Lemma set_if_present_absent (name : string) (v : R) (row : input_frame) :
  has_column name row = false -> set_if_present name v row = row.
Proof. unfold set_if_present. now intros ->. Qed.

Lemma labels_const_row (cols : list string) :
  map fst (const_row cols) =
  if str_in "const" cols then cols else (cols ++ ["const"])%list.
Proof.
  unfold const_row. rewrite labels_loc_set. unfold has_column.
  now rewrite labels_zero_row.
Qed.

Lemma has_column_const_row (name : string) (cols : list string) :
  name <> "const" -> has_column name (const_row cols) = str_in name cols.
Proof.
  intros Hn. unfold has_column. rewrite labels_const_row.
  destruct (str_in "const" cols); [reflexivity|].
  unfold str_in. rewrite existsb_app. cbn.
  destruct (String.eqb_spec name "const"); [contradiction|].
  now rewrite !orb_false_r.
Qed.

Lemma standardize_input_labels df_model cols inp row col :
  incl cols (map fst row) ->
  map fst (standardize_input df_model cols inp row col) = map fst row.
Proof.
  intros Hincl. unfold standardize_input.
  destruct (str_in col cols) eqn:Hc; [|reflexivity].
  rewrite labels_loc_set.
  assert (H : has_column col row = true).
  { apply str_in_In, Hincl, str_in_In, Hc. }
  now rewrite H.
Qed.

Lemma numeric_loop_labels df_model cols inp (feats : list string) row :
  incl cols (map fst row) ->
  map fst (fold_left (standardize_input df_model cols inp) feats row) = map fst row.
Proof.
  revert row. induction feats as [|f feats IH]; intros row Hincl; cbn; [reflexivity|].
  rewrite IH.
  - now apply standardize_input_labels.
  - now rewrite standardize_input_labels.
Qed.

Lemma incl_labels_const_row (cols : list string) :
  incl cols (map fst (const_row cols)).
Proof.
  rewrite labels_const_row. destruct (str_in "const" cols).
  - apply incl_refl.
  - apply incl_appl, incl_refl.
Qed.

(** The labels of [input_df] when it reaches line 722: exactly the training
    columns, in their order, with ["const"] appended only if the schema
    lacks it. *)
Lemma labels_build_input df_model cols inp :
  map fst (build_input df_model cols inp) = map fst (const_row cols).
Proof.
  unfold build_input. fold (const_row cols).
  rewrite numeric_loop_labels; rewrite !labels_set_if_present;
    [reflexivity | apply incl_labels_const_row].
Qed.

Lemma cell_has_column (name : string) (row : input_frame) :
  has_column name row = true -> exists v, cell name row = Some v.
Proof.
  unfold has_column, str_in.
  induction row as [|[c x] row IH]; cbn; [discriminate|].
  rewrite String.eqb_sym.
  destruct (c =? name)%string; cbn; [eauto | exact IH].
Qed.

Lemma sequence_opt_all_some {A : Type} (l : list (option A)) :
  (forall x, In x l -> exists v, x = Some v) ->
  exists r, sequence_opt l = Some r /\ List.length r = List.length l.
Proof.
  induction l as [|x l IH]; intros H; cbn.
  - exists []. auto.
  - destruct (H x (or_introl eq_refl)) as [v ->].
    destruct IH as [r [-> Hr]]; [intros y Hy; apply H; now right|].
    exists (v :: r). cbn. auto.
Qed.

(** Line 722 never raises [KeyError]: every training column is a label of
    [input_df]. *)
Lemma reindex_succeeds df_model cols inp :
  exists x, reindex cols (build_input df_model cols inp) = Some x /\
            List.length x = List.length cols.
Proof.
  unfold reindex.
  destruct (sequence_opt_all_some
              (map (fun c => cell c (build_input df_model cols inp)) cols)) as [x [Hx Hl]].
  - intros o Ho. apply in_map_iff in Ho as [c [<- Hc]].
    apply cell_has_column. unfold has_column. rewrite labels_build_input.
    apply str_in_In, incl_labels_const_row, Hc.
  - exists x. split; [assumption|]. now rewrite length_map in Hl.
Qed.

(* =================================================================== *)
(** * The split keeps the schema *)
(* =================================================================== *)

Lemma sequence_opt_labelled {A B C : Type} (F : A * B -> option C)
    (l : list (A * B)) (r : list (A * C)) :
  sequence_opt (map (fun c => match F c with
                              | Some v => Some (fst c, v)
                              | None => None
                              end) l) = Some r ->
  map fst r = map fst l.
Proof.
  revert r. induction l as [|c l IH]; cbn; intros r H.
  - now injection H as <-.
  - destruct (F c); [|discriminate].
    destruct (sequence_opt _) eqn:E; [|discriminate].
    injection H as <-. cbn. f_equal. now apply IH.
Qed.

Lemma frame_iloc_columns (f g : frame) (idx : list nat) :
  frame_iloc f idx = Some g -> columns g = columns f.
Proof.
  unfold frame_iloc, columns.
  destruct (forallb _ idx); [|discriminate].
  destruct (sequence_opt _) eqn:E; [|discriminate].
  intros [= <-]. cbn [cols].
  now apply (sequence_opt_labelled (fun c => series_iloc (snd c) idx)).
Qed.

Lemma frame_iloc_nrows (f g : frame) (idx : list nat) :
  frame_iloc f idx = Some g -> nrows g = List.length idx.
Proof.
  unfold frame_iloc.
  destruct (forallb _ idx); [|discriminate].
  destruct (sequence_opt _); [|discriminate].
  now intros [= <-].
Qed.

Lemma split_x_train (X : frame) (y : list R) (s0 : rng_state) (p : partitions) :
  split X y s0 = Some p ->
  frame_iloc X (train_idx (nrows X) s0) = Some (x_train p) /\
  frame_iloc X (test_idx (nrows X) s0) = Some (x_test p) /\
  series_iloc y (train_idx (nrows X) s0) = Some (y_train p) /\
  series_iloc y (test_idx (nrows X) s0) = Some (y_test p).
Proof.
  unfold split.
  destruct (frame_iloc X (train_idx _ _)); [|discriminate].
  destruct (frame_iloc X (test_idx _ _)); [|discriminate].
  destruct (series_iloc y (train_idx _ _)); [|discriminate].
  destruct (series_iloc y (test_idx _ _)); [|discriminate].
  intros [= <-]. cbn. auto.
Qed.

(** The columns of [x_train] are the columns of [X_final]. *)
Lemma split_columns (X : frame) (y : list R) (s0 : rng_state) (p : partitions) :
  split X y s0 = Some p -> columns (x_train p) = columns X.
Proof.
  intros H. apply split_x_train in H as [H _]. now apply frame_iloc_columns in H.
Qed.

(* =================================================================== *)
(** * The payment type and the prediction *)
(* =================================================================== *)

Lemma build_input_cash_type df_model cols inp (c : string) :
  (forall payment, ~ In ("cash_type_" ++ payment)%string cols) ->
  build_input df_model cols (with_cash_type c inp) = build_input df_model cols inp.
Proof.
  intros Hno.
  assert (Habs : forall payment r,
             map fst r = map fst (const_row cols) ->
             set_if_present ("cash_type_" ++ payment) 1 r = r).
  { intros payment r Hr. apply set_if_present_absent.
    rewrite (has_column_labels _ _ _ Hr), has_column_const_row by discriminate.
    apply str_in_false, Hno. }
  unfold build_input. fold (const_row cols). cbn [with_cash_type input_coffee
    input_cash_type input_time_of_day input_year input_month].
  rewrite !Habs by (now rewrite !labels_set_if_present).
  reflexivity.
Qed.

Lemma predict_sales_cash_type params (df : DataFrame) inp (c : string) :
  predict_sales params (map prepare_model_row df)
                (columns (X_final (map prepare_model_row df))) (with_cash_type c inp)
  = predict_sales params (map prepare_model_row df)
                  (columns (X_final (map prepare_model_row df))) inp.
Proof.
  unfold predict_sales, log_prediction.
  rewrite build_input_cash_type; [reflexivity|].
  intros payment. apply no_cash_type_column.
Qed.

Lemma bind_ext {A B : Type} (m : script A) (k k' : A -> script B) :
  (forall a, k a = k' a) -> bind m k = bind m k'.
Proof.
  intros H. unfold bind. destruct (fst m); try reflexivity. now rewrite H.
Qed.

Lemma model_tab_cash_type (df : DataFrame) (w : widgets) (s0 : rng_state) (c : string) :
  model_tab df (with_inputs (with_cash_type c (inputs w)) w) s0 = model_tab df w s0.
Proof.
  unfold model_tab.
  destruct (split _ _ s0) as [p|] eqn:Hsplit; [|reflexivity].
  destruct (frame_empty (x_train p) || _); [reflexivity|].
  f_equal. unfold prediction_form. cbn [predict_clicked inputs with_inputs].
  destruct (predict_clicked w); [|reflexivity].
  rewrite (split_columns _ _ _ _ Hsplit), predict_sales_cash_type.
  reflexivity.
Qed.

Lemma create_dashboard_cash_type (file : option (list csv_row)) (w : widgets)
    (s0 : rng_state) (payment : string) :
  create_dashboard file (with_inputs (with_cash_type payment (inputs w)) w) s0
  = create_dashboard file w s0.
Proof.
  unfold create_dashboard.
  apply bind_ext. intros [df|]; [|reflexivity].
  cbn [date_range with_inputs].
  destruct (date_range w) as [|start_date [|end_date [|]]]; try reflexivity.
  change (apply_selections (with_inputs (with_cash_type payment (inputs w)) w))
    with (apply_selections w).
  destruct (df_empty _); [reflexivity|].
  apply bind_ext. intros _. apply model_tab_cash_type.
Qed.

(** C10: the payment type chosen in the prediction form has no effect.
    No indicator of [cash_type] is ever a training column, since
    [cash_type] is not among the encoded columns; so for every coefficient
    vector the predictor returns the same amount for two inputs that differ
    only in the payment type, and a whole run (flow and every event shown)
    is unchanged, whatever the file, the sidebar, the generator and the
    solver. *)
Theorem payment_type_never_influences_prediction :
  forall (file : option (list csv_row)) (w : widgets) (s0 : rng_state)
         (params : list R) (df : DataFrame) (inp : prediction_input)
         (payment : string),
    ~ In ("cash_type_" ++ payment)%string
         (columns (X_final (map prepare_model_row df))) /\
    predict_sales params (map prepare_model_row df)
                  (columns (X_final (map prepare_model_row df)))
                  (with_cash_type payment inp)
    = predict_sales params (map prepare_model_row df)
                    (columns (X_final (map prepare_model_row df))) inp /\
    create_dashboard file (with_inputs (with_cash_type payment (inputs w)) w) s0
    = create_dashboard file w s0.
Proof.
  intros file w s0 params df inp payment.
  split; [apply no_cash_type_column|].
  split; [apply predict_sales_cash_type | apply create_dashboard_cash_type].
Qed.

(* =================================================================== *)
(** * The intercept is always a training column *)
(* =================================================================== *)

Lemma Reqb_true (a b : R) : Reqb a b = true <-> a = b.
Proof. unfold Reqb. destruct (Req_dec_T a b); split; congruence. Qed.

Lemma Reqb_false (a b : R) : Reqb a b = false <-> a <> b.
Proof. unfold Reqb. destruct (Req_dec_T a b); split; congruence. Qed.

Lemma any_nonzero_true (c : list R) :
  any_nonzero c = true <-> exists x, In x c /\ x <> 0.
Proof.
  unfold any_nonzero. rewrite existsb_exists.
  split; intros [x [Hx Hn]]; exists x; split; try assumption.
  - apply Reqb_false. now destruct (Reqb x 0).
  - apply Reqb_false in Hn. now rewrite Hn.
Qed.

(** A constant column in the sense of [add_constant]: not empty, every
    entry the same non-zero number. *)
Lemma is_constant_column_true (c : list R) :
  is_constant_column c = true ->
  exists e, e <> 0 /\ c <> [] /\ forall x, In x c -> x = e.
Proof.
  destruct c as [|e c]; cbn [is_constant_column]; [discriminate|].
  intros H. apply andb_true_iff in H as [Hall Hany].
  rewrite forallb_forall in Hall.
  assert (Heq : forall x, In x (e :: c) -> x = e).
  { intros x [<- | Hx]; [reflexivity|]. symmetry. now apply Reqb_true, Hall. }
  exists e. repeat split; [|discriminate|exact Heq].
  apply any_nonzero_true in Hany as [x [Hx Hn]].
  now rewrite <- (Heq x Hx).
Qed.

Lemma Rsum_constant (e : R) (c : list R) :
  (forall x, In x c -> x = e) -> Rsum c = Rlen c * e.
Proof.
  unfold Rlen. induction c as [|x c IH]; intros H.
  - cbn. ring.
  - cbn [Rsum fold_right List.length]. fold (Rsum c). rewrite S_INR, IH.
    + rewrite (H x (or_introl eq_refl)). ring.
    + intros y Hy. apply H. now right.
Qed.

Lemma Rsum_shift_scale (m k : R) (v : list R) :
  Rsum (map (fun x => (x - m) * k) v) = (Rsum v - Rlen v * m) * k.
Proof.
  unfold Rlen. induction v as [|x v IH].
  - cbn. ring.
  - cbn [map Rsum fold_right List.length]. fold (Rsum v).
    fold (Rsum (map (fun x => (x - m) * k) v)). rewrite IH, S_INR. ring.
Qed.

Lemma Rlen_pos (v : list R) : v <> [] -> Rlen v <> 0.
Proof.
  intros H. unfold Rlen. apply not_0_INR. destruct v; [contradiction | discriminate].
Qed.

(** The entries of a standardized column sum to zero. *)
Lemma Rsum_standardize (v : list R) : Rsum (standardize v) = 0.
Proof.
  unfold standardize, Rdiv. rewrite Rsum_shift_scale.
  destruct v as [|x v]; [cbn; ring|].
  unfold mean. set (n := Rlen (x :: v)).
  assert (Hn : n <> 0) by (apply Rlen_pos; discriminate).
  replace (Rsum (x :: v) - n * (Rsum (x :: v) / n)) with 0 by (field; exact Hn).
  ring.
Qed.

Lemma standardize_not_constant (v : list R) :
  is_constant_column (standardize v) = false.
Proof.
  destruct (is_constant_column (standardize v)) eqn:E; [|reflexivity].
  exfalso. apply is_constant_column_true in E as [e [He [Hne Hall]]].
  pose proof (Rsum_constant e _ Hall) as Hs.
  rewrite Rsum_standardize in Hs.
  apply Rlen_pos in Hne.
  symmetry in Hs. apply Rmult_integral in Hs as [Hs | Hs]; contradiction.
Qed.

Lemma compare_refl (s : string) : String.compare s s = Eq.
Proof.
  induction s as [|a s IH]; cbn; [reflexivity|].
  unfold Ascii.compare. now rewrite N.compare_refl.
Qed.

Lemma sorted_unique_single (level : string) (l : list string) :
  (forall x, In x l -> x = level) ->
  sorted_unique l = [] \/ sorted_unique l = [level].
Proof.
  induction l as [|x l IH]; intros H; [now left|].
  right. cbn [sorted_unique fold_right]. fold (sorted_unique l).
  rewrite (H x (or_introl eq_refl)).
  destruct IH as [-> | ->]; [intros y Hy; apply H; now right| |].
  - reflexivity.
  - cbn. now rewrite compare_refl.
Qed.

Lemma indicator_nonzero (level : string) (v : option string) :
  indicator level v <> 0 -> v = Some level.
Proof.
  destruct v as [s|]; cbn; [|intros H; now contradiction H].
  destruct (String.eqb_spec s level); [now subst | intros H; now contradiction H].
Qed.

(** With [drop_first=True] no indicator column is all ones. *)
Lemma dummy_not_constant (level : string) (vals : list (option string)) :
  In level (tl (sorted_unique (somes vals))) ->
  is_constant_column (map (indicator level) vals) = false.
Proof.
  intros Hl.
  destruct (is_constant_column (map (indicator level) vals)) eqn:E; [|reflexivity].
  exfalso. apply is_constant_column_true in E as [e [He [_ Hall]]].
  assert (Hv : forall s, In s (somes vals) -> s = level).
  { intros s Hs. apply somes_In in Hs.
    assert (Hi : indicator level (Some s) = e) by (apply Hall; now apply in_map).
    assert (Hq : Some s = Some level) by (apply indicator_nonzero; now rewrite Hi).
    now injection Hq. }
  destruct (sorted_unique_single level _ Hv) as [Hq | Hq]; rewrite Hq in Hl; exact Hl.
Qed.

Lemma X_combined_no_constant (df_model : list model_row) :
  existsb (fun c => is_constant_column (snd c)) (cols (X_combined df_model)) = false.
Proof.
  destruct (existsb _ _) eqn:E; [|reflexivity]. exfalso.
  apply existsb_exists in E as [[name c] [Hin Hc]]. cbn [snd] in Hc.
  unfold X_combined, drop_zero_columns, concat_columns in Hin. cbn [cols] in Hin.
  apply filter_In in Hin as [Hin _]. apply in_app_or in Hin as [Hin | Hin].
  - unfold X_num in Hin. cbn [cols] in Hin.
    apply in_map_iff in Hin as [col [[= <- <-] _]].
    now rewrite standardize_not_constant in Hc.
  - unfold get_dummies in Hin. cbn [cols] in Hin.
    apply in_flat_map in Hin as [col [_ Hin]].
    unfold dummy_columns in Hin. apply in_map_iff in Hin as [level [[= <- <-] Hl]].
    now rewrite (dummy_not_constant _ _ Hl) in Hc.
Qed.

(** [sm.add_constant] always adds the column: [X_final] is [X_combined]
    with ["const"] in front. *)
Lemma X_final_unfold (df_model : list model_row) :
  X_final df_model =
  mkFrame (nrows (X_combined df_model))
          (("const", repeat 1 (nrows (X_combined df_model))) :: cols (X_combined df_model)).
Proof. unfold X_final, add_constant. now rewrite X_combined_no_constant. Qed.

Lemma const_in_X_final (df_model : list model_row) :
  In "const" (columns (X_final df_model)).
Proof. rewrite X_final_unfold. now left. Qed.

Lemma nrows_X_final (df_model : list model_row) :
  nrows (X_final df_model) = List.length df_model.
Proof. rewrite X_final_unfold. reflexivity. Qed.

(* =================================================================== *)
(** * The cells of the prediction row *)
(* =================================================================== *)

Lemma cell_zero_row (c : string) (cols : list string) :
  cell c (zero_row cols) = if str_in c cols then Some 0 else None.
Proof.
  unfold zero_row, str_in. induction cols as [|x cols IH]; cbn; [reflexivity|].
  rewrite (String.eqb_sym c x). now destruct (x =? c)%string.
Qed.

Lemma cell_assign (c name : string) (v : R) (row : input_frame) :
  cell c (assign name v row) =
  if (c =? name)%string then option_map (fun _ => v) (cell c row) else cell c row.
Proof.
  induction row as [|[c0 x] row IH].
  - cbn. now destruct (c =? name)%string.
  - unfold assign in *. cbn [map fst].
    destruct (String.eqb_spec c0 name) as [-> | Hn]; cbn [cell].
    + destruct (String.eqb_spec name c) as [<- | Hc].
      * now rewrite String.eqb_refl.
      * rewrite IH. destruct (String.eqb_spec c name); [congruence | reflexivity].
    + destruct (String.eqb_spec c0 c) as [-> | Hc].
      * destruct (String.eqb_spec c name); [contradiction | reflexivity].
      * exact IH.
Qed.

Lemma cell_absent (c : string) (row : input_frame) :
  has_column c row = false -> cell c row = None.
Proof.
  unfold has_column, str_in. induction row as [|[c0 x] row IH]; cbn; [reflexivity|].
  rewrite (String.eqb_sym c c0). destruct (c0 =? c)%string; cbn; [discriminate | exact IH].
Qed.

Lemma cell_set_if_present (c name : string) (v : R) (row : input_frame) :
  cell c (set_if_present name v row) =
  if (c =? name)%string then option_map (fun _ => v) (cell c row) else cell c row.
Proof.
  unfold set_if_present. destruct (has_column name row) eqn:H; [apply cell_assign|].
  destruct (String.eqb_spec c name) as [-> | _]; [|reflexivity].
  now rewrite (cell_absent _ _ H).
Qed.

Lemma cell_app_other (c name : string) (v : R) (row : input_frame) :
  c <> name -> cell c (row ++ [(name, v)])%list = cell c row.
Proof.
  intros Hn. induction row as [|[c0 x] row IH]; cbn.
  - destruct (String.eqb_spec name c); [now subst | reflexivity].
  - now rewrite IH.
Qed.

Lemma cell_loc_set_other (c name : string) (v : R) (row : input_frame) :
  c <> name -> cell c (loc_set name v row) = cell c row.
Proof.
  intros Hn. unfold loc_set. destruct (has_column name row).
  - rewrite cell_assign. destruct (String.eqb_spec c name); [contradiction | reflexivity].
  - now apply cell_app_other.
Qed.

Lemma cell_loc_set_same (name : string) (v : R) (row : input_frame) :
  has_column name row = true -> cell name (loc_set name v row) = Some v.
Proof.
  intros H. unfold loc_set. rewrite H, cell_assign, String.eqb_refl.
  destruct (cell_has_column _ _ H) as [x ->]. reflexivity.
Qed.

Lemma cell_numeric_loop_other df_model cols inp (feats : list string) row (c : string) :
  ~ In c feats ->
  cell c (fold_left (standardize_input df_model cols inp) feats row) = cell c row.
Proof.
  revert row. induction feats as [|f feats IH]; intros row Hn; cbn; [reflexivity|].
  rewrite IH by (intros H; apply Hn; now right).
  unfold standardize_input. destruct (str_in f cols); [|reflexivity].
  apply cell_loc_set_other. intros ->. apply Hn. now left.
Qed.

Lemma cell_const_row (c : string) (cols : list string) :
  In c cols ->
  cell c (const_row cols) = Some (if (c =? "const")%string then 1 else 0).
Proof.
  intros Hc. unfold const_row.
  destruct (String.eqb_spec c "const") as [-> | Hn].
  - apply cell_loc_set_same. unfold has_column. rewrite labels_zero_row.
    now apply str_in_In.
  - rewrite cell_loc_set_other, cell_zero_row by assumption.
    apply str_in_In in Hc. now rewrite Hc.
Qed.

(** The cell of a training column that is not a numeric feature: one for
    the intercept and for the labels derived from the input, zero for every
    other column. *)
Lemma cell_build_input df_model cols inp (c : string) :
  In c cols -> ~ In c numerical_features ->
  cell c (build_input df_model cols inp) =
  Some (if (c =? "const")%string || str_in c (derived_labels inp) then 1 else 0).
Proof.
  intros Hc Hnum. unfold build_input. fold (const_row cols).
  rewrite cell_numeric_loop_other by assumption.
  rewrite !cell_set_if_present, (cell_const_row c cols Hc).
  unfold derived_labels, str_in. cbn [existsb].
  repeat match goal with
         | |- context [(c =? ?n)%string] => destruct (c =? n)%string
         end; reflexivity.
Qed.

Lemma indicator_label_shape (col level : string) :
  In col categorical_cols ->
  (col ++ "_" ++ level)%string <> "const" /\
  ~ In (col ++ "_" ++ level)%string numerical_features.
Proof.
  cbn. intros [<- | [<- | [<- | [<- | []]]]]; (split; [discriminate | intros Hf; label_cases Hf]).
Qed.

Lemma derived_label_same_column (col level : string) (inp : prediction_input) :
  In col categorical_cols ->
  In (col ++ "_" ++ level)%string (derived_labels inp) ->
  (col ++ "_" ++ level)%string = (col ++ "_" ++ input_category col inp)%string.
Proof.
  cbn. intros [<- | [<- | [<- | [<- | []]]]];
    (intros [H | [H | [H | [H | [H | []]]]]]; cbn in H |- *;
     try discriminate H; congruence).
Qed.

Lemma input_label_derived (col : string) (inp : prediction_input) :
  In col categorical_cols ->
  In (col ++ "_" ++ input_category col inp)%string (derived_labels inp).
Proof.
  cbn. intros [<- | [<- | [<- | [<- | []]]]]; cbn; pick_disjunct.
Qed.

Lemma predict_sales_succeeds params df_model cols inp :
  exists amount, predict_sales params df_model cols inp = Some amount.
Proof.
  unfold predict_sales, log_prediction.
  destruct (reindex_succeeds df_model cols inp) as [x [-> _]]. cbn. eauto.
Qed.

(** The prediction form never raises. *)
Lemma prediction_form_never_raises params df_model (p : partitions) (w : widgets) :
  outcome (prediction_form params df_model p w) = Next tt.
Proof.
  unfold prediction_form. destruct (predict_clicked w); [|reflexivity].
  destruct (predict_sales_succeeds params df_model (columns (x_train p)) (inputs w))
    as [amount ->].
  reflexivity.
Qed.

(** C9: a category the training data never showed is no error.  For every
    coefficient vector, every table without a constant numeric column (the
    tables on which the script gets as far as the form) and every input:
    the predictor returns an amount and
    the prediction form does not raise; the row handed to the model has
    exactly the training columns (each label the form sets was tested
    against the schema, and the intercept is always in it); when the label
    derived from the input for an encoded column is not a training column,
    every indicator of that encoded column stays 0, the reference level;
    when it is one, that indicator is 1. *)
Theorem unseen_category_is_reference_level :
  forall (params : list R) (df : DataFrame) (inp : prediction_input)
         (p : partitions) (w : widgets),
    let df_model := map prepare_model_row df in
    let cols := columns (X_final df_model) in
    no_constant_feature df_model ->
    (exists amount, predict_sales params df_model cols inp = Some amount) /\
    outcome (prediction_form params df_model p w) = Next tt /\
    map fst (build_input df_model cols inp) = cols /\
    (forall col level,
        In col categorical_cols ->
        ~ In (col ++ "_" ++ input_category col inp)%string cols ->
        In (col ++ "_" ++ level)%string cols ->
        cell (col ++ "_" ++ level) (build_input df_model cols inp) = Some 0) /\
    (forall col,
        In col categorical_cols ->
        In (col ++ "_" ++ input_category col inp)%string cols ->
        cell (col ++ "_" ++ input_category col inp) (build_input df_model cols inp)
        = Some 1).
Proof.
  intros params df inp p w df_model cols _.
  split; [apply predict_sales_succeeds|].
  split; [apply prediction_form_never_raises|].
  split.
  { rewrite labels_build_input, labels_const_row.
    assert (H : str_in "const" cols = true)
      by (apply str_in_In, const_in_X_final).
    now rewrite H. }
  split.
  - intros col level Hcol Hunseen Hin.
    destruct (indicator_label_shape col level Hcol) as [Hconst Hnum].
    rewrite cell_build_input by assumption.
    destruct (String.eqb_spec (col ++ "_" ++ level) "const"); [contradiction|].
    destruct (str_in (col ++ "_" ++ level) (derived_labels inp)) eqn:Hd; [|reflexivity].
    exfalso. apply Hunseen. apply str_in_In in Hd.
    now rewrite <- (derived_label_same_column col level inp Hcol Hd).
  - intros col Hcol Hin.
    destruct (indicator_label_shape col (input_category col inp) Hcol) as [_ Hnum].
    rewrite cell_build_input by assumption.
    assert (Hd : str_in (col ++ "_" ++ input_category col inp) (derived_labels inp) = true)
      by (apply str_in_In, input_label_derived, Hcol).
    rewrite Hd, orb_true_r. reflexivity.
Qed.

(* =================================================================== *)
(** * The train/test split *)
(* =================================================================== *)

(** [int(0.8 * n)] is the integer part of four fifths of [n]. *)
Lemma train_size_floor (n : nat) : train_size n = (4 * n / 5)%nat.
Proof.
  unfold train_size. cbn [Qmult inject_Z Qfloor Qnum Qden].
  change (Z.pos (10 * 1)) with (2 * 5)%Z.
  replace (8 * Z.of_nat n)%Z with (2 * (4 * Z.of_nat n))%Z by ring.
  rewrite Z.div_mul_cancel_l by lia.
  change 4%Z with (Z.of_nat 4). change 5%Z with (Z.of_nat 5).
  rewrite <- Nat2Z.inj_mul, <- Nat2Z.inj_div. apply Nat2Z.id.
Qed.

Lemma train_size_le (n : nat) : (train_size n <= n)%nat.
Proof.
  rewrite train_size_floor.
  apply Nat.Div0.div_le_upper_bound. lia.
Qed.

(** The training partition is empty exactly when there are fewer than two
    rows. *)
Lemma train_size_zero (n : nat) : train_size n = 0%nat <-> (n < 2)%nat.
Proof.
  rewrite train_size_floor. rewrite Nat.div_small_iff by lia. lia.
Qed.

Lemma split_indices_app (n : nat) (s0 : rng_state) :
  (train_idx n s0 ++ test_idx n s0)%list = fst (np_random_permutation n (np_random_seed 42)).
Proof. unfold train_idx, test_idx, split_indices. cbn. apply firstn_skipn. Qed.

(** C5: the split is deterministic and 80/20.  Two runs, whatever state the
    generator was left in, draw the same train and test positions; they are
    the first [floor(0.8 n)] entries of the permutation drawn after seeding
    with 42 and the remaining entries; with a generator that returns an
    arrangement of [0..n-1] the two lists have [floor(0.8 n)] and
    [n - floor(0.8 n)] entries and share none; for 100 rows that is 80 and
    20. *)
Theorem split_deterministic_80_20 :
  permutation_contract ->
  forall (n : nat) (s0 s0' : rng_state),
    let idx := fst (np_random_permutation n (np_random_seed 42)) in
    (train_idx n s0 = train_idx n s0' /\ test_idx n s0 = test_idx n s0') /\
    (train_idx n s0 = firstn (4 * n / 5) idx /\ test_idx n s0 = skipn (4 * n / 5) idx) /\
    (List.length (train_idx n s0) = (4 * n / 5)%nat /\
     List.length (test_idx n s0) = (n - 4 * n / 5)%nat) /\
    Permutation (train_idx n s0 ++ test_idx n s0) (seq 0 n) /\
    (forall i, In i (train_idx n s0) -> ~ In i (test_idx n s0)) /\
    (n = 100%nat ->
     List.length (train_idx n s0) = 80%nat /\ List.length (test_idx n s0) = 20%nat).
Proof.
  intros Hperm n s0 s0' idx.
  pose proof (Hperm n (np_random_seed 42)) as Hp. fold idx in Hp.
  assert (Hlen : List.length idx = n)
    by (rewrite (Permutation_length Hp); apply length_seq).
  assert (Htr : train_idx n s0 = firstn (4 * n / 5) idx)
    by (unfold train_idx, split_indices; cbn; now rewrite train_size_floor).
  assert (Hte : test_idx n s0 = skipn (4 * n / 5) idx)
    by (unfold test_idx, split_indices; cbn; now rewrite train_size_floor).
  assert (Hle : (4 * n / 5 <= n)%nat)
    by (rewrite <- train_size_floor; apply train_size_le).
  assert (Hl1 : List.length (train_idx n s0) = (4 * n / 5)%nat)
    by (rewrite Htr, length_firstn; lia).
  assert (Hl2 : List.length (test_idx n s0) = (n - 4 * n / 5)%nat)
    by (rewrite Hte, length_skipn; lia).
  split; [split; reflexivity|].
  split; [now split|].
  split; [now split|].
  split; [now rewrite split_indices_app|].
  split.
  - intros i Hi Hi'.
    assert (Hnd : NoDup (train_idx n s0 ++ test_idx n s0)).
    { rewrite split_indices_app.
      apply (Permutation_NoDup (Permutation_sym Hp)), seq_NoDup. }
    apply in_split in Hi as [l1 [l2 Heq]]. rewrite Heq in Hnd.
    rewrite <- app_assoc in Hnd. apply NoDup_remove_2 in Hnd.
    apply Hnd. apply in_or_app. right. apply in_or_app. now right.
  - intros Hn. rewrite Hl1, Hl2, Hn. split; reflexivity.
Qed.

(** For a table, the partitions of two runs are the same, and so is
    everything a run shows, whatever the generator's state before each
    run. *)
Lemma split_same_across_runs (X : frame) (y : list R) (s0 s0' : rng_state) :
  split X y s0 = split X y s0'.
Proof. reflexivity. Qed.

Lemma run_same_across_runs (file : option (list csv_row)) (w : widgets)
    (s0 s0' : rng_state) :
  create_dashboard file w s0 = create_dashboard file w s0'.
Proof. reflexivity. Qed.

(* =================================================================== *)
(** * The split never fails on the feature matrix *)
(* =================================================================== *)

Lemma well_formed_X_final (df_model : list model_row) :
  well_formed (X_final df_model).
Proof.
  rewrite X_final_unfold. intros c [<- | Hc]; cbn [snd nrows].
  - apply repeat_length.
  - unfold X_combined, drop_zero_columns, concat_columns in *. cbn [cols nrows] in *.
    apply filter_In in Hc as [Hc _]. apply in_app_or in Hc as [Hc | Hc].
    + unfold X_num in *. cbn [cols nrows] in *.
      apply in_map_iff in Hc as [col [<- _]]. cbn [snd].
      unfold standardize, numeric_column. now rewrite !length_map.
    + unfold X_num, get_dummies in *. cbn [cols nrows] in *.
      apply in_flat_map in Hc as [col [_ Hc]].
      unfold dummy_columns in Hc. apply in_map_iff in Hc as [level [<- _]].
      cbn [snd]. now rewrite !length_map.
Qed.

Lemma series_iloc_succeeds (s : list R) (idx : list nat) :
  (forall i, In i idx -> (i < List.length s)%nat) ->
  exists v, series_iloc s idx = Some v /\ List.length v = List.length idx.
Proof.
  intros H. unfold series_iloc.
  destruct (sequence_opt_all_some (map (fun i => nth_error s i) idx)) as [v [Hv Hl]].
  - intros o Ho. apply in_map_iff in Ho as [i [<- Hi]].
    destruct (nth_error s i) eqn:E; [eauto|].
    apply nth_error_None in E. specialize (H i Hi). lia.
  - exists v. split; [assumption|]. now rewrite length_map in Hl.
Qed.

Lemma frame_iloc_succeeds (f : frame) (idx : list nat) :
  well_formed f ->
  (forall i, In i idx -> (i < nrows f)%nat) ->
  exists g, frame_iloc f idx = Some g.
Proof.
  intros Hwf H. unfold frame_iloc.
  assert (Hall : forallb (fun i => (i <? nrows f)%nat) idx = true).
  { apply forallb_forall. intros i Hi. apply Nat.ltb_lt. auto. }
  rewrite Hall.
  destruct (sequence_opt_all_some
              (map (fun c => match series_iloc (snd c) idx with
                             | Some v => Some (fst c, v)
                             | None => None
                             end) (cols f))) as [cs [-> _]]; [|eauto].
  intros o Ho. apply in_map_iff in Ho as [c [<- Hc]].
  destruct (series_iloc_succeeds (snd c) idx) as [v [-> _]]; [|eauto].
  intros i Hi. rewrite (Hwf c Hc). auto.
Qed.

Lemma permutation_indices_in_range (n : nat) (s : rng_state) (i : nat) :
  permutation_contract ->
  In i (fst (np_random_permutation n s)) -> (i < n)%nat.
Proof.
  intros Hperm Hi. apply (Permutation_in _ (Hperm n s)) in Hi.
  apply in_seq in Hi. lia.
Qed.

Lemma train_idx_in_range (n : nat) (s0 : rng_state) (i : nat) :
  permutation_contract -> In i (train_idx n s0) -> (i < n)%nat.
Proof.
  intros Hperm Hi. apply (permutation_indices_in_range n (np_random_seed 42) i Hperm).
  rewrite <- (split_indices_app n s0). apply in_or_app. now left.
Qed.

Lemma test_idx_in_range (n : nat) (s0 : rng_state) (i : nat) :
  permutation_contract -> In i (test_idx n s0) -> (i < n)%nat.
Proof.
  intros Hperm Hi. apply (permutation_indices_in_range n (np_random_seed 42) i Hperm).
  rewrite <- (split_indices_app n s0). apply in_or_app. now right.
Qed.

Lemma length_target (df_model : list model_row) :
  List.length (target df_model) = List.length df_model.
Proof. unfold target. apply length_map. Qed.

(** With a generator that returns arrangements of [0..n-1], lines 661-662
    raise no [IndexError]. *)
Lemma split_succeeds (df_model : list model_row) (s0 : rng_state) :
  permutation_contract ->
  exists p, split (X_final df_model) (target df_model) s0 = Some p.
Proof.
  intros Hperm. unfold split.
  pose proof (well_formed_X_final df_model) as Hwf.
  destruct (frame_iloc_succeeds (X_final df_model)
              (train_idx (nrows (X_final df_model)) s0) Hwf) as [xtr ->].
  { intros i. now apply train_idx_in_range. }
  destruct (frame_iloc_succeeds (X_final df_model)
              (test_idx (nrows (X_final df_model)) s0) Hwf) as [xte ->].
  { intros i. now apply test_idx_in_range. }
  destruct (series_iloc_succeeds (target df_model)
              (train_idx (nrows (X_final df_model)) s0)) as [ytr [-> _]].
  { intros i Hi. rewrite length_target, <- nrows_X_final. now apply train_idx_in_range in Hi. }
  destruct (series_iloc_succeeds (target df_model)
              (test_idx (nrows (X_final df_model)) s0)) as [yte [-> _]].
  { intros i Hi. rewrite length_target, <- nrows_X_final. now apply test_idx_in_range in Hi. }
  eauto.
Qed.

Lemma length_train_idx (n : nat) (s0 : rng_state) :
  permutation_contract -> List.length (train_idx n s0) = train_size n.
Proof.
  intros Hperm. unfold train_idx, split_indices. cbn.
  rewrite length_firstn, (Permutation_length (Hperm n _)), length_seq.
  pose proof (train_size_le n). lia.
Qed.

(** The training partition is empty exactly when the table the model is
    built from has fewer than two rows. *)
Lemma x_train_empty_iff (df_model : list model_row) (s0 : rng_state) (p : partitions) :
  permutation_contract ->
  split (X_final df_model) (target df_model) s0 = Some p ->
  (frame_empty (x_train p) || (List.length (y_train p) =? 0)%nat = true
   <-> (List.length df_model < 2)%nat).
Proof.
  intros Hperm Hsplit.
  pose proof (split_columns _ _ _ _ Hsplit) as Hcols.
  apply split_x_train in Hsplit as [Hx [_ [Hy _]]].
  apply frame_iloc_nrows in Hx.
  rewrite length_train_idx, nrows_X_final in Hx by assumption.
  assert (Hly : List.length (y_train p) = train_size (List.length df_model)).
  { unfold series_iloc in Hy.
    destruct (sequence_opt_all_some
                (map (fun i => nth_error (target df_model) i)
                     (train_idx (nrows (X_final df_model)) s0))) as [v [Hv Hl]].
    - intros o Ho. apply in_map_iff in Ho as [i [<- Hi]].
      destruct (nth_error (target df_model) i) eqn:E; [eauto|].
      apply nth_error_None in E. rewrite length_target, <- nrows_X_final in E.
      apply train_idx_in_range in Hi; [lia | assumption].
    - rewrite Hv in Hy. injection Hy as <-.
      rewrite Hl, length_map, length_train_idx, nrows_X_final by assumption.
      reflexivity. }
  assert (Hc : List.length (cols (x_train p)) <> 0%nat).
  { pose proof (const_in_X_final df_model) as Hconst. rewrite <- Hcols in Hconst.
    unfold columns in Hconst. destruct (cols (x_train p)); [contradiction | discriminate]. }
  unfold frame_empty. rewrite Hx, Hly.
  rewrite <- train_size_zero.
  destruct (Nat.eqb_spec (train_size (List.length df_model)) 0);
    destruct (Nat.eqb_spec (List.length (cols (x_train p))) 0); cbn; try contradiction;
    split; intros; congruence.
Qed.

(* =================================================================== *)
(** * Empty selections and empty training partitions *)
(* =================================================================== *)

Lemma filter_isin_nothing (col : transaction -> string) (df : DataFrame) :
  filter_isin col [] df = [].
Proof. unfold filter_isin. induction df; cbn; auto. Qed.

Lemma filter_isin_nil (col : transaction -> string) (sel : list string) :
  filter_isin col sel [] = [].
Proof. reflexivity. Qed.

(** An empty coffee selection leaves no row. *)
Lemma apply_selections_no_coffee (w : widgets) (df : DataFrame) :
  selected_coffees w = [] -> apply_selections w df = [].
Proof.
  intros H. unfold apply_selections. rewrite H, filter_isin_nothing.
  reflexivity.
Qed.

(** C7: when the loaded table has a row (so that the date input of line
    136 can be built) and the selections leave no transaction, the run
    shows the "no data" warning and nothing else, and [create_dashboard]
    returns: no KPI, no model, no exception.  An empty coffee selection is
    such a case. *)
Theorem empty_selection_shows_no_data :
  forall (rows : list csv_row) (w : widgets) (s0 : rng_state)
         (start_date end_date : date),
    somes (map preprocess rows) <> [] ->
    date_range w = [start_date; end_date] ->
    (selected_coffees w = [] ->
     apply_selections w (filter_dates start_date end_date
                           (somes (map preprocess rows))) = []) /\
    (apply_selections w (filter_dates start_date end_date
                           (somes (map preprocess rows))) = [] ->
     create_dashboard (Some rows) w s0 = (Return, [st_warning msg_no_data])).
Proof.
  intros rows w s0 start_date end_date _ Hrange. split.
  - apply apply_selections_no_coffee.
  - intros Hempty. unfold create_dashboard, load_data, bind, ret. cbn [fst snd].
    rewrite Hrange, Hempty. reflexivity.
Qed.

Lemma model_tab_guard (df : DataFrame) (w : widgets) (s0 : rng_state) (p : partitions) :
  split (X_final (map prepare_model_row df))
        (target (map prepare_model_row df)) s0 = Some p ->
  frame_empty (x_train p) || (List.length (y_train p) =? 0)%nat = true ->
  model_tab df w s0 = (Next tt, [st_warning msg_not_enough]).
Proof.
  intros Hsplit Hguard. unfold model_tab. rewrite Hsplit, Hguard. reflexivity.
Qed.

(** C6: when the training partition is empty ([x_train.empty or
    y_train.empty]), the model tab shows the "not enough data" warning (a
    text of its own, not the "no data" one) and nothing else: the model is
    not fitted, no prediction and no test-set metric is computed or shown,
    and no exception is raised, whether or not the prediction button was
    pressed. *)
Theorem empty_training_partition_not_enough_data :
  forall (df : DataFrame) (w : widgets) (s0 : rng_state) (p : partitions),
    split (X_final (map prepare_model_row df))
          (target (map prepare_model_row df)) s0 = Some p ->
    frame_empty (x_train p) || (List.length (y_train p) =? 0)%nat = true ->
    model_tab df w s0 = (Next tt, [st_warning msg_not_enough]) /\
    msg_not_enough <> msg_no_data /\
    fitted_model df s0 = None /\
    existsb is_model_output (events (model_tab df w s0)) = false.
Proof.
  intros df w s0 p Hsplit Hguard.
  pose proof (model_tab_guard df w s0 p Hsplit Hguard) as Htab.
  split; [exact Htab|]. split; [discriminate|]. split.
  - unfold fitted_model. now rewrite Hsplit, Hguard.
  - now rewrite Htab.
Qed.

(** With a generator that returns arrangements, that is the case exactly
    for a loaded table of fewer than two rows. *)
Lemma model_tab_fewer_than_two_rows (df : DataFrame) (w : widgets) (s0 : rng_state) :
  permutation_contract ->
  (List.length df < 2)%nat ->
  model_tab df w s0 = (Next tt, [st_warning msg_not_enough]).
Proof.
  intros Hperm Hlen.
  destruct (split_succeeds (map prepare_model_row df) s0 Hperm) as [p Hp].
  apply (model_tab_guard df w s0 p Hp).
  apply (x_train_empty_iff (map prepare_model_row df) s0 p Hperm Hp).
  now rewrite length_map.
Qed.

(* =================================================================== *)
(** * Which table the model is fitted on *)
(* =================================================================== *)

(** A run that passes the date check and the "no data" check: the KPI
    cards of the filtered table, then the model tab on the loaded table. *)
Lemma create_dashboard_reaches_model_tab (rows : list csv_row) (w : widgets)
    (s0 : rng_state) (start_date end_date : date) :
  date_range w = [start_date; end_date] ->
  apply_selections w (filter_dates start_date end_date
                        (somes (map preprocess rows))) <> [] ->
  create_dashboard (Some rows) w s0 =
  (kpi_tab (apply_selections w (filter_dates start_date end_date
                                  (somes (map preprocess rows)))) ;;
   model_tab (somes (map preprocess rows)) w s0)%script.
Proof.
  intros Hrange Hne. unfold create_dashboard, load_data.
  unfold bind at 1. cbn [fst snd ret]. rewrite Hrange.
  destruct (apply_selections w _) eqn:E; [contradiction|].
  cbn [df_empty List.length Nat.eqb app]. reflexivity.
Qed.

Lemma model_tab_same_form (df : DataFrame) (w w' : widgets) (s0 : rng_state) :
  inputs w = inputs w' -> predict_clicked w = predict_clicked w' ->
  model_tab df w s0 = model_tab df w' s0.
Proof.
  intros Hi Hc. unfold model_tab, prediction_form. now rewrite Hi, Hc.
Qed.

Lemma model_outputs_of_run (df_filtered : DataFrame) (m : script unit) :
  filter is_model_output (events (kpi_tab df_filtered ;; m)%script)
  = filter is_model_output (events m).
Proof. reflexivity. Qed.

(** The model tab works on [df], the table as loaded, not on
    [df_filtered].  Two runs on the same file whose sidebar selections both
    leave some rows, with the same prediction form, fit the same
    coefficients and show the same prediction and the same test-set metrics,
    whatever the two selections keep. *)
Theorem model_ignores_sidebar_selections :
  forall (rows : list csv_row) (w w' : widgets) (s0 : rng_state)
         (a b a' b' : date),
    date_range w = [a; b] -> date_range w' = [a'; b'] ->
    apply_selections w (filter_dates a b (somes (map preprocess rows))) <> [] ->
    apply_selections w' (filter_dates a' b' (somes (map preprocess rows))) <> [] ->
    inputs w = inputs w' -> predict_clicked w = predict_clicked w' ->
    filter is_model_output (events (create_dashboard (Some rows) w s0))
    = filter is_model_output (events (create_dashboard (Some rows) w' s0)) /\
    filter is_model_output (events (create_dashboard (Some rows) w s0))
    = filter is_model_output (events (model_tab (somes (map preprocess rows)) w s0)).
Proof.
  intros rows w w' s0 a b a' b' Hr Hr' Hne Hne' Hi Hc.
  rewrite (create_dashboard_reaches_model_tab rows w s0 a b Hr Hne).
  rewrite (create_dashboard_reaches_model_tab rows w' s0 a' b' Hr' Hne').
  rewrite !model_outputs_of_run.
  now rewrite (model_tab_same_form _ w w' s0 Hi Hc).
Qed.

(* =================================================================== *)
(** * The evaluator *)
(* =================================================================== *)

Lemma map_seq_shift {A : Type} (f : nat -> A) (n : nat) :
  map f (seq 1 n) = map (fun i => f (S i)) (seq 0 n).
Proof. now rewrite <- seq_shift, map_map. Qed.

Lemma map_nth_seq (l : list R) :
  map (fun i => nth i l 0) (seq 0 (List.length l)) = l.
Proof.
  induction l as [|x l IH]; [reflexivity|].
  cbn [List.length seq map nth]. rewrite map_seq_shift. cbn [nth]. now rewrite IH.
Qed.

Lemma squared_errors_positions (y y_hat : list R) :
  List.length y = List.length y_hat ->
  squared_errors y y_hat
  = map (fun i => (nth i y 0 - nth i y_hat 0) ^ 2) (seq 0 (List.length y)).
Proof.
  revert y_hat. induction y as [|a y IH]; intros [|b y_hat] H; try discriminate H.
  - reflexivity.
  - cbn [squared_errors List.length seq map nth]. rewrite map_seq_shift. cbn [nth].
    f_equal. apply IH. now injection H.
Qed.

Lemma length_squared_errors (y y_hat : list R) :
  List.length y = List.length y_hat ->
  List.length (squared_errors y y_hat) = List.length y.
Proof.
  intros H. now rewrite squared_errors_positions, length_map, length_seq.
Qed.

Lemma spec_mean_mean (y : list R) : spec_mean y = mean y.
Proof. unfold spec_mean, sum_over, mean, Rlen. now rewrite map_nth_seq. Qed.

(** The code's metrics are the specification's, for targets and
    predictions of the same length. *)
Lemma evaluate_spec (y y_hat : list R) :
  List.length y = List.length y_hat ->
  r2 (evaluate y y_hat) = spec_R2 y y_hat /\
  rmse (evaluate y y_hat) = spec_RMSE y y_hat.
Proof.
  intros H. unfold evaluate, spec_R2, spec_RMSE, spec_RSS, spec_TSS, sum_over.
  cbn [r2 rmse]. rewrite (squared_errors_positions y y_hat H). split.
  - f_equal. f_equal.
    rewrite <- (map_nth_seq y) at 1. rewrite map_map.
    f_equal. apply map_ext. intros i. now rewrite spec_mean_mean.
  - unfold mean, Rlen. now rewrite length_map, length_seq.
Qed.

Lemma length_frame_rows (f : frame) : List.length (frame_rows f) = nrows f.
Proof. unfold frame_rows. now rewrite length_map, length_seq. Qed.

Lemma length_model_predict (params : list R) (x : frame) :
  List.length (model_predict params x) = nrows x.
Proof. unfold model_predict. now rewrite length_map, length_frame_rows. Qed.

Lemma series_iloc_values (s v : list R) (idx : list nat) :
  series_iloc s idx = Some v -> v = map (fun k => nth k s 0) idx.
Proof.
  unfold series_iloc. revert v.
  induction idx as [|k idx IH]; cbn; intros v H.
  - now injection H.
  - destruct (nth_error s k) eqn:E; [|discriminate].
    destruct (sequence_opt _); [|discriminate].
    injection H as <-. f_equal; [|now apply IH].
    symmetry. now apply nth_error_nth.
Qed.

Lemma series_iloc_length (s v : list R) (idx : list nat) :
  series_iloc s idx = Some v -> List.length v = List.length idx.
Proof. intros H. apply series_iloc_values in H. subst v. apply length_map. Qed.

Lemma split_test_lengths (X : frame) (y : list R) (s0 : rng_state) (p : partitions) :
  split X y s0 = Some p ->
  List.length (y_test p) = nrows (x_test p).
Proof.
  intros H. apply split_x_train in H as [_ [Hx [_ Hy]]].
  apply frame_iloc_nrows in Hx. apply series_iloc_length in Hy. congruence.
Qed.

(** The coefficient of determination is negative as soon as the model
    does worse than the mean of the held-out targets. *)
Lemma r2_negative (y y_hat : list R) :
  0 < spec_TSS y -> spec_TSS y < spec_RSS y y_hat -> spec_R2 y y_hat < 0.
Proof.
  intros Hpos Hlt. unfold spec_R2.
  assert (1 < spec_RSS y y_hat / spec_TSS y); [|lra].
  apply (Rmult_lt_reg_r (spec_TSS y)); [assumption|].
  unfold Rdiv. rewrite Rmult_assoc, Rinv_l by lra. lra.
Qed.

(** A held-out set on which the coefficient of determination is -3. *)
Lemma r2_can_be_negative : r2 (evaluate [0; 1] [1; 0]) = -3.
Proof.
  unfold evaluate, mean, Rlen. cbn. field.
Qed.

(* =================================================================== *)
(** * Standardization: which mean and which deviation *)
(* =================================================================== *)

Lemma cell_numeric_loop_in df_model cols inp (col : string) :
  str_in col cols = true ->
  forall (feats : list string) (row : input_frame),
    NoDup feats -> In col feats -> incl cols (map fst row) ->
    cell col (fold_left (standardize_input df_model cols inp) feats row)
    = Some ((numerical_data inp col - mean (numeric_column col df_model))
            / std (numeric_column col df_model)).
Proof.
  intros Hcol feats. induction feats as [|f feats IH]; intros row Hnd Hin Hincl.
  - contradiction.
  - cbn [fold_left]. inversion Hnd as [|? ? Hnotin Hnd']; subst.
    destruct (String.eqb_spec f col) as [-> | Hne].
    + rewrite cell_numeric_loop_other by assumption.
      unfold standardize_input. rewrite Hcol.
      apply cell_loc_set_same. apply str_in_In, Hincl, str_in_In, Hcol.
    + apply IH; [assumption | |].
      * destruct Hin as [-> | Hin]; [contradiction | assumption].
      * now rewrite standardize_input_labels.
Qed.

Lemma NoDup_numerical_features : NoDup numerical_features.
Proof.
  unfold numerical_features.
  repeat constructor; cbn; intros Hf; label_cases Hf.
Qed.

(** The cell of a numeric training column in the prediction row. *)
Lemma cell_numeric_feature df_model cols inp (col : string) :
  In col numerical_features -> In col cols ->
  cell col (build_input df_model cols inp)
  = Some ((numerical_data inp col - mean (numeric_column col df_model))
          / std (numeric_column col df_model)).
Proof.
  intros Hf Hc. unfold build_input. fold (const_row cols).
  apply cell_numeric_loop_in.
  - now apply str_in_In.
  - apply NoDup_numerical_features.
  - assumption.
  - rewrite !labels_set_if_present. apply incl_labels_const_row.
Qed.

Lemma numerical_cols_features (col : string) :
  In col numerical_cols <-> In col numerical_features.
Proof. cbn. split; intros H; repeat (destruct H as [H | H]; try contradiction); subst; pick_disjunct. Qed.

Lemma standardize_numeric_column (col : string) (df_model : list model_row) :
  standardize (numeric_column col df_model)
  = map (fun r => (numeric_value col r - mean (numeric_column col df_model))
                  / std (numeric_column col df_model)) df_model.
Proof. unfold standardize. unfold numeric_column at 3. now rewrite map_map. Qed.

(** A column of [X_final] with the name of a numeric feature is that
    feature, standardized. *)
Lemma numeric_column_of_X_final (df_model : list model_row) (col : string) (v : list R) :
  In col numerical_cols ->
  In (col, v) (cols (X_final df_model)) ->
  v = standardize (numeric_column col df_model).
Proof.
  intros Hcol Hin. rewrite X_final_unfold in Hin. cbn [cols] in Hin.
  destruct Hin as [Hin | Hin].
  { injection Hin as <- _. label_cases Hcol. }
  unfold X_combined, drop_zero_columns, concat_columns in Hin. cbn [cols] in Hin.
  apply filter_In in Hin as [Hin _]. apply in_app_or in Hin as [Hin | Hin].
  - unfold X_num in Hin. cbn [cols] in Hin.
    apply in_map_iff in Hin as [col' [Heq _]]. now injection Heq as -> <-.
  - exfalso. unfold get_dummies in Hin. cbn [cols] in Hin.
    apply in_flat_map in Hin as [c [Hc Hin]].
    unfold dummy_columns in Hin. apply in_map_iff in Hin as [level [Heq _]].
    injection Heq as Heq _.
    destruct (indicator_label_shape c level Hc) as [_ Hn].
    apply numerical_cols_features in Hcol. rewrite <- Heq in Hcol. exact (Hn Hcol).
Qed.

Lemma frame_iloc_column (f g : frame) (idx : list nat) (col : string) (v : list R) :
  frame_iloc f idx = Some g ->
  In (col, v) (cols g) ->
  exists u, In (col, u) (cols f) /\ v = map (fun k => nth k u 0) idx.
Proof.
  unfold frame_iloc. destruct (forallb _ idx); [|discriminate].
  destruct (sequence_opt _) as [cs|] eqn:E; [|discriminate].
  intros [= <-]. cbn [cols]. revert cs E.
  induction (cols f) as [|[c u] l IH]; cbn; intros cs E Hin.
  - injection E as <-. contradiction.
  - destruct (series_iloc u idx) as [u'|] eqn:Eu; [|discriminate].
    destruct (sequence_opt _) as [cs'|]; [|discriminate].
    injection E as <-. destruct Hin as [Hin | Hin].
    + injection Hin as <- <-. exists u. split; [now left|].
      now apply series_iloc_values.
    + destruct (IH cs' eq_refl Hin) as [u0 [Hu0 Hv]]. exists u0. split; [now right | assumption].
Qed.

(* =================================================================== *)
(** * Rows of a partition, and exact least-squares fits *)
(* =================================================================== *)

Lemma map_nth_positions {A B : Type} (F : A -> B) (l : list A) (d : A) :
  map (fun i => F (nth i l d)) (seq 0 (List.length l)) = map F l.
Proof.
  induction l as [|x l IH]; [reflexivity|].
  cbn [List.length seq map nth]. rewrite map_seq_shift. cbn [nth]. now rewrite IH.
Qed.

Lemma frame_iloc_cols (f g : frame) (idx : list nat) :
  frame_iloc f idx = Some g ->
  cols g = map (fun c => (fst c, map (fun k => nth k (snd c) 0) idx)) (cols f).
Proof.
  unfold frame_iloc. destruct (forallb _ idx); [|discriminate].
  destruct (sequence_opt _) as [cs|] eqn:E; [|discriminate].
  intros [= <-]. cbn [cols]. revert cs E.
  induction (cols f) as [|[c u] l IH]; cbn; intros cs E.
  - now injection E as <-.
  - destruct (series_iloc u idx) as [u'|] eqn:Eu; [|discriminate].
    destruct (sequence_opt _) as [cs'|]; [|discriminate].
    injection E as <-. apply series_iloc_values in Eu. subst u'.
    f_equal. now apply IH.
Qed.

(** The rows of [X.iloc[idx]] are the rows of [X] at the positions
    [idx]. *)
Lemma frame_iloc_rows (f g : frame) (idx : list nat) :
  frame_iloc f idx = Some g -> frame_rows g = map (frame_row f) idx.
Proof.
  intros H. unfold frame_rows.
  rewrite (frame_iloc_nrows _ _ _ H).
  rewrite <- (map_nth_positions (frame_row f) idx 0%nat).
  apply map_ext_in. intros i Hi. apply in_seq in Hi.
  unfold frame_row. rewrite (frame_iloc_cols _ _ _ H), map_map. cbn [snd].
  apply map_ext. intros c.
  rewrite (nth_indep _ 0 (nth 0%nat (snd c) 0)) by (rewrite length_map; lia).
  now rewrite (map_nth (fun k => nth k (snd c) 0)).
Qed.

Lemma Rsum_squares_nonneg {A : Type} (g : A -> R) (l : list A) :
  0 <= Rsum (map (fun a => g a ^ 2) l).
Proof.
  induction l as [|a l IH]; [cbn; lra|].
  change (0 <= g a ^ 2 + Rsum (map (fun a => g a ^ 2) l)).
  pose proof (pow2_ge_0 (g a)). lra.
Qed.

Lemma spec_TSS_nonneg (y : list R) : 0 <= spec_TSS y.
Proof. unfold spec_TSS, sum_over. apply Rsum_squares_nonneg. Qed.

Lemma model_predict_rows (params : list R) (X g : frame) (idx : list nat) :
  frame_iloc X idx = Some g ->
  model_predict params g = map (fun k => dot params (frame_row X k)) idx.
Proof.
  intros H. unfold model_predict. now rewrite (frame_iloc_rows _ _ _ H), map_map.
Qed.

(** C8: the evaluator on a non-empty held-out set whose targets are not all
    equal, for a table without a constant numeric column.  The held-out
    targets are [log1p(money)] of the held-out rows, never transformed
    back, and the predictions are the inner products of the coefficients
    with the held-out rows of the feature matrix.  The R2 shown is
    [1 - RSS / TSS] with [RSS] the sum of squared residuals on the held-out
    rows and [TSS] the sum of squared deviations of the held-out targets
    from their mean, with no clamping: it is negative whenever
    [RSS > TSS].  The RMSE shown is the root of the mean squared
    residual. *)
Theorem evaluator_metrics :
  forall (params : list R) (df : DataFrame) (s0 : rng_state) (p : partitions),
    let df_model := map prepare_model_row df in
    let held_out := test_idx (nrows (X_final df_model)) s0 in
    let y_hat := model_predict params (x_test p) in
    split (X_final df_model) (target df_model) s0 = Some p ->
    no_constant_feature df_model ->
    y_test p <> [] ->
    spec_TSS (y_test p) <> 0 ->
    y_test p = map (fun k => nth k (map (fun r => log1p (money (base r))) df_model) 0)
                   held_out /\
    y_hat = map (fun k => dot params (frame_row (X_final df_model) k)) held_out /\
    events (evaluation params p)
    = [ st_subheader "Model Performance on Test Set";
        st_r2_score (spec_R2 (y_test p) y_hat);
        st_rmse (spec_RMSE (y_test p) y_hat) ] /\
    (spec_TSS (y_test p) < spec_RSS (y_test p) y_hat ->
     r2 (evaluate (y_test p) y_hat) < 0).
Proof.
  intros params df s0 p df_model held_out y_hat Hsplit _ Hne Htss.
  assert (Hlen : List.length (y_test p) = List.length y_hat).
  { unfold y_hat. rewrite length_model_predict. now apply (split_test_lengths _ _ _ _ Hsplit). }
  destruct (evaluate_spec (y_test p) y_hat Hlen) as [Hr2 Hrmse].
  pose proof (split_x_train _ _ _ _ Hsplit) as [_ [Hx [_ Hy]]].
  split; [now apply series_iloc_values in Hy|].
  split; [now apply model_predict_rows|].
  split.
  - unfold evaluation. fold y_hat. rewrite Hr2, Hrmse. reflexivity.
  - intros Hlt. rewrite Hr2. apply r2_negative; [|exact Hlt].
    pose proof (spec_TSS_nonneg (y_test p)). lra.
Qed.


Lemma squared_errors_map {A : Type} (f g : A -> R) (l : list A) :
  squared_errors (map f l) (map g l) = map (fun k => (f k - g k) ^ 2) l.
Proof. induction l as [|x l IH]; cbn; [reflexivity | now rewrite IH]. Qed.

Lemma Rsum_nonneg (l : list R) : (forall x, In x l -> 0 <= x) -> 0 <= Rsum l.
Proof.
  induction l as [|x l IH]; intros H; cbn; [lra|].
  assert (0 <= x) by (apply H; now left).
  assert (0 <= Rsum l) by (apply IH; intros y Hy; apply H; now right).
  unfold Rsum in *. lra.
Qed.

Lemma Rsum_zero (l : list R) :
  (forall x, In x l -> 0 <= x) -> Rsum l = 0 -> forall x, In x l -> x = 0.
Proof.
  induction l as [|a l IH]; intros H Hs x Hx; [contradiction|].
  assert (Ha : 0 <= a) by (apply H; now left).
  assert (Hl : 0 <= Rsum l) by (apply Rsum_nonneg; intros y Hy; apply H; now right).
  cbn in Hs. fold (Rsum l) in Hs.
  destruct Hx as [<- | Hx]; [lra|].
  apply IH; [intros y Hy; apply H; now right | lra | assumption].
Qed.

Lemma Rsum_permutation (l l' : list R) : Permutation l l' -> Rsum l = Rsum l'.
Proof.
  induction 1; cbn; unfold Rsum in *; try lra.
Qed.

Lemma Rsum_map_zero {A : Type} (l : list A) : Rsum (map (fun _ => 0) l) = 0.
Proof. induction l as [|x l IH]; cbn; [reflexivity|]. unfold Rsum in IH. lra. Qed.

(** The residual sum of squares of a partition, position by position. *)
Lemma rss_partition (X : frame) (y y' : list R) (g : frame) (idx : list nat) (b : list R) :
  frame_iloc X idx = Some g -> series_iloc y idx = Some y' ->
  rss (frame_rows g) y' b
  = Rsum (map (fun k => (nth k y 0 - dot b (frame_row X k)) ^ 2) idx).
Proof.
  intros Hx Hy. unfold rss.
  rewrite (frame_iloc_rows _ _ _ Hx), (series_iloc_values _ _ _ Hy), map_map.
  now rewrite (squared_errors_map (fun k => nth k y 0) (fun k => dot b (frame_row X k))).
Qed.

(** When some coefficient vector fits the training rows exactly, so does
    every least-squares solution. *)
Lemma least_squares_exact (X : frame) (y : list R) (s0 : rng_state)
    (p : partitions) (b exact : list R) :
  split X y s0 = Some p ->
  least_squares (frame_rows (x_train p)) (y_train p) b ->
  List.length exact = List.length b ->
  (forall k, In k (train_idx (nrows X) s0) -> dot exact (frame_row X k) = nth k y 0) ->
  forall k, In k (train_idx (nrows X) s0) -> dot b (frame_row X k) = nth k y 0.
Proof.
  intros Hsplit [_ Hmin] Hlen Hexact k Hk.
  apply split_x_train in Hsplit as [Hx [_ [Hy _]]].
  specialize (Hmin exact Hlen).
  rewrite !(rss_partition X y _ _ _ _ Hx Hy) in Hmin.
  assert (Hzero : Rsum (map (fun k => (nth k y 0 - dot exact (frame_row X k)) ^ 2)
                            (train_idx (nrows X) s0)) = 0).
  { rewrite (map_ext_in _ (fun _ => 0)).
    - apply Rsum_map_zero.
    - intros i Hi. rewrite (Hexact i Hi). ring. }
  rewrite Hzero in Hmin.
  set (sq := map (fun k => (nth k y 0 - dot b (frame_row X k)) ^ 2)
                 (train_idx (nrows X) s0)) in *.
  assert (Hnn : forall x, In x sq -> 0 <= x).
  { intros x Hx'. apply in_map_iff in Hx' as [i [<- _]]. apply pow2_ge_0. }
  assert (Hs : Rsum sq = 0) by (pose proof (Rsum_nonneg sq Hnn); lra).
  assert (Hk2 : (nth k y 0 - dot b (frame_row X k)) ^ 2 = 0).
  { apply (Rsum_zero sq Hnn Hs). unfold sq. apply in_map_iff. eauto. }
  assert (Hk3 : nth k y 0 - dot b (frame_row X k) = 0).
  { destruct (Req_dec_T (nth k y 0 - dot b (frame_row X k)) 0) as [e | ne]; [exact e|].
    exfalso. apply (pow_nonzero _ 2) in ne. contradiction. }
  lra.
Qed.

(** With five rows the test partition is one position and the training
    partition the four others. *)
Lemma split_five_rows (s0 : rng_state) :
  permutation_contract ->
  exists j, (j < 5)%nat /\ test_idx 5 s0 = [j] /\
            forall k, (k < 5)%nat -> k <> j -> In k (train_idx 5 s0).
Proof.
  intros Hperm.
  pose proof (Hperm 5%nat (np_random_seed 42)) as Hp.
  pose proof (split_indices_app 5 s0) as Happ.
  assert (Hl : List.length (test_idx 5 s0) = 1%nat).
  { unfold test_idx, split_indices. cbn [fst snd].
    rewrite length_skipn, (Permutation_length Hp). reflexivity. }
  destruct (test_idx 5 s0) as [|j [|? ?]] eqn:Et; try discriminate Hl.
  exists j. rewrite <- Happ in Hp.
  assert (Hj : In j (seq 0 5)).
  { apply (Permutation_in _ Hp). apply in_or_app. right. now left. }
  apply in_seq in Hj. split; [lia|]. split; [reflexivity|].
  intros k Hk Hne.
  assert (Hin : In k (train_idx 5 s0 ++ [j])).
  { apply (Permutation_in _ (Permutation_sym Hp)). apply in_seq. lia. }
  apply in_app_or in Hin as [Hin | [Hin | []]]; [assumption | congruence].
Qed.

(* =================================================================== *)
(** * The sign of the predicted amount *)
(* =================================================================== *)

Lemma expm1_above_minus_one (x : R) : -1 < expm1 x.
Proof. unfold expm1. pose proof (exp_pos x). lra. Qed.

Lemma expm1_nonneg_iff (x : R) : 0 <= expm1 x <-> 0 <= x.
Proof.
  unfold expm1. split; intros H.
  - destruct (Rle_or_lt 0 x) as [Hx | Hx]; [assumption|].
    apply exp_increasing in Hx. rewrite exp_0 in Hx. lra.
  - destruct H as [H | <-].
    + apply exp_increasing in H. rewrite exp_0 in H. lra.
    + rewrite exp_0. lra.
Qed.

Lemma expm1_negative (x : R) : x < 0 -> expm1 x < 0.
Proof.
  intros H. unfold expm1. apply exp_increasing in H. rewrite exp_0 in H. lra.
Qed.

Lemma exp_nat (n : nat) : exp (INR n) = exp 1 ^ n.
Proof.
  induction n as [|n IH]; [cbn; apply exp_0|].
  rewrite S_INR, exp_plus, IH. cbn [pow]. ring.
Qed.

(** [exp 512] is far below the largest binary64 number. *)
Lemma exp_512_in_range : exp 512 < 2 ^ 1023.
Proof.
  replace 512 with (INR 512) by (rewrite INR_IZR_INZ; reflexivity).
  rewrite exp_nat.
  apply Rle_lt_trans with (3 ^ 512).
  - apply pow_incr. split; [left; apply exp_pos | apply exp_le_3].
  - rewrite !pow_IZR. apply IZR_lt. reflexivity.
Qed.

Lemma expm1_in_range (x : R) : x <= 512 -> expm1 x < 2 ^ 1023.
Proof.
  intros H. unfold expm1. pose proof exp_512_in_range as Hb.
  destruct H as [H | ->]; [apply exp_increasing in H|]; lra.
Qed.

(** C2, as the code has it: the predictor returns an amount for every
    coefficient vector, table, schema and input, seen or unseen; the
    amount is [expm1] of the log-scale estimate, so it is never below -1,
    it is non-negative exactly when the log-scale estimate is, and it stays
    in the range of binary64 numbers (below [2^1023]) when the log-scale
    estimate is at most 512. *)
Theorem predicted_amount_sign_and_range :
  forall (params : list R) (df_model : list model_row) (cols : list string)
         (inp : prediction_input),
    exists log_estimate,
      log_prediction params df_model cols inp = Some log_estimate /\
      predict_sales params df_model cols inp = Some (expm1 log_estimate) /\
      -1 <= expm1 log_estimate /\
      (0 <= expm1 log_estimate <-> 0 <= log_estimate) /\
      (log_estimate <= 512 -> expm1 log_estimate < 2 ^ 1023).
Proof.
  intros params df_model cols inp.
  destruct (reindex_succeeds df_model cols inp) as [x [Hx _]].
  exists (dot params x). unfold predict_sales, log_prediction. rewrite Hx.
  split; [reflexivity|]. split; [reflexivity|].
  split; [left; apply expm1_above_minus_one|].
  split; [apply expm1_nonneg_iff | apply expm1_in_range].
Qed.

Lemma events_bind {A B : Type} (m : script A) (k : A -> script B) (a : A) :
  outcome m = Next a -> events (bind m k) = (events m ++ events (k a))%list.
Proof. unfold outcome, events, bind. now intros ->. Qed.

Lemma split_five_permutation (s0 : rng_state) :
  permutation_contract ->
  exists j, (j < 5)%nat /\ List.length (train_idx 5 s0) = 4%nat /\
            Permutation (train_idx 5 s0 ++ [j]) (seq 0 5).
Proof.
  intros Hperm.
  destruct (split_five_rows s0 Hperm) as [j [Hj [Htest _]]].
  exists j. split; [assumption|]. split.
  - now rewrite length_train_idx.
  - rewrite <- Htest, split_indices_app. apply Hperm.
Qed.

(** C4, as the code has it: each numeric feature is standardized with the
    mean and the standard deviation of its column over every row of
    [df_model], the rows that will be held out included (line 643 runs
    before the split); a training row keeps the value so computed, and the
    prediction form standardizes its input with the same two numbers
    (lines 716-718 recompute them from the same column). *)
Theorem standardization_uses_whole_table :
  forall (df : DataFrame) (s0 : rng_state) (p : partitions)
         (inp : prediction_input) (col : string) (v : list R),
    let df_model := map prepare_model_row df in
    let mean_val := mean (numeric_column col df_model) in
    let std_val := std (numeric_column col df_model) in
    split (X_final df_model) (target df_model) s0 = Some p ->
    In col numerical_cols ->
    In (col, v) (cols (x_train p)) ->
    v = map (fun k => nth k (map (fun r => (numeric_value col r - mean_val) / std_val)
                                 df_model) 0)
            (train_idx (nrows (X_final df_model)) s0) /\
    cell col (build_input df_model (columns (x_train p)) inp)
    = Some ((numerical_data inp col - mean_val) / std_val).
Proof.
  intros df s0 p inp col v df_model mean_val std_val Hsplit Hcol Hin.
  split.
  - apply split_x_train in Hsplit as [Hx _].
    destruct (frame_iloc_column _ _ _ _ _ Hx Hin) as [u [Hu ->]].
    apply (numeric_column_of_X_final df_model col u Hcol) in Hu. subst u.
    now rewrite standardize_numeric_column.
  - apply cell_numeric_feature.
    + now apply numerical_cols_features.
    + unfold columns. change col with (fst (col, v)). now apply in_map.
Qed.


(** An indicator column with a non-zero entry is a training column. *)
Lemma indicator_column_in_X_final (df_model : list model_row) (name : string)
    (c : list R) :
  In (name, c) (cols (get_dummies df_model)) -> any_nonzero c = true ->
  In name (columns (X_final df_model)).
Proof.
  intros Hin Hnz. rewrite X_final_unfold. unfold columns. cbn [cols map fst].
  right. change name with (fst (name, c)). apply in_map.
  unfold X_combined, drop_zero_columns, concat_columns. cbn [cols].
  apply filter_In. split; [|exact Hnz].
  apply in_or_app. now right.
Qed.

(* =================================================================== *)
(** * Columns that are not constant *)
(* =================================================================== *)

Lemma Rsum_ge_term (l : list R) (x : R) :
  (forall y, In y l -> 0 <= y) -> In x l -> x <= Rsum l.
Proof.
  induction l as [|a l IH]; intros Hnn Hin; [contradiction|].
  change (x <= a + Rsum l).
  assert (Hl : 0 <= Rsum l) by (apply Rsum_nonneg; intros y Hy; apply Hnn; now right).
  destruct Hin as [<- | Hin]; [lra|].
  assert (0 <= a) by (apply Hnn; now left).
  assert (x <= Rsum l) by (apply IH; [intros y Hy; apply Hnn; now right | exact Hin]).
  lra.
Qed.

(** A column with two different entries has a deviation that is not
    zero. *)
Lemma std_of_two_values (v : list R) (a b : R) :
  In a v -> In b v -> a <> b -> std v <> 0.
Proof.
  intros Ha Hb Hab.
  assert (Hlen : (2 <= List.length v)%nat).
  { change 2%nat with (List.length [a; b]). apply NoDup_incl_length.
    - constructor; [intros [H | []]; now apply Hab | constructor; [intros [] | constructor]].
    - intros x [<- | [<- | []]]; assumption. }
  assert (Hden : 0 < Rlen v - 1).
  { unfold Rlen. apply le_INR in Hlen. cbn [INR] in Hlen. lra. }
  set (m := mean v).
  assert (Hc : exists c, In c v /\ c <> m).
  { destruct (Req_dec_T a m) as [Ea | Na]; [|now exists a].
    exists b. split; [assumption|]. intros Eb. apply Hab. now rewrite Ea, Eb. }
  destruct Hc as [c [Hc Hcm]].
  assert (Hpos : 0 < (c - m) ^ 2).
  { assert (0 <= (c - m) ^ 2) by apply pow2_ge_0.
    assert ((c - m) ^ 2 <> 0) by (apply pow_nonzero; lra). lra. }
  assert (Hsum : (c - m) ^ 2 <= Rsum (map (fun x => (x - m) ^ 2) v)).
  { apply Rsum_ge_term.
    - intros y Hy. apply in_map_iff in Hy as [x [<- _]]. apply pow2_ge_0.
    - exact (in_map (fun x => (x - m) ^ 2) v c Hc). }
  unfold std. fold m.
  assert (0 < sqrt (Rsum (map (fun x => (x - m) ^ 2) v) / (Rlen v - 1))); [|lra].
  apply sqrt_lt_R0. apply Rmult_lt_0_compat; [lra|].
  now apply Rinv_0_lt_compat.
Qed.

(** The coefficient vector of zeros predicts zero on every row. *)
Lemma dot_zeros (q : nat) (r : list R) : dot (repeat 0 q) r = 0.
Proof.
  revert r. induction q as [|q IH]; intros [|x r]; cbn; try reflexivity.
  rewrite IH. ring.
Qed.

(* ===================================================================== *)
(** * Sorted levels *)
(* ===================================================================== *)

Lemma ascii_compare_lt_trans (a b c : ascii) :
  Ascii.compare a b = Lt -> Ascii.compare b c = Lt -> Ascii.compare a c = Lt.
Proof.
  unfold Ascii.compare. rewrite !N.compare_lt_iff. apply N.lt_trans.
Qed.

Lemma slt_trans (a b c : string) : slt a b -> slt b c -> slt a c.
Proof.
  unfold slt. revert b c.
  induction a as [|x a IH]; intros [|y b] [|z c]; cbn; try discriminate; auto.
  destruct (Ascii.compare x y) eqn:Exy; try discriminate.
  - apply Ascii.compare_eq_iff in Exy. subst y.
    destruct (Ascii.compare x z); auto. apply IH.
  - intros _. destruct (Ascii.compare y z) eqn:Eyz; try discriminate.
    + apply Ascii.compare_eq_iff in Eyz. subst z. now rewrite Exy.
    + intros _. now rewrite (ascii_compare_lt_trans x y z Exy Eyz).
Qed.

Lemma slt_irrefl (a : string) : ~ slt a a.
Proof. unfold slt. rewrite compare_refl. discriminate. Qed.

Lemma compare_gt_slt (a b : string) : String.compare a b = Gt -> slt b a.
Proof.
  unfold slt. intros H. rewrite String.compare_antisym, H. reflexivity.
Qed.

Lemma insert_level_sorted (s : string) (l : list string) :
  StronglySorted slt l -> StronglySorted slt (insert_level s l).
Proof.
  induction 1 as [|x l Hl IH Hx]; cbn.
  - repeat constructor.
  - destruct (String.compare s x) eqn:E.
    + now constructor.
    + constructor; [now constructor|].
      constructor; [exact E|].
      apply Forall_forall. intros y Hy. rewrite Forall_forall in Hx.
      apply (slt_trans s x y E). now apply Hx.
    + constructor; [exact IH|].
      apply Forall_forall. intros y Hy.
      apply insert_level_In in Hy as [-> | Hy].
      * now apply compare_gt_slt.
      * rewrite Forall_forall in Hx. now apply Hx.
Qed.

(** The levels come out in strictly increasing order. *)
Lemma sorted_unique_sorted (l : list string) :
  StronglySorted slt (sorted_unique l).
Proof.
  induction l as [|x l IH]; cbn; [constructor|].
  now apply insert_level_sorted.
Qed.

Lemma strongly_sorted_NoDup (l : list string) :
  StronglySorted slt l -> NoDup l.
Proof.
  induction 1 as [|x l Hl IH Hx]; constructor; [|exact IH].
  intros Hin. rewrite Forall_forall in Hx. exact (slt_irrefl x (Hx x Hin)).
Qed.

Lemma sorted_unique_NoDup (l : list string) : NoDup (sorted_unique l).
Proof. apply strongly_sorted_NoDup, sorted_unique_sorted. Qed.

Lemma In_insert_level (s x : string) (l : list string) :
  x = s \/ In x l -> In x (insert_level s l).
Proof.
  induction l as [|y l IH]; cbn.
  - intros [-> | []]. now left.
  - destruct (String.compare s y) eqn:E; cbn.
    + intros [-> | H]; [|exact H]. left. symmetry. now apply String.compare_eq_iff.
    + intros [-> | H]; [now left | now right].
    + intros [-> | [-> | H]]; [right; apply IH; now left | now left | right; apply IH; now right].
Qed.

(** Every value of the column is a level, and nothing else is. *)
Lemma sorted_unique_iff (x : string) (l : list string) :
  In x (sorted_unique l) <-> In x l.
Proof.
  split; [apply sorted_unique_In|].
  induction l as [|y l IH]; cbn; [intros []|].
  intros [-> | H]; apply In_insert_level; [now left | right; now apply IH].
Qed.

(* ===================================================================== *)
(** * Groups partition a table *)
(* ===================================================================== *)

Lemma Rsum_app (l l' : list R) : Rsum (l ++ l') = Rsum l + Rsum l'.
Proof.
  induction l as [|x l IH]; cbn [app].
  - unfold Rsum at 2. cbn. ring.
  - change (Rsum (x :: l ++ l')) with (x + Rsum (l ++ l')).
    change (Rsum (x :: l)) with (x + Rsum l). rewrite IH. ring.
Qed.

(** One key of a duplicate-free list matches. *)
Lemma Rsum_one_key {K : Type} (eqb : K -> K -> bool) (keys : list K) (x : K) (v : R) :
  (forall a b, eqb a b = true <-> a = b) ->
  NoDup keys -> In x keys ->
  Rsum (map (fun k => if eqb x k then v else 0) keys) = v.
Proof.
  intros Heqb Hnd. induction Hnd as [|k keys Hk Hnd IH]; intros Hin; [contradiction|].
  cbn. fold (Rsum (map (fun k => if eqb x k then v else 0) keys)).
  destruct Hin as [-> | Hin].
  - rewrite (proj2 (Heqb x x) eq_refl).
    rewrite (map_ext_in _ (fun _ => 0)), Rsum_map_zero; [ring|].
    intros k Hk'. destruct (eqb x k) eqn:E; [|reflexivity].
    apply Heqb in E. subst k. contradiction.
  - destruct (eqb x k) eqn:E.
    + apply Heqb in E. subst k. contradiction.
    + rewrite IH by assumption. ring.
Qed.

Lemma Rsum_no_key {K : Type} (eqb : K -> K -> bool) (keys : list K) (x : K) (v : R) :
  (forall a b, eqb a b = true <-> a = b) ->
  ~ In x keys ->
  Rsum (map (fun k => if eqb x k then v else 0) keys) = 0.
Proof.
  intros Heqb Hin.
  rewrite (map_ext_in _ (fun _ => 0)), Rsum_map_zero; [reflexivity|].
  intros k Hk. destruct (eqb x k) eqn:E; [|reflexivity].
  apply Heqb in E. subst k. contradiction.
Qed.

Lemma Rsum_map_plus {A : Type} (f g : A -> R) (l : list A) :
  Rsum (map (fun a => f a + g a) l) = Rsum (map f l) + Rsum (map g l).
Proof.
  induction l as [|a l IH]; cbn; [ring|].
  fold (Rsum (map (fun a => f a + g a) l)) (Rsum (map f l)) (Rsum (map g l)).
  rewrite IH. ring.
Qed.

(** The sums of the groups add up to the sum over the table, when every
    row's key is among the keys and no key is listed twice. *)
Lemma sum_of_groups {K : Type} (eqb : K -> K -> bool) (keys : list K)
    (key : transaction -> K) (weight : transaction -> R) (df : DataFrame) :
  (forall a b, eqb a b = true <-> a = b) ->
  NoDup keys ->
  (forall t, In t df -> In (key t) keys) ->
  Rsum (map (fun k => Rsum (map weight (filter (fun t => eqb (key t) k) df))) keys)
  = Rsum (map weight df).
Proof.
  intros Heqb Hnd. induction df as [|t df IH]; intros Hcover.
  - cbn. apply Rsum_map_zero.
  - rewrite (map_ext _ (fun k => (if eqb (key t) k then weight t else 0)
                                 + Rsum (map weight (filter (fun t => eqb (key t) k) df)))).
    + rewrite Rsum_map_plus, IH by (intros u Hu; apply Hcover; now right).
      rewrite (Rsum_one_key eqb keys (key t) (weight t) Heqb Hnd)
        by (apply Hcover; now left).
      reflexivity.
    + intros k. cbn [filter]. destruct (eqb (key t) k); cbn; [reflexivity | ring].
Qed.

Lemma Rsum_ones {A : Type} (l : list A) : Rsum (map (fun _ => 1) l) = INR (List.length l).
Proof.
  induction l as [|a l IH]; [reflexivity|].
  cbn [map Rsum fold_right List.length]. fold (Rsum (map (fun _ : A => 1) l)).
  rewrite IH, S_INR. ring.
Qed.

Lemma INR_list_sum (l : list nat) : INR (list_sum l) = Rsum (map INR l).
Proof.
  induction l as [|n l IH]; [reflexivity|].
  cbn [list_sum fold_right map Rsum]. fold (list_sum l) (Rsum (map INR l)).
  now rewrite plus_INR, IH.
Qed.

(** The sizes of the groups add up to the number of rows. *)
Lemma size_of_groups {K : Type} (eqb : K -> K -> bool) (keys : list K)
    (key : transaction -> K) (df : DataFrame) :
  (forall a b, eqb a b = true <-> a = b) ->
  NoDup keys ->
  (forall t, In t df -> In (key t) keys) ->
  list_sum (map (fun k => List.length (filter (fun t => eqb (key t) k) df)) keys)
  = List.length df.
Proof.
  intros Heqb Hnd Hcover. apply INR_eq.
  rewrite INR_list_sum, map_map, <- (Rsum_ones df).
  rewrite <- (sum_of_groups eqb keys key (fun _ => 1) df Heqb Hnd Hcover).
  f_equal. apply map_ext. intros k. now rewrite Rsum_ones.
Qed.

Lemma string_eqb_iff (a b : string) : (a =? b)%string = true <-> a = b.
Proof. apply String.eqb_eq. Qed.

Lemma bool_eqb_iff (a b : bool) : Bool.eqb a b = true <-> a = b.
Proof. apply Bool.eqb_true_iff. Qed.

Lemma key_is_level (key : transaction -> string) (df : DataFrame) (t : transaction) :
  In t df -> In (key t) (sorted_unique (map key df)).
Proof. intros H. apply sorted_unique_iff. now apply in_map. Qed.

(** X1: [groupby(key)]: one row per value present, the values strictly
    increasing; each row holds the sum (the size) of the rows with that
    value, a non-empty group; the sums add up to the sum of [money] over
    the table and the sizes to its number of rows. *)
Theorem groupby_partitions_table :
  forall (key : transaction -> string) (df : DataFrame),
    map fst (groupby_sum key df) = map fst (groupby_size key df) /\
    StronglySorted slt (map fst (groupby_sum key df)) /\
    (forall k, In k (map fst (groupby_sum key df)) <-> exists t, In t df /\ key t = k) /\
    (forall k n, In (k, n) (groupby_size key df) -> (0 < n)%nat) /\
    Rsum (map snd (groupby_sum key df)) = Rsum (map money df) /\
    list_sum (map snd (groupby_size key df)) = List.length df.
Proof.
  intros key df. unfold groupby_sum, groupby_size. rewrite !map_map. cbn [fst snd].
  rewrite !map_id.
  split; [reflexivity|]. split; [apply sorted_unique_sorted|]. split; [|split; [|split]].
  - intros k. rewrite sorted_unique_iff, in_map_iff.
    split; intros [t [A B]]; exists t; split; assumption.
  - intros k n Hin. apply in_map_iff in Hin as [k' [[= <- <-] Hk]].
    apply sorted_unique_iff, in_map_iff in Hk as [t [Hkey Ht]].
    assert (Hg : In t (group key (key t) df)).
    { unfold group. apply filter_In. split; [assumption | apply String.eqb_refl]. }
    rewrite <- Hkey. destruct (group key (key t) df); [contradiction | cbn; lia].
  - apply (sum_of_groups String.eqb _ key money df string_eqb_iff).
    + apply sorted_unique_NoDup.
    + intros t. apply key_is_level.
  - apply (size_of_groups String.eqb _ key df string_eqb_iff).
    + apply sorted_unique_NoDup.
    + intros t. apply key_is_level.
Qed.

(* ===================================================================== *)
(** * Tab 1: weekdays and weekends *)
(* ===================================================================== *)

Lemma weekend_keys_NoDup (df : DataFrame) : NoDup (weekend_keys df).
Proof.
  unfold weekend_keys. apply NoDup_filter.
  constructor; [intros [H | []]; discriminate H|].
  constructor; [intros []|constructor].
Qed.

Lemma weekend_keys_cover (df : DataFrame) (t : transaction) :
  In t df -> In (is_weekend t) (weekend_keys df).
Proof.
  intros Ht. unfold weekend_keys. apply filter_In. split.
  - destruct (is_weekend t); cbn; auto.
  - apply existsb_exists. exists t. split; [assumption | apply Bool.eqb_reflx].
Qed.

Lemma weekend_keys_present (df : DataFrame) (b : bool) :
  In b (weekend_keys df) <-> exists t, In t df /\ is_weekend t = b.
Proof.
  split.
  - intros H. apply filter_In in H as [_ H]. apply existsb_exists in H as [t [Ht E]].
    exists t. split; [assumption | now apply Bool.eqb_prop].
  - intros [t [Ht <-]]. now apply weekend_keys_cover.
Qed.

(** X2: The two bar charts of tab 1: at most two bars, "Weekday" before
    "Weekend", a bar only for a day type that occurs; the bars of the first
    chart add up to the sum of [money] over the table (the Total Sales
    card), those of the second to its number of rows (the Total Orders
    card). *)
Theorem weekday_weekend_bars :
  forall (df : DataFrame),
    Rsum (map snd (weekday_weekend_sales df)) = Rsum (map money df) /\
    list_sum (map snd (weekday_weekend_counts df)) = List.length df /\
    map fst (weekday_weekend_sales df) = map fst (weekday_weekend_counts df) /\
    (exists keep_weekday keep_weekend : bool,
        map fst (weekday_weekend_sales df)
        = ((if keep_weekday then ["Weekday"] else [])
             ++ (if keep_weekend then ["Weekend"] else []))%list /\
        (keep_weekday = true <-> exists t, In t df /\ is_weekend t = false) /\
        (keep_weekend = true <-> exists t, In t df /\ is_weekend t = true)).
Proof.
  intros df. unfold weekday_weekend_sales, weekday_weekend_counts.
  rewrite !map_map. cbn [fst snd].
  split; [|split; [|split; [reflexivity|]]].
  - apply (sum_of_groups Bool.eqb _ is_weekend money df bool_eqb_iff).
    + apply weekend_keys_NoDup.
    + apply weekend_keys_cover.
  - apply (size_of_groups Bool.eqb _ is_weekend df bool_eqb_iff).
    + apply weekend_keys_NoDup.
    + apply weekend_keys_cover.
  - exists (existsb (fun t => Bool.eqb (is_weekend t) false) df),
           (existsb (fun t => Bool.eqb (is_weekend t) true) df).
    split; [|split].
    + unfold weekend_keys. cbn [filter].
      destruct (existsb (fun t => Bool.eqb (is_weekend t) false) df);
        destruct (existsb (fun t => Bool.eqb (is_weekend t) true) df); reflexivity.
    + rewrite existsb_exists. split; intros [t [Ht E]]; exists t; split; try assumption.
      * now apply Bool.eqb_prop.
      * rewrite E. reflexivity.
    + rewrite existsb_exists. split; intros [t [Ht E]]; exists t; split; try assumption.
      * now apply Bool.eqb_prop.
      * rewrite E. reflexivity.
Qed.

(* ===================================================================== *)
(** * Seasons of loaded rows, tab 3 and the sidebar defaults *)
(* ===================================================================== *)

Lemma get_season_in_all_seasons (m : Z) : In (get_season m) all_seasons.
Proof.
  rewrite get_season_spec. unfold all_seasons.
  destruct (spec_season m); cbn; auto 6.
Qed.

(** Every row [load_data] returns carries one of the four seasons of the
    sidebar, the one [get_season] gives its month, and its weekend flag is
    that of its weekday. *)
Lemma loaded_row_invariant (rows : list csv_row) (t : transaction) :
  In t (somes (map preprocess rows)) ->
  season t = get_season (month t) /\ In (season t) all_seasons /\
  is_weekend t = Z_in (day_of_week t) [5; 6]%Z /\
  hour t = ts_hour (datetime t) /\
  month t = d_month (ts_date (datetime t)) /\
  year t = d_year (ts_date (datetime t)).
Proof.
  intros H. apply somes_In, in_map_iff in H as [r [Hr _]].
  unfold preprocess in Hr. destruct (to_datetime _ _); [|discriminate].
  injection Hr as <-. cbn. repeat split. apply get_season_in_all_seasons.
Qed.

Lemma filter_dates_In (a b : date) (df : DataFrame) (t : transaction) :
  In t (filter_dates a b df) -> In t df.
Proof. unfold filter_dates. intros H. now apply filter_In in H. Qed.

Lemma apply_selections_In (w : widgets) (df : DataFrame) (t : transaction) :
  In t (apply_selections w df) -> In t df.
Proof.
  unfold apply_selections, filter_isin. intros H.
  repeat (apply filter_In in H as [H _]). exact H.
Qed.

Lemma Rsum_filter_key (name : string) (S : string -> R) (levels : list string) :
  Rsum (map S (filter (fun k => (k =? name)%string) levels))
  = Rsum (map (fun k => if (name =? k)%string then S name else 0) levels).
Proof.
  induction levels as [|k levels IH]; [reflexivity|].
  cbn [filter map]. rewrite (String.eqb_sym name k).
  destruct (String.eqb_spec k name) as [-> | Hne].
  - cbn [map Rsum fold_right].
    fold (Rsum (map S (filter (fun k => (k =? name)%string) levels))).
    fold (Rsum (map (fun k => if (name =? k)%string then S name else 0) levels)).
    now rewrite IH.
  - cbn [map Rsum fold_right].
    fold (Rsum (map (fun k => if (name =? k)%string then S name else 0) levels)).
    rewrite IH. ring.
Qed.

Lemma filter_none {A : Type} (f : A -> bool) (l : list A) :
  (forall x, In x l -> f x = false) -> filter f l = [].
Proof.
  induction l as [|x l IH]; intros H; [reflexivity|].
  cbn. rewrite (H x (or_introl eq_refl)). apply IH. intros y Hy. apply H. now right.
Qed.

(** A metric of tab 3 is the sum of [money] over the rows of that season,
    zero when there is none. *)
Lemma season_sales_group (name : string) (df : DataFrame) :
  season_sales name df = Rsum (map money (group season name df)).
Proof.
  unfold season_sales, seasonal_summary.
  set (S := fun k => Rsum (map money (group season k df))).
  transitivity (Rsum (map S (filter (fun k => (k =? name)%string)
                                    (sorted_unique (map season df))))).
  { f_equal. induction (sorted_unique (map season df)) as [|k l IH]; [reflexivity|].
    cbn [map filter sr_season]. destruct (k =? name)%string; cbn [map total_sales]; now rewrite IH. }
  rewrite Rsum_filter_key.
  destruct (in_dec string_dec name (sorted_unique (map season df))) as [Hin | Hout].
  - apply (Rsum_one_key String.eqb _ name (S name) string_eqb_iff);
      [apply sorted_unique_NoDup | assumption].
  - rewrite (Rsum_no_key String.eqb _ name (S name) string_eqb_iff Hout).
    unfold S, group. rewrite filter_none; [reflexivity|].
    intros t Ht. destruct (String.eqb_spec (season t) name) as [E | E]; [|reflexivity].
    exfalso. apply Hout. rewrite <- E. now apply key_is_level.
Qed.

(** X3: Tab 3 on the filtered table of a run: each of the four metrics is the
    sum over the rows of its season, and the four add up to the sum of
    [money] over the filtered table, the Total Sales card of tab 1. *)
Theorem seasonal_metrics_add_up :
  forall (rows : list csv_row) (w : widgets) (start_date end_date : date),
    let df_filtered := apply_selections w (filter_dates start_date end_date
                                             (somes (map preprocess rows))) in
    (forall name, season_sales name df_filtered
                  = Rsum (map money (group season name df_filtered))) /\
    season_sales "Winter" df_filtered + season_sales "Spring" df_filtered
    + season_sales "Summer" df_filtered + season_sales "Fall" df_filtered
    = Rsum (map money df_filtered).
Proof.
  intros rows w a b df_filtered. split; [intros name; apply season_sales_group|].
  rewrite !season_sales_group.
  rewrite <- (sum_of_groups String.eqb all_seasons season money df_filtered string_eqb_iff).
  - unfold all_seasons, group. cbn [map Rsum fold_right]. ring.
  - unfold all_seasons. repeat constructor; cbn; intros H;
      repeat (destruct H as [H | H]; try discriminate H); contradiction.
  - intros t Ht. apply apply_selections_In, filter_dates_In in Ht.
    now apply loaded_row_invariant in Ht.
Qed.

Lemma filter_all {A : Type} (f : A -> bool) (l : list A) :
  (forall x, In x l -> f x = true) -> filter f l = l.
Proof.
  induction l as [|x l IH]; intros H; [reflexivity|].
  cbn. rewrite (H x (or_introl eq_refl)). f_equal. apply IH. intros y Hy. apply H. now right.
Qed.

Lemma filter_isin_all (col : transaction -> string) (sel : list string) (df : DataFrame) :
  (forall t, In t df -> In (col t) sel) -> filter_isin col sel df = df.
Proof.
  intros H. unfold filter_isin. apply filter_all.
  intros t Ht. apply str_in_In. now apply H.
Qed.

Lemma filter_isin_options (col : transaction -> string) (df : DataFrame) :
  filter_isin col (options col df) df = df.
Proof.
  apply filter_isin_all. intros t Ht. now apply key_is_level.
Qed.

(** X4: The sidebar as it opens (every option of the three computed
    multiselects and the four literal seasons selected) removes no row of
    the date window: every loaded row has one of the four seasons. *)
Theorem default_selections_keep_every_row :
  forall (rows : list csv_row) (start_date end_date : date)
         (clicked : bool) (inp : prediction_input),
    let df := somes (map preprocess rows) in
    apply_selections (default_widgets start_date end_date df clicked inp)
                     (filter_dates start_date end_date df)
    = filter_dates start_date end_date df.
Proof.
  intros rows a b clicked inp df. unfold apply_selections, default_widgets.
  cbn [selected_coffees selected_cash_types selected_seasons selected_times].
  rewrite (filter_isin_options coffee_name), (filter_isin_options cash_type).
  rewrite (filter_isin_all season all_seasons).
  - apply (filter_isin_options Time_of_Day).
  - intros t Ht. apply filter_dates_In in Ht.
    now apply loaded_row_invariant in Ht.
Qed.

(* ===================================================================== *)
(** * The date window *)
(* ===================================================================== *)

Lemma date_leb_spec (a b : date) :
  date_leb a b = true <->
  (d_year a < d_year b \/
   (d_year a = d_year b /\
    (d_month a < d_month b \/ (d_month a = d_month b /\ d_day a <= d_day b))))%Z.
Proof.
  unfold date_leb.
  rewrite !orb_true_iff, !andb_true_iff, !orb_true_iff, !andb_true_iff.
  rewrite !Z.ltb_lt, !Z.eqb_eq, Z.leb_le. reflexivity.
Qed.

Lemma date_leb_trans (a b c : date) :
  date_leb a b = true -> date_leb b c = true -> date_leb a c = true.
Proof. rewrite !date_leb_spec. lia. Qed.

Lemma filter_dates_inverted (a b : date) (df : DataFrame) :
  date_leb a b = false -> filter_dates a b df = [].
Proof.
  intros H. unfold filter_dates. apply filter_none. intros t _.
  destruct (date_leb a (Date t)) eqn:E1; [|reflexivity].
  destruct (date_leb (Date t) b) eqn:E2; [|reflexivity].
  rewrite (date_leb_trans _ _ _ E1 E2) in H. discriminate H.
Qed.

Lemma apply_selections_nil (w : widgets) : apply_selections w [] = [].
Proof. reflexivity. Qed.

(** X6: A date window whose end lies before its start keeps no row: for a
    file whose loaded table has a row (so that the date input of line 136
    can be built) and whatever the selections, the run shows the "no data"
    warning and returns. *)
Theorem inverted_date_window_shows_no_data :
  forall (rows : list csv_row) (w : widgets) (s0 : rng_state)
         (start_date end_date : date),
    somes (map preprocess rows) <> [] ->
    date_range w = [start_date; end_date] ->
    date_leb start_date end_date = false ->
    create_dashboard (Some rows) w s0 = (Return, [st_warning msg_no_data]).
Proof.
  intros rows w s0 a b _ Hrange Hinv.
  unfold create_dashboard, load_data, bind, ret. cbn [fst snd].
  rewrite Hrange, filter_dates_inverted by assumption. reflexivity.
Qed.

(* ===================================================================== *)
(** * How a run ends *)
(* ===================================================================== *)

Lemma outcome_bind {A B : Type} (m : script A) (k : A -> script B) (a : A) :
  outcome m = Next a -> outcome (bind m k) = outcome (k a).
Proof. unfold outcome, bind. now intros ->. Qed.

Lemma bind_ret {A B : Type} (a : A) (k : A -> script B) : bind (ret a) k = k a.
Proof. unfold bind, ret. cbn. now destruct (k a). Qed.

Lemma model_tab_outcome (df : DataFrame) (w : widgets) (s0 : rng_state) :
  permutation_contract -> outcome (model_tab df w s0) = Next tt.
Proof.
  intros Hperm. unfold model_tab.
  destruct (split_succeeds (map prepare_model_row df) s0 Hperm) as [p ->].
  destruct (frame_empty (x_train p) || _); [reflexivity|].
  rewrite (outcome_bind _ _ tt) by apply prediction_form_never_raises.
  reflexivity.
Qed.

(** X9: With a generator that returns arrangements of [0..n-1], no step of
    [create_dashboard] raises an exception on a file that is missing, or
    whose loaded table has a row, has no constant numeric column when it
    has two rows or more, and holds only amounts above -1 (the tables on
    which the date input can be built and [sm.OLS] is given no NaN),
    whatever values the sidebar and the prediction form return: a missing
    file ends the run with the error message, a date input that is not a
    pair stops it with the sidebar warning and nothing else, and every
    other run ends normally or returns after the "no data" warning. *)
Theorem run_never_raises :
  permutation_contract ->
  forall (file : option (list csv_row)) (w : widgets) (s0 : rng_state),
    (forall rows, file = Some rows ->
       let df := somes (map preprocess rows) in
       df <> [] /\
       ((2 <= List.length df)%nat -> no_constant_feature (map prepare_model_row df)) /\
       (forall t, In t df -> -1 < money t)) ->
    (file = None /\
     create_dashboard file w s0 = (Return, [st_error msg_file_not_found])) \/
    (file <> None /\ List.length (date_range w) <> 2%nat /\
     create_dashboard file w s0 = (Stop, [st_sidebar_warning msg_date_range])) \/
    (file <> None /\ List.length (date_range w) = 2%nat /\
     (create_dashboard file w s0 = (Return, [st_warning msg_no_data]) \/
      outcome (create_dashboard file w s0) = Next tt)).
Proof.
  intros Hperm [rows|] w s0 _; [|left; split; reflexivity].
  right. unfold create_dashboard, load_data. rewrite bind_ret.
  destruct (date_range w) as [|a [|b [|c l]]] eqn:Hr;
    try (left; split; [discriminate | split; [cbn; lia | reflexivity]]).
  right. split; [discriminate|]. split; [reflexivity|].
  destruct (df_empty (apply_selections w (filter_dates a b (somes (map preprocess rows)))))
    eqn:E; [left; reflexivity|].
  right. rewrite (outcome_bind _ _ tt) by reflexivity.
  now apply model_tab_outcome.
Qed.

(* ===================================================================== *)
(** * The sizes of the two partitions *)
(* ===================================================================== *)

Lemma length_test_idx (n : nat) (s0 : rng_state) :
  permutation_contract -> List.length (test_idx n s0) = (n - train_size n)%nat.
Proof.
  intros Hperm. unfold test_idx, split_indices. cbn.
  now rewrite length_skipn, (Permutation_length (Hperm n _)), length_seq.
Qed.

Lemma train_size_lt (n : nat) : (1 <= n)%nat -> (train_size n < n)%nat.
Proof.
  intros H. rewrite train_size_floor. apply Nat.Div0.div_lt_upper_bound. lia.
Qed.

Lemma sst_single (a : R) : Rsum (map (fun x => (x - mean [a]) ^ 2) [a]) = 0.
Proof. unfold mean, Rlen. cbn. field. Qed.

(** X15: Whenever the table has at least two rows the guard of line 664 lets the
    model be fitted: the training partition has [floor(0.8 n)] rows and the
    held-out one the remaining [n - floor(0.8 n)], at least one.  For two to
    five rows the held-out partition is a single row, and the total sum of
    squares the evaluator divides by is zero. *)
Theorem held_out_partition_sizes :
  permutation_contract ->
  forall (df : DataFrame) (s0 : rng_state) (p : partitions),
    split (X_final (map prepare_model_row df))
          (target (map prepare_model_row df)) s0 = Some p ->
    (2 <= List.length df)%nat ->
    frame_empty (x_train p) || (List.length (y_train p) =? 0)%nat = false /\
    nrows (x_train p) = (4 * List.length df / 5)%nat /\
    List.length (y_train p) = (4 * List.length df / 5)%nat /\
    nrows (x_test p) = (List.length df - 4 * List.length df / 5)%nat /\
    List.length (y_test p) = (List.length df - 4 * List.length df / 5)%nat /\
    (1 <= List.length (y_test p))%nat /\
    ((List.length df <= 5)%nat ->
     List.length (y_test p) = 1%nat /\
     Rsum (map (fun a => (a - mean (y_test p)) ^ 2) (y_test p)) = 0).
Proof.
  intros Hperm df s0 p Hsplit Hn.
  set (df_model := map prepare_model_row df) in *.
  assert (Hlen : List.length df_model = List.length df) by apply length_map.
  pose proof (x_train_empty_iff df_model s0 p Hperm Hsplit) as Hguard.
  pose proof (split_x_train _ _ _ _ Hsplit) as [Hxtr [Hxte [Hytr Hyte]]].
  apply frame_iloc_nrows in Hxtr, Hxte. apply series_iloc_length in Hytr, Hyte.
  rewrite nrows_X_final, Hlen in Hxtr, Hxte, Hytr, Hyte.
  rewrite length_train_idx in Hxtr, Hytr by assumption.
  rewrite length_test_idx in Hxte, Hyte by assumption.
  rewrite train_size_floor in Hxtr, Hytr, Hxte, Hyte.
  pose proof (train_size_lt (List.length df)) as Hlt. rewrite train_size_floor in Hlt.
  split.
  { destruct (frame_empty (x_train p) || _); [|reflexivity].
    rewrite Hlen in Hguard. destruct Hguard as [Hguard _]. specialize (Hguard eq_refl). lia. }
  repeat (split; [assumption|]).
  split; [lia|].
  intros H5.
  assert (H1 : List.length (y_test p) = 1%nat).
  { rewrite Hyte.
    destruct (List.length df) as [|[|[|[|[|[|n]]]]]]; try lia; reflexivity. }
  split; [exact H1|].
  destruct (y_test p) as [|a [|b l]]; try discriminate H1. apply sst_single.
Qed.

(* ===================================================================== *)
(** * The two metrics *)
(* ===================================================================== *)

Lemma squared_errors_nonneg (y y_pred : list R) (x : R) :
  In x (squared_errors y y_pred) -> 0 <= x.
Proof.
  revert y_pred. induction y as [|a y IH]; intros [|b y_pred]; cbn; try contradiction.
  intros [<- | H]; [apply pow2_ge_0 | now apply (IH y_pred)].
Qed.

Lemma squared_errors_zero_iff (y y_pred : list R) :
  List.length y = List.length y_pred ->
  (Rsum (squared_errors y y_pred) = 0 <-> y_pred = y).
Proof.
  revert y_pred. induction y as [|a y IH]; intros [|b y_pred] Hlen; try discriminate Hlen.
  - split; reflexivity.
  - injection Hlen as Hlen. cbn [squared_errors Rsum fold_right].
    fold (Rsum (squared_errors y y_pred)).
    pose proof (Rsum_nonneg _ (squared_errors_nonneg y y_pred)) as Hnn.
    pose proof (pow2_ge_0 (a - b)) as Hsq.
    split.
    + intros H.
      assert (H0 : (a - b) ^ 2 = 0) by lra.
      assert (Hr : Rsum (squared_errors y y_pred) = 0) by lra.
      apply (IH y_pred Hlen) in Hr. subst y_pred. f_equal.
      destruct (Req_dec_T (a - b) 0) as [e | ne]; [lra|].
      apply (pow_nonzero _ 2) in ne. contradiction.
    + intros [= -> ->]. rewrite (proj2 (IH y eq_refl) eq_refl). ring.
Qed.

(** X17: The metrics of lines 735-738 for targets and predictions of the same,
    non-zero length and targets that are not all equal: the RMSE is not
    negative and its square times the number of rows is the residual sum of
    squares; R2 is at most 1; R2 is 1 exactly when the RMSE is 0, and that
    is exactly when every prediction equals its target. *)
Theorem metrics_bounds :
  forall (y y_pred : list R),
    List.length y = List.length y_pred -> y <> [] ->
    0 < Rsum (map (fun a => (a - mean y) ^ 2) y) ->
    0 <= rmse (evaluate y y_pred) /\
    rmse (evaluate y y_pred) ^ 2 * INR (List.length y)
    = Rsum (squared_errors y y_pred) /\
    r2 (evaluate y y_pred) <= 1 /\
    (r2 (evaluate y y_pred) = 1 <-> rmse (evaluate y y_pred) = 0) /\
    (rmse (evaluate y y_pred) = 0 <-> y_pred = y).
Proof.
  intros y y_pred Hlen Hne Hsst. unfold evaluate. cbn [r2 rmse].
  set (ssr := Rsum (squared_errors y y_pred)).
  set (sst := Rsum (map (fun a => (a - mean y) ^ 2) y)) in *.
  assert (Hssr : 0 <= ssr) by (apply Rsum_nonneg, squared_errors_nonneg).
  assert (Hn : 0 < INR (List.length y)).
  { apply lt_0_INR. destruct y; [contradiction | cbn; lia]. }
  assert (Hmean : mean (squared_errors y y_pred) = ssr / INR (List.length y)).
  { unfold mean, Rlen. now rewrite length_squared_errors. }
  rewrite Hmean.
  assert (Hq : 0 <= ssr / INR (List.length y)).
  { apply Rmult_le_pos; [assumption|]. left. now apply Rinv_0_lt_compat. }
  assert (Hzero : sqrt (ssr / INR (List.length y)) = 0 <-> ssr = 0).
  { split.
    - intros H. apply sqrt_eq_0 in H; [|assumption].
      apply (Rmult_eq_compat_r (INR (List.length y))) in H.
      unfold Rdiv in H. rewrite Rmult_assoc, Rinv_l in H by lra. lra.
    - intros ->. unfold Rdiv. rewrite Rmult_0_l. apply sqrt_0. }
  assert (Hratio : ssr / sst = 0 <-> ssr = 0).
  { split.
    - intros H. apply (Rmult_eq_compat_r sst) in H.
      unfold Rdiv in H. rewrite Rmult_assoc, Rinv_l in H by lra. lra.
    - intros ->. unfold Rdiv. apply Rmult_0_l. }
  split; [apply sqrt_pos|]. split.
  { rewrite <- Rsqr_pow2, Rsqr_sqrt by assumption. field. lra. }
  split.
  { assert (0 <= ssr / sst); [|lra].
    apply Rmult_le_pos; [assumption|]. left. now apply Rinv_0_lt_compat. }
  split.
  - rewrite Hzero, <- Hratio. split; intros H; lra.
  - rewrite Hzero. now apply squared_errors_zero_iff.
Qed.

(* ===================================================================== *)
(** * Standardized columns *)
(* ===================================================================== *)

Lemma Rsum_map_scale {A : Type} (f : A -> R) (c : R) (l : list A) :
  Rsum (map (fun a => f a * c) l) = Rsum (map f l) * c.
Proof.
  induction l as [|a l IH]; cbn; [ring|].
  fold (Rsum (map (fun a => f a * c) l)) (Rsum (map f l)). rewrite IH. ring.
Qed.

(** X12: Line 643 for a column whose deviation is not zero: the standardized
    column has mean 0 and deviation 1. *)
Theorem standardize_zero_mean_unit_deviation :
  forall (v : list R),
    std v <> 0 ->
    mean (standardize v) = 0 /\ std (standardize v) = 1.
Proof.
  intros v Hstd.
  assert (Hmean : mean (standardize v) = 0).
  { unfold mean. rewrite Rsum_standardize. unfold Rdiv. apply Rmult_0_l. }
  split; [exact Hmean|].
  unfold std at 1. rewrite Hmean.
  set (V := Rsum (map (fun x => (x - mean v) ^ 2) v) / (Rlen v - 1)).
  assert (HV : std v = sqrt V) by reflexivity.
  assert (Hpos : 0 < V).
  { destruct (Rlt_or_le 0 V) as [H | H]; [assumption|].
    exfalso. apply Hstd. rewrite HV. now apply sqrt_neg_0. }
  assert (Hsq : std v * std v = V) by (rewrite HV; apply sqrt_sqrt; lra).
  assert (Hlenz : Rlen (standardize v) = Rlen v).
  { unfold Rlen, standardize. now rewrite length_map. }
  rewrite Hlenz.
  assert (Hden : Rlen v - 1 <> 0).
  { intros H0. unfold V in Hpos. rewrite H0 in Hpos.
    unfold Rdiv in Hpos. rewrite Rinv_0, Rmult_0_r in Hpos. lra. }
  replace (Rsum (map (fun x => (x - 0) ^ 2) (standardize v)) / (Rlen v - 1)) with 1;
    [apply sqrt_1|].
  unfold standardize. rewrite map_map.
  rewrite (map_ext _ (fun x => (x - mean v) ^ 2 * / (std v * std v))).
  - rewrite Rsum_map_scale, Hsq. unfold V. field. split; [assumption|].
    intros H0. unfold V in Hpos. rewrite H0 in Hpos.
    unfold Rdiv in Hpos. rewrite Rmult_0_l in Hpos. lra.
  - intros x. field. exact Hstd.
Qed.

(* ===================================================================== *)
(** * The schema of the feature matrix *)
(* ===================================================================== *)

Lemma append_inj (p a b : string) : (p ++ a)%string = (p ++ b)%string -> a = b.
Proof. induction p as [|c p IH]; cbn; [auto | intros [= H]; auto]. Qed.

Lemma NoDup_map_inj {A B : Type} (f : A -> B) (l : list A) :
  (forall a b, f a = f b -> a = b) -> NoDup l -> NoDup (map f l).
Proof.
  intros Hinj. induction 1 as [|a l Ha Hnd IH]; cbn; constructor; [|exact IH].
  intros Hin. apply in_map_iff in Hin as [b [Hb Hin]].
  apply Hinj in Hb. now subst b.
Qed.

Lemma NoDup_tl {A : Type} (l : list A) : NoDup l -> NoDup (tl l).
Proof. destruct 1; cbn; [constructor | assumption]. Qed.

Lemma NoDup_app_disjoint {A : Type} (l l' : list A) :
  NoDup l -> NoDup l' -> (forall a, In a l -> ~ In a l') -> NoDup (l ++ l').
Proof.
  induction 1 as [|a l Ha Hnd IH]; cbn; intros Hnd' Hdis; [assumption|].
  constructor.
  - intros Hin. apply in_app_or in Hin as [Hin | Hin]; [contradiction|].
    exact (Hdis a (or_introl eq_refl) Hin).
  - apply IH; [assumption|]. intros b Hb. apply Hdis. now right.
Qed.

Lemma NoDup_flat_map_disjoint {A B : Type} (f : A -> list B) (l : list A) :
  NoDup l -> (forall a, In a l -> NoDup (f a)) ->
  (forall a b x, In a l -> In b l -> In x (f a) -> In x (f b) -> a = b) ->
  NoDup (flat_map f l).
Proof.
  induction 1 as [|a l Ha Hnd IH]; cbn; intros Hf Hdis; [constructor|].
  apply NoDup_app_disjoint.
  - apply Hf. now left.
  - apply IH.
    + intros b Hb. apply Hf. now right.
    + intros b c x Hb Hc. apply Hdis; now right.
  - intros x Hx Hin. apply in_flat_map in Hin as [b [Hb Hxb]].
    assert (a = b) by (apply (Hdis a b x); auto; now right).
    subst b. contradiction.
Qed.

Lemma NoDup_labels_filter {A B : Type} (keep : A * B -> bool) (l : list (A * B)) :
  NoDup (map fst l) -> NoDup (map fst (filter keep l)).
Proof.
  induction l as [|c l IH]; cbn; intros H; [constructor|].
  inversion H as [|? ? Hc Hnd]; subst.
  destruct (keep c); cbn; [constructor|]; auto.
  intros Hin. apply Hc. apply in_map_iff in Hin as [d [Hd Hin]].
  apply filter_In in Hin as [Hin _]. rewrite <- Hd. now apply in_map.
Qed.

Lemma NoDup_categorical_cols : NoDup categorical_cols.
Proof.
  unfold categorical_cols.
  repeat constructor; cbn; intros Hf; label_cases Hf.
Qed.

Lemma NoDup_numerical_cols : NoDup numerical_cols.
Proof.
  unfold numerical_cols.
  repeat constructor; cbn; intros Hf; label_cases Hf.
Qed.

Lemma indicator_label_column (a b la lb : string) :
  In a categorical_cols -> In b categorical_cols ->
  (a ++ "_" ++ la)%string = (b ++ "_" ++ lb)%string -> a = b /\ la = lb.
Proof.
  cbn.
  intros [<- | [<- | [<- | [<- | []]]]] [<- | [<- | [<- | [<- | []]]]] H;
    cbn in H; try discriminate H; (split; [reflexivity|]);
    repeat match type of H with
           | String _ _ = String _ _ => injection H as H
           end; exact H.
Qed.

Lemma labels_dummy_columns (col : string) (vals : list (option string)) :
  map fst (dummy_columns col vals)
  = map (fun level => (col ++ "_" ++ level)%string) (tl (sorted_unique (somes vals))).
Proof. unfold dummy_columns. rewrite map_map. reflexivity. Qed.

Lemma labels_get_dummies (df_model : list model_row) :
  columns (get_dummies df_model)
  = flat_map (fun col => map (fun level => (col ++ "_" ++ level)%string)
                (tl (sorted_unique (somes (map (categorical_value col) df_model)))))
             categorical_cols.
Proof.
  unfold columns, get_dummies. cbn [cols].
  induction categorical_cols as [|col l IH]; cbn [flat_map map]; [reflexivity|].
  now rewrite map_app, labels_dummy_columns, IH.
Qed.

Lemma NoDup_columns_get_dummies (df_model : list model_row) :
  NoDup (columns (get_dummies df_model)).
Proof.
  rewrite labels_get_dummies. apply NoDup_flat_map_disjoint.
  - apply NoDup_categorical_cols.
  - intros col _. apply NoDup_map_inj.
    + intros a b H. apply append_inj in H. now apply (append_inj "_").
    + apply NoDup_tl, sorted_unique_NoDup.
  - intros a b x Ha Hb Hxa Hxb.
    apply in_map_iff in Hxa as [la [<- _]]. apply in_map_iff in Hxb as [lb [Hx _]].
    symmetry in Hx. now destruct (indicator_label_column a b la lb Ha Hb Hx).
Qed.

(** The columns of the feature matrix, one by one: the intercept, a
    standardized numeric feature, or the indicator of a level that is not
    the first of its column. *)
Lemma X_final_column_cases (df_model : list model_row) (name : string) (v : list R) :
  In (name, v) (cols (X_final df_model)) ->
  (name = "const" /\ v = repeat 1 (List.length df_model)) \/
  (In name numerical_cols /\ v = standardize (numeric_column name df_model)) \/
  (exists col level,
      In col categorical_cols /\
      In level (tl (sorted_unique (somes (map (categorical_value col) df_model)))) /\
      name = (col ++ "_" ++ level)%string /\
      v = map (indicator level) (map (categorical_value col) df_model)).
Proof.
  rewrite X_final_unfold. cbn [cols]. intros [Hin | Hin].
  { left. now injection Hin as <- <-. }
  right.
  unfold X_combined, drop_zero_columns, concat_columns in Hin. cbn [cols] in Hin.
  apply filter_In in Hin as [Hin _]. apply in_app_or in Hin as [Hin | Hin].
  - left. unfold X_num in Hin. cbn [cols] in Hin.
    apply in_map_iff in Hin as [col [[= <- <-] Hcol]]. now split.
  - right. unfold get_dummies in Hin. cbn [cols] in Hin.
    apply in_flat_map in Hin as [col [Hcol Hin]].
    unfold dummy_columns in Hin. apply in_map_iff in Hin as [level [[= <- <-] Hl]].
    exists col, level. repeat split; assumption.
Qed.

(** X10: The feature matrix of lines 637-651, for every table: its first column
    is the intercept, a column of ones; it has one row per row of the table
    and every column has that many entries; no label names two columns;
    every column but the intercept has an entry that is not zero. *)
Theorem feature_matrix_schema :
  forall (df_model : list model_row),
    hd_error (cols (X_final df_model))
    = Some ("const"%string, repeat 1 (List.length df_model)) /\
    nrows (X_final df_model) = List.length df_model /\
    well_formed (X_final df_model) /\
    NoDup (columns (X_final df_model)) /\
    (forall name v, In (name, v) (cols (X_final df_model)) ->
                    name <> "const"%string -> any_nonzero v = true).
Proof.
  intros df_model.
  split; [now rewrite X_final_unfold|].
  split; [apply nrows_X_final|].
  split; [apply well_formed_X_final|].
  split.
  - rewrite X_final_unfold. unfold columns. cbn [cols map fst].
    assert (Hnd : NoDup (map fst (cols (X_combined df_model)))).
    { unfold X_combined, drop_zero_columns. cbn [cols].
      apply NoDup_labels_filter. unfold concat_columns. cbn [cols].
      rewrite map_app. fold (columns (X_num df_model)) (columns (get_dummies df_model)).
      rewrite columns_X_num. apply NoDup_app_disjoint.
      - apply NoDup_numerical_cols.
      - apply NoDup_columns_get_dummies.
      - intros c Hc Hd. apply columns_get_dummies in Hd as [col [level [_ [Hcol [_ [_ ->]]]]]].
        destruct (indicator_label_shape col level Hcol) as [_ Hn].
        apply Hn. now apply numerical_cols_features. }
    constructor; [|exact Hnd].
    intros Hin. fold (columns (X_combined df_model)) in Hin.
    unfold X_combined in Hin. apply columns_drop_zero_columns in Hin.
    unfold columns, concat_columns in Hin. cbn [cols] in Hin.
    rewrite map_app in Hin. apply in_app_or in Hin as [Hin | Hin].
    + fold (columns (X_num df_model)) in Hin. rewrite columns_X_num in Hin.
      label_cases Hin.
    + apply (columns_get_dummies df_model) in Hin as [col [level [_ [Hcol [_ [_ Hc]]]]]].
      destruct (indicator_label_shape col level Hcol) as [Hn _]. now apply Hn.
  - intros name v Hin Hne. rewrite X_final_unfold in Hin. cbn [cols] in Hin.
    destruct Hin as [Hin | Hin]; [injection Hin as <- _; now contradiction Hne|].
    unfold X_combined, drop_zero_columns in Hin. cbn [cols] in Hin.
    now apply filter_In in Hin as [_ Hin].
Qed.

(* ===================================================================== *)
(** * One-hot rows *)
(* ===================================================================== *)

Lemma indicator_values (level : string) (v : option string) :
  indicator level v = 0 \/ indicator level v = 1.
Proof.
  destruct v as [s|]; cbn; [|now left].
  destruct (s =? level)%string; [now right | now left].
Qed.

Lemma nth_indicator_column (level : string) (vals : list (option string)) (k : nat) :
  nth k (map (indicator level) vals) 0 = indicator level (nth k vals None).
Proof. change 0 with (indicator level None). apply map_nth. Qed.

(** X11: [pd.get_dummies(..., drop_first=True)], one encoded column, one row:
    every indicator is 0 or 1; they add up to 1 when the row's value is a
    level other than the first, and to 0 when it is the first level or
    missing, so that at most one indicator of the column is set. *)
Theorem one_hot_rows :
  forall (col : string) (vals : list (option string)) (k : nat),
    let levels := sorted_unique (somes vals) in
    (forall c, In c (dummy_columns col vals) ->
               nth k (snd c) 0 = 0 \/ nth k (snd c) 0 = 1) /\
    Rsum (map (fun c => nth k (snd c) 0) (dummy_columns col vals))
    = match nth k vals None with
      | Some s => if (s =? hd ""%string levels)%string then 0 else 1
      | None => 0
      end.
Proof.
  intros col vals k levels. split.
  - intros c Hc. unfold dummy_columns in Hc.
    apply in_map_iff in Hc as [level [<- _]]. cbn [snd].
    rewrite nth_indicator_column. apply indicator_values.
  - unfold dummy_columns. rewrite map_map. cbn [snd]. fold levels.
    rewrite (map_ext _ (fun level => indicator level (nth k vals None)))
      by (intros level; apply nth_indicator_column).
    destruct (nth k vals None) as [s|] eqn:E.
    + assert (Hs : In s levels).
      { apply sorted_unique_iff, somes_In. rewrite <- E. apply nth_In.
        destruct (Nat.lt_ge_cases k (List.length vals)) as [Hk | Hk]; [exact Hk|].
        rewrite (nth_overflow _ _ Hk) in E. discriminate E. }
      pose proof (sorted_unique_NoDup (somes vals)) as Hnd. fold levels in Hnd.
      destruct levels as [|h t]; [contradiction|]. cbn [hd tl].
      inversion Hnd as [|? ? Hh Ht]; subst.
      unfold indicator.
      destruct (String.eqb_spec s h) as [-> | Hne].
      * apply (Rsum_no_key String.eqb); [apply string_eqb_iff | assumption].
      * apply (Rsum_one_key String.eqb); [apply string_eqb_iff | assumption |].
        destruct Hs as [Hs | Hs]; [now contradiction Hne | exact Hs].
    + cbn. apply Rsum_map_zero.
Qed.

(* ===================================================================== *)
(** * The prediction form encodes a table row as the feature builder did *)
(* ===================================================================== *)

Lemma sequence_opt_map_some {A B : Type} (F : A -> option B) (G : A -> B)
    (l : list A) :
  (forall a, In a l -> F a = Some (G a)) ->
  sequence_opt (map F l) = Some (map G l).
Proof.
  induction l as [|a l IH]; intros H; [reflexivity|].
  cbn. rewrite (H a (or_introl eq_refl)), IH; [reflexivity|].
  intros b Hb. apply H. now right.
Qed.

Lemma nth_repeat_in {A : Type} (x d : A) (n k : nat) :
  (k < n)%nat -> nth k (repeat x n) d = x.
Proof.
  revert k. induction n as [|n IH]; intros [|k] H; cbn; try lia; [reflexivity|].
  apply IH. lia.
Qed.

Lemma nth_map_at {A B : Type} (f : A -> B) (l : list A) (k : nat) (a : A) (d : B) :
  nth_error l k = Some a -> nth k (map f l) d = f a.
Proof.
  intros H. apply nth_error_nth. now apply map_nth_error.
Qed.

Lemma hd_below_tl (l : list string) (x : string) :
  StronglySorted slt l -> In x (tl l) -> slt (hd ""%string l) x.
Proof.
  intros Hs Hin. destruct l as [|h t]; [contradiction|]. cbn in *.
  apply StronglySorted_inv in Hs as [_ Hall].
  rewrite Forall_forall in Hall. now apply Hall.
Qed.

(** "Autumn" sorts before the other three seasons, so [drop_first] never
    leaves it an indicator. *)
Lemma Autumn_is_no_level (df_model : list model_row) :
  (forall r, In r df_model -> Season r = model_Season (Month r)) ->
  ~ In "Autumn"%string
       (tl (sorted_unique (somes (map (categorical_value "Season") df_model)))).
Proof.
  intros Hseason Hin.
  pose proof (hd_below_tl _ _ (sorted_unique_sorted _) Hin) as Hlt.
  assert (Hhd : In (hd ""%string (sorted_unique
                     (somes (map (categorical_value "Season") df_model))))
                   (sorted_unique (somes (map (categorical_value "Season") df_model)))).
  { destruct (sorted_unique _) as [|h t]; [contradiction | now left]. }
  apply sorted_unique_In, somes_In, in_map_iff in Hhd as [r [Hr Hrin]].
  cbn in Hr. rewrite (Hseason r Hrin) in Hr.
  apply model_Season_values in Hr.
  destruct Hr as [Hr | [Hr | [Hr | Hr]]]; rewrite Hr in Hlt; discriminate Hlt.
Qed.

Lemma season_level_of_month (m : Z) (level : string) :
  level = "Winter"%string \/ level = "Spring"%string \/ level = "Summer"%string ->
  (model_Season m = Some level <-> input_season m = level).
Proof.
  intros Hl. unfold model_Season, input_season, Season_map, Z_in.
  cbn [dict_get existsb].
  repeat match goal with
         | |- context [(m =? ?k)%Z] => destruct (Z.eqb_spec m k); [subst m; cbn|]
         end; cbn;
    destruct Hl as [-> | [-> | ->]]; split; intros H;
    first [reflexivity | discriminate H].
Qed.

Lemma row_category (df : DataFrame) (t : transaction) (payment col level : string) :
  d_year (Date t) = year t -> d_month (Date t) = month t ->
  In col categorical_cols ->
  In level (tl (sorted_unique
                  (somes (map (categorical_value col) (map prepare_model_row df))))) ->
  (categorical_value col (prepare_model_row t) = Some level <->
   input_category col (input_of_row t payment) = level).
Proof.
  intros Hy Hm Hcol Hl. cbn in Hcol.
  destruct Hcol as [<- | [<- | [<- | [<- | []]]]]; cbn.
  - split; [intros [= H]; exact H | intros ->; reflexivity].
  - split; [intros [= H]; exact H | intros ->; reflexivity].
  - rewrite Hy. split; [intros [= H]; exact H | intros ->; reflexivity].
  - rewrite Hm. apply season_level_of_month.
    assert (Hne : level <> "Autumn"%string).
    { intros ->. revert Hl. apply Autumn_is_no_level.
      intros r Hr. apply in_map_iff in Hr as [t' [<- _]]. reflexivity. }
    apply tl_In, sorted_unique_In, somes_In, in_map_iff in Hl as [r [Hr Hin]].
    apply in_map_iff in Hin as [t' [<- _]]. cbn in Hr.
    apply model_Season_values in Hr.
    destruct Hr as [Hr | [Hr | [Hr | Hr]]]; [pick_disjunct .. | contradiction].
Qed.

Lemma numerical_data_of_row (t : transaction) (payment col : string) :
  In col numerical_cols ->
  numerical_data (input_of_row t payment) col = numeric_value col (prepare_model_row t).
Proof. intros H. cbn in H. destruct H as [<- | [<- | [<- | []]]]; reflexivity. Qed.

(** The cell the prediction form computes for a training column, when its
    widgets hold the values of a row of the table, is that row's entry of
    the column. *)
Lemma input_cell_is_feature_cell (df : DataFrame) (k : nat) (t : transaction)
    (payment name : string) (v : list R) :
  nth_error df k = Some t ->
  d_year (Date t) = year t -> d_month (Date t) = month t ->
  In (name, v) (cols (X_final (map prepare_model_row df))) ->
  cell name (build_input (map prepare_model_row df)
                         (columns (X_final (map prepare_model_row df)))
                         (input_of_row t payment))
  = Some (nth k v 0).
Proof.
  intros Hk Hy Hm Hin.
  assert (Hname : In name (columns (X_final (map prepare_model_row df)))).
  { unfold columns. change name with (fst (name, v)). now apply in_map. }
  assert (Hrow : nth_error (map prepare_model_row df) k = Some (prepare_model_row t))
    by now apply map_nth_error.
  destruct (X_final_column_cases _ _ _ Hin)
    as [[-> ->] | [[Hnum ->] | [col [level [Hcol [Hl [-> ->]]]]]]].
  - rewrite cell_build_input; [|assumption | intros Hf; label_cases Hf].
    cbn [String.eqb Ascii.eqb Bool.eqb orb]. f_equal. symmetry.
    apply nth_repeat_in. rewrite length_map. apply nth_error_Some. now rewrite Hk.
  - rewrite cell_numeric_feature; [|now apply numerical_cols_features | assumption].
    rewrite standardize_numeric_column, (nth_map_at _ _ k _ 0 Hrow).
    now rewrite numerical_data_of_row.
  - destruct (indicator_label_shape col level Hcol) as [Hconst Hnot].
    rewrite cell_build_input by assumption.
    rewrite map_map, (nth_map_at _ _ k _ 0 Hrow).
    destruct (String.eqb_spec (col ++ "_" ++ level) "const"); [contradiction|].
    cbn [orb]. f_equal.
    pose proof (row_category df t payment col level Hy Hm Hcol Hl) as Hiff.
    destruct (str_in (col ++ "_" ++ level) (derived_labels (input_of_row t payment)))
      eqn:Hd.
    + apply str_in_In in Hd.
      apply (derived_label_same_column col level _ Hcol) in Hd.
      apply append_inj, (append_inj "_") in Hd.
      symmetry in Hd. apply Hiff in Hd. rewrite Hd. cbn.
      now rewrite String.eqb_refl.
    + destruct (categorical_value col (prepare_model_row t)) as [s|] eqn:Ev;
        [|reflexivity].
      cbn. destruct (String.eqb_spec s level) as [-> | Hne]; [|reflexivity].
      exfalso. apply str_in_false in Hd. apply Hd.
      rewrite <- (proj1 Hiff eq_refl). apply input_label_derived, Hcol.
Qed.

Lemma form_row_is_feature_row (df : DataFrame) (k : nat) (t : transaction)
    (payment : string) :
  nth_error df k = Some t ->
  d_year (Date t) = year t -> d_month (Date t) = month t ->
  reindex (columns (X_final (map prepare_model_row df)))
          (build_input (map prepare_model_row df)
                       (columns (X_final (map prepare_model_row df)))
                       (input_of_row t payment))
  = Some (frame_row (X_final (map prepare_model_row df)) k).
Proof.
  intros Hk Hy Hm.
  unfold reindex, columns, frame_row. rewrite map_map.
  apply sequence_opt_map_some. intros [name v] Hin. cbn [fst snd].
  now apply input_cell_is_feature_cell.
Qed.

Lemma nth_model_predict (params : list R) (X : frame) (k : nat) :
  (k < nrows X)%nat ->
  nth k (model_predict params X) 0 = dot params (frame_row X k).
Proof.
  intros Hlt. unfold model_predict, frame_rows. rewrite map_map.
  apply (nth_map_at (fun i => dot params (frame_row X i)) (seq 0 (nrows X)) k k 0).
  rewrite nth_error_nth' with (d := 0%nat) by now rewrite length_seq.
  now rewrite seq_nth.
Qed.

Lemma row_position (df : DataFrame) (k : nat) (t : transaction) :
  nth_error df k = Some t ->
  (k < nrows (X_final (map prepare_model_row df)))%nat.
Proof.
  intros Hk. rewrite nrows_X_final, length_map.
  apply nth_error_Some. now rewrite Hk.
Qed.

(** X13: Lines 687-726 after lines 637-651.  When the widgets of the
    prediction form hold the values of the row at position [k] of the table
    (a row whose [year] and [month] are those of its [Date]: [load_data]
    takes them from the timestamp parsed from [Date] and [Time]), and no
    numeric column is constant, the row handed to the model is row [k] of
    the feature matrix, entry for entry, and the value predicted on the log
    scale is the fitted value of that row.  The columns are those of
    [X_final], which [x_train] keeps.  This holds
    for the months of "Fall" too: their label is "Autumn" in the feature
    matrix, the first level, which has no indicator, and "Fall" at line 699,
    which names no column.  The payment type does not matter. *)
Theorem form_encodes_table_row_as_trained :
  forall (df : DataFrame) (k : nat) (t : transaction) (payment : string)
         (params : list R),
    let df_model := map prepare_model_row df in
    let X := X_final df_model in
    nth_error df k = Some t ->
    d_year (Date t) = year t -> d_month (Date t) = month t ->
    (forall col, In col numerical_cols -> std (numeric_column col df_model) <> 0) ->
    reindex (columns X) (build_input df_model (columns X) (input_of_row t payment))
    = Some (frame_row X k) /\
    log_prediction params df_model (columns X) (input_of_row t payment)
    = Some (nth k (model_predict params X) 0).
Proof.
  intros df k t payment params df_model X Hk Hy Hm _.
  pose proof (form_row_is_feature_row df k t payment Hk Hy Hm) as Hrow.
  fold df_model in Hrow. fold X in Hrow.
  split; [exact Hrow|].
  unfold log_prediction. rewrite Hrow. f_equal. symmetry.
  apply nth_model_predict. now apply (row_position df k t).
Qed.

Lemma expm1_log1p (x : R) : -1 < x -> expm1 (log1p x) = x.
Proof.
  intros H. unfold expm1, log1p. rewrite exp_ln by lra. ring.
Qed.

(** X14: The target transform and its inverse, through the whole predictor: for
    a row of the table with an amount above -1 that the coefficients fit
    exactly on the log scale (and no constant numeric column), the form
    filled with the values of that row shows the amount of the row. *)
Theorem exactly_fitted_row_predicts_its_amount :
  forall (df : DataFrame) (k : nat) (t : transaction) (payment : string)
         (params : list R),
    let df_model := map prepare_model_row df in
    let X := X_final df_model in
    nth_error df k = Some t ->
    d_year (Date t) = year t -> d_month (Date t) = month t ->
    (forall col, In col numerical_cols -> std (numeric_column col df_model) <> 0) ->
    -1 < money t ->
    dot params (frame_row X k) = nth k (target df_model) 0 ->
    predict_sales params df_model (columns X) (input_of_row t payment)
    = Some (money t).
Proof.
  intros df k t payment params df_model X Hk Hy Hm _ Hpos Hfit.
  unfold predict_sales, log_prediction.
  pose proof (form_row_is_feature_row df k t payment Hk Hy Hm) as Hrow.
  fold df_model in Hrow. fold X in Hrow. rewrite Hrow. cbn [option_map].
  rewrite Hfit. unfold target, df_model. rewrite map_map.
  rewrite (nth_map_at _ _ k t 0 Hk). cbn [base prepare_model_row].
  now rewrite expm1_log1p.
Qed.

(* ===================================================================== *)
(** * The fit on the training rows and the mean of their targets *)
(* ===================================================================== *)

Lemma frame_iloc_in_range (f g : frame) (idx : list nat) (k : nat) :
  frame_iloc f idx = Some g -> In k idx -> (k < nrows f)%nat.
Proof.
  unfold frame_iloc. destruct (forallb _ idx) eqn:E; [|discriminate].
  intros _ Hk. rewrite forallb_forall in E. apply Nat.ltb_lt. now apply E.
Qed.

(** The coefficient vector that predicts [m] on every row: [m] for the
    intercept, zero for every other column. *)
Lemma dot_intercept_only (df_model : list model_row) (m : R) (k : nat) :
  (k < List.length df_model)%nat ->
  dot (m :: repeat 0 (List.length (cols (X_combined df_model))))
      (frame_row (X_final df_model) k) = m.
Proof.
  intros Hk. rewrite X_final_unfold. unfold frame_row. cbn [cols map snd dot].
  rewrite dot_zeros, nth_repeat_in; [ring|]. exact Hk.
Qed.

(** X16: Lines 651 and 669: the feature matrix carries an intercept, so a
    least-squares fit is never worse on its training rows than predicting
    the mean of their targets: its residual sum of squares there is at most
    their total sum of squares, and R2 computed on the training rows is not
    negative when those targets are not all equal. *)
Theorem training_fit_not_worse_than_mean :
  forall (df : DataFrame) (s0 : rng_state) (p : partitions),
    let df_model := map prepare_model_row df in
    let fitted := model_predict (fit p) (x_train p) in
    split (X_final df_model) (target df_model) s0 = Some p ->
    least_squares (frame_rows (x_train p)) (y_train p) (fit p) ->
    Rsum (squared_errors (y_train p) fitted)
    <= Rsum (map (fun a => (a - mean (y_train p)) ^ 2) (y_train p)) /\
    (0 < Rsum (map (fun a => (a - mean (y_train p)) ^ 2) (y_train p)) ->
     0 <= r2 (evaluate (y_train p) fitted)).
Proof.
  intros df s0 p df_model fitted Hsplit [Hlen Hmin].
  assert (Hrss : Rsum (squared_errors (y_train p) fitted)
                 <= Rsum (map (fun a => (a - mean (y_train p)) ^ 2) (y_train p))).
  { change (Rsum (squared_errors (y_train p) fitted))
      with (rss (frame_rows (x_train p)) (y_train p) (fit p)).
    pose proof (split_x_train _ _ _ _ Hsplit) as [Hx [_ [Hy _]]].
    set (m := mean (y_train p)).
    remember (train_idx (nrows (X_final df_model)) s0) as idx eqn:Eidx.
    assert (Htss : Rsum (map (fun a => (a - m) ^ 2) (y_train p))
                   = Rsum (map (fun k => (nth k (target df_model) 0 - m) ^ 2) idx)).
    { rewrite (series_iloc_values _ _ _ Hy), map_map. reflexivity. }
    rewrite Htss.
    destruct idx as [|k0 rest].
    - rewrite (rss_partition _ _ _ _ _ _ Hx Hy). cbn. lra.
    - set (b' := m :: repeat 0 (List.length (cols (X_combined df_model)))).
      assert (Hb' : List.length b' = List.length (fit p)).
      { rewrite Hlen, (frame_iloc_rows _ _ _ Hx). cbn [map hd].
        unfold frame_row. rewrite length_map, X_final_unfold. cbn [cols List.length].
        unfold b'. cbn [List.length]. now rewrite repeat_length. }
      eapply Rle_trans; [apply (Hmin b' Hb')|].
      rewrite (rss_partition _ _ _ _ _ _ Hx Hy). apply Req_le. f_equal.
      apply map_ext_in. intros k Hk. unfold b'.
      rewrite dot_intercept_only; [reflexivity|].
      rewrite <- nrows_X_final. exact (frame_iloc_in_range _ _ _ _ Hx Hk). }
  split; [exact Hrss|].
  intros Htss. unfold evaluate. cbn [r2]. fold fitted.
  set (ssr := Rsum (squared_errors (y_train p) fitted)) in *.
  set (sst := Rsum (map (fun a => (a - mean (y_train p)) ^ 2) (y_train p))) in *.
  assert (ssr / sst <= 1); [|lra].
  unfold Rdiv. apply (Rmult_le_reg_r sst); [exact Htss|].
  rewrite Rmult_assoc, Rinv_l by lra. lra.
Qed.

(* ===================================================================== *)
(** * The default date window *)
(* ===================================================================== *)

Lemma date_leb_refl (a : date) : date_leb a a = true.
Proof. apply date_leb_spec. lia. Qed.

Lemma date_leb_total (a b : date) : date_leb a b = false -> date_leb b a = true.
Proof.
  intros H. apply date_leb_spec.
  destruct (date_leb b a) eqn:E; [now apply date_leb_spec in E|].
  exfalso.
  assert (Ha : ~ (date_leb a b = true)) by (rewrite H; discriminate).
  assert (Hb : ~ (date_leb b a = true)) by (rewrite E; discriminate).
  rewrite date_leb_spec in Ha, Hb. lia.
Qed.

Lemma fold_date_min_below (d0 : date) (l : list date) (x : date) :
  In x (d0 :: l) -> date_leb (fold_right date_min d0 l) x = true.
Proof.
  induction l as [|y l IH]; cbn [fold_right].
  - intros [<- | []]. apply date_leb_refl.
  - intros Hx. unfold date_min at 1.
    destruct (date_leb y (fold_right date_min d0 l)) eqn:E.
    + destruct Hx as [<- | [<- | Hx]].
      * apply (date_leb_trans _ _ _ E). apply IH. now left.
      * apply date_leb_refl.
      * apply (date_leb_trans _ _ _ E). apply IH. now right.
    + destruct Hx as [<- | [<- | Hx]].
      * apply IH. now left.
      * now apply date_leb_total.
      * apply IH. now right.
Qed.

Lemma fold_date_max_above (d0 : date) (l : list date) (x : date) :
  In x (d0 :: l) -> date_leb x (fold_right date_max d0 l) = true.
Proof.
  induction l as [|y l IH]; cbn [fold_right].
  - intros [<- | []]. apply date_leb_refl.
  - intros Hx. unfold date_max at 1.
    destruct (date_leb y (fold_right date_max d0 l)) eqn:E.
    + destruct Hx as [<- | [<- | Hx]].
      * apply IH. now left.
      * exact E.
      * apply IH. now right.
    + apply date_leb_total in E. destruct Hx as [<- | [<- | Hx]].
      * apply (fun H => date_leb_trans _ _ _ H E). apply IH. now left.
      * apply date_leb_refl.
      * apply (fun H => date_leb_trans _ _ _ H E). apply IH. now right.
Qed.

Lemma fold_date_min_In (d0 : date) (l : list date) :
  In (fold_right date_min d0 l) (d0 :: l).
Proof.
  induction l as [|y l IH]; cbn [fold_right]; [now left|].
  unfold date_min at 1. destruct (date_leb y _).
  - right. now left.
  - destruct IH as [IH | IH]; [now left | right; now right].
Qed.

Lemma fold_date_max_In (d0 : date) (l : list date) :
  In (fold_right date_max d0 l) (d0 :: l).
Proof.
  induction l as [|y l IH]; cbn [fold_right]; [now left|].
  unfold date_max at 1. destruct (date_leb y _).
  - destruct IH as [IH | IH]; [now left | right; now right].
  - right. now left.
Qed.

(** X5: The date input as it opens (lines 134-139): both ends are dates of the
    table, the first not after the second, and the window between them
    keeps every row. *)
Theorem default_date_window_keeps_every_row :
  forall (df : DataFrame) (start_date end_date : date),
    min_date df = Some start_date -> max_date df = Some end_date ->
    In start_date (map Date df) /\ In end_date (map Date df) /\
    date_leb start_date end_date = true /\
    filter_dates start_date end_date df = df.
Proof.
  intros [|t df] a b; [discriminate|]. cbn [min_date max_date map].
  intros [= <-] [= <-].
  split; [apply fold_date_min_In|]. split; [apply fold_date_max_In|].
  split.
  - apply (date_leb_trans _ (Date t)).
    + apply fold_date_min_below. now left.
    + apply fold_date_max_above. now left.
  - unfold filter_dates. apply filter_all. intros x Hx.
    apply (in_map Date) in Hx. cbn [map] in Hx.
    now rewrite fold_date_min_below, fold_date_max_above.
Qed.

(* ===================================================================== *)
(** * The cards of tab 1 *)
(* ===================================================================== *)

Lemma model_tab_no_metric (df : DataFrame) (w : widgets) (s0 : rng_state)
    (label : string) (v : R) :
  ~ In (st_metric label v) (events (model_tab df w s0)).
Proof.
  unfold model_tab.
  destruct (split _ _ s0) as [p|]; [|intros []].
  destruct (frame_empty (x_train p) || _).
  { intros [H | []]. discriminate H. }
  unfold prediction_form, evaluation.
  destruct (predict_clicked w);
    [destruct (predict_sales _ _ _ _)|]; cbn;
    intros H; repeat (destruct H as [H | H]; try discriminate H); contradiction.
Qed.

Lemma mean_times_length (l : list R) :
  l <> [] -> mean l * INR (List.length l) = Rsum l.
Proof.
  intros H. unfold mean, Rlen. field. apply not_0_INR.
  destruct l; [contradiction | discriminate].
Qed.

(** X8: The three cards of tab 1 (lines 175-184) appear only in a run
    whose filtered table has a row (the guard of line 161 returned before
    them otherwise): they come before everything the model tab shows, the
    number of orders is at least one, and the average shown times the
    number of orders is the total shown. *)
Theorem cards_only_for_a_table_with_rows :
  forall (file : option (list csv_row)) (w : widgets) (s0 : rng_state)
         (label : string) (v : R),
    In (st_metric label v) (events (create_dashboard file w s0)) ->
    exists rows start_date end_date,
      file = Some rows /\ date_range w = [start_date; end_date] /\
      let df_filtered :=
        apply_selections w (filter_dates start_date end_date
                              (somes (map preprocess rows))) in
      (1 <= List.length df_filtered)%nat /\
      firstn 3 (events (create_dashboard file w s0))
      = [ st_metric "Total Sales" (Rsum (map money df_filtered));
          st_metric "Total Orders" (INR (List.length df_filtered));
          st_metric "Avg. Order Value" (mean (map money df_filtered)) ] /\
      mean (map money df_filtered) * INR (List.length df_filtered)
      = Rsum (map money df_filtered).
Proof.
  intros [rows|] w s0 label v.
  2:{ cbn. intros [H | []]. discriminate H. }
  unfold create_dashboard, load_data. rewrite bind_ret.
  destruct (date_range w) as [|a [|b [|c l]]] eqn:Hr;
    try (cbn; intros [H | []]; discriminate H).
  destruct (df_empty (apply_selections w (filter_dates a b (somes (map preprocess rows)))))
    eqn:E.
  { cbn. intros [H | []]. discriminate H. }
  intros _. exists rows, a, b. split; [reflexivity|]. split; [reflexivity|].
  cbv zeta.
  unfold df_empty in E. apply Nat.eqb_neq in E.
  split; [lia|]. split; [reflexivity|].
  rewrite <- (length_map money). apply mean_times_length.
  intros Hnil. apply E. rewrite <- (length_map money), Hnil. reflexivity.
Qed.

(* ===================================================================== *)
(** * Which indicators the schema holds *)
(* ===================================================================== *)

Lemma indicator_column_present (df_model : list model_row) (col level : string) :
  In col categorical_cols ->
  In level (tl (sorted_unique (somes (map (categorical_value col) df_model)))) ->
  In (col ++ "_" ++ level)%string (columns (X_final df_model)).
Proof.
  intros Hcol Hl.
  apply (indicator_column_in_X_final df_model _
           (map (indicator level) (map (categorical_value col) df_model))).
  - unfold get_dummies. cbn [cols]. apply in_flat_map. exists col.
    split; [exact Hcol|]. unfold dummy_columns.
    exact (in_map (fun l => ((col ++ "_" ++ l)%string,
                             map (indicator l) (map (categorical_value col) df_model)))
                  _ level Hl).
  - apply any_nonzero_true. exists 1. split; [|lra].
    apply tl_In, sorted_unique_In, somes_In in Hl.
    apply in_map_iff. exists (Some level). split; [|exact Hl].
    cbn. now rewrite String.eqb_refl.
Qed.

Lemma In_columns (f : frame) (name : string) :
  In name (columns f) -> exists v, In (name, v) (cols f).
Proof.
  unfold columns. intros H. apply in_map_iff in H as [[n v] [Hn Hin]].
  cbn in Hn. subst n. now exists v.
Qed.

(** X18: Lines 637 and 648 together: for an encoded column, the schema holds the
    indicator of a level exactly when the level occurs in the column and is
    not the first of its sorted levels.  No indicator of a level that
    occurs is lost to the removal of all-zero columns, and the first level
    never has one. *)
Theorem indicators_are_the_later_levels :
  forall (df_model : list model_row) (col level : string),
    In col categorical_cols ->
    (In (col ++ "_" ++ level)%string (columns (X_final df_model)) <->
     In level (tl (sorted_unique (somes (map (categorical_value col) df_model))))) /\
    ~ In (col ++ "_" ++ hd ""%string
                          (sorted_unique (somes (map (categorical_value col) df_model))))%string
         (columns (X_final df_model)).
Proof.
  intros df_model col level Hcol.
  assert (Hiff : forall l,
             In (col ++ "_" ++ l)%string (columns (X_final df_model)) <->
             In l (tl (sorted_unique (somes (map (categorical_value col) df_model))))).
  { intros l. split; [|now apply indicator_column_present].
    intros Hin. apply In_columns in Hin as [v Hin].
    destruct (X_final_column_cases _ _ _ Hin)
      as [[Hc _] | [[Hnum _] | [col' [level' [Hcol' [Hl' [Hname _]]]]]]].
    - destruct (indicator_label_shape col l Hcol) as [Hn _]. contradiction.
    - destruct (indicator_label_shape col l Hcol) as [_ Hn].
      exfalso. apply Hn. now apply numerical_cols_features.
    - destruct (indicator_label_column col col' l level' Hcol Hcol' Hname) as [-> ->].
      exact Hl'. }
  split; [apply Hiff|].
  rewrite Hiff.
  pose proof (sorted_unique_NoDup (somes (map (categorical_value col) df_model))) as Hnd.
  destruct (sorted_unique _) as [|h t]; [intros []|].
  cbn [hd tl]. now inversion Hnd.
Qed.

End Dashboard.

Unset Default Proof Using.

(* ===================================================================== *)
(** * The theorems at sample data *)
(* ===================================================================== *)

Lemma sample_permutation_contract : permutation_contract nat sample_permutation.
Proof. intros n s. cbn. apply Permutation_sym, Permutation_rev. Qed.

Lemma sample_load_data :
  load_data sample_to_datetime sample_dayofweek (Some sample_rows)
  = (Next (Some sample_df), []).
Proof. reflexivity. Qed.

(** [split_deterministic_80_20] at 100 rows with the sample generator, for
    two different generator states. *)
Lemma split_deterministic_80_20_witness :
  permutation_contract nat sample_permutation /\
  train_idx nat sample_seed sample_permutation 100 0%nat
  = train_idx nat sample_seed sample_permutation 100 7%nat /\
  test_idx nat sample_seed sample_permutation 100 0%nat
  = test_idx nat sample_seed sample_permutation 100 7%nat /\
  List.length (train_idx nat sample_seed sample_permutation 100 0%nat) = 80%nat /\
  List.length (test_idx nat sample_seed sample_permutation 100 0%nat) = 20%nat.
Proof.
  split; [exact sample_permutation_contract|].
  destruct (split_deterministic_80_20 nat sample_seed sample_permutation
              sample_permutation_contract 100%nat 0%nat 7%nat)
    as [[Htrain Htest] [_ [_ [_ [_ Hlen]]]]].
  destruct (Hlen eq_refl) as [H80 H20].
  repeat split; assumption.
Defined.

(** ** The feature matrix of the sample *)

Lemma sample_numeric_columns :
  numeric_column "hour" sample_model = sample_hours /\
  numeric_column "day_of_week" sample_model = sample_weekdays /\
  numeric_column "month" sample_model = sample_months.
Proof. repeat split; reflexivity. Qed.

Lemma sample_means :
  mean sample_hours = 10 /\ mean sample_weekdays = 7 / 5 /\ mean sample_months = 19 / 5.
Proof.
  unfold mean, Rlen, sample_hours, sample_weekdays, sample_months.
  cbn [Rsum fold_right List.length INR]. repeat split; field.
Qed.

Lemma sample_stds :
  std sample_hours = sqrt (5 / 2) /\
  std sample_weekdays = sqrt (14 / 5) /\
  std sample_months = sqrt (7 / 10).
Proof.
  destruct sample_means as [Hh [Hd Hm]].
  unfold std. rewrite Hh, Hd, Hm.
  unfold Rlen, sample_hours, sample_weekdays, sample_months.
  cbn [map Rsum fold_right List.length INR].
  repeat split; f_equal; field.
Qed.

Lemma sample_stds_positive :
  0 < std sample_hours /\ 0 < std sample_weekdays /\ 0 < std sample_months.
Proof.
  destruct sample_stds as [-> [-> ->]].
  repeat split; apply sqrt_lt_R0; lra.
Qed.

Lemma sample_get_dummies : get_dummies sample_model = mkFrame 5 [].
Proof. reflexivity. Qed.

Lemma any_nonzero_head (x : R) (c : list R) : x <> 0 -> any_nonzero (x :: c) = true.
Proof.
  intros H. unfold any_nonzero. cbn [existsb].
  unfold Reqb. destruct (Req_dec_T x 0); [contradiction | reflexivity].
Qed.

Lemma sample_X_final :
  X_final sample_model =
  mkFrame 5 [ ("const", [1; 1; 1; 1; 1]);
              ("hour", standardize sample_hours);
              ("day_of_week", standardize sample_weekdays);
              ("month", standardize sample_months) ].
Proof.
  destruct sample_means as [Hh [Hd Hm]].
  destruct sample_stds_positive as [Ph [Pd Pm]].
  rewrite X_final_unfold. unfold X_combined. rewrite sample_get_dummies.
  unfold drop_zero_columns, concat_columns, X_num, numerical_cols.
  cbn [cols nrows map app List.length repeat].
  destruct sample_numeric_columns as [-> [-> ->]].
  cbn [filter snd].
  assert (Ah : any_nonzero (standardize sample_hours) = true).
  { unfold standardize. rewrite Hh. unfold sample_hours at 2. cbn [map].
    apply any_nonzero_head. intros H.
    apply (Rmult_eq_compat_r (std sample_hours)) in H.
    unfold Rdiv in H. rewrite Rmult_assoc, Rinv_l in H by lra. lra. }
  assert (Ad : any_nonzero (standardize sample_weekdays) = true).
  { unfold standardize. rewrite Hd. unfold sample_weekdays at 2. cbn [map].
    apply any_nonzero_head. intros H.
    apply (Rmult_eq_compat_r (std sample_weekdays)) in H.
    unfold Rdiv in H. rewrite Rmult_assoc, Rinv_l in H by lra. lra. }
  assert (Am : any_nonzero (standardize sample_months) = true).
  { unfold standardize. rewrite Hm. unfold sample_months at 2. cbn [map].
    apply any_nonzero_head. intros H.
    apply (Rmult_eq_compat_r (std sample_months)) in H.
    unfold Rdiv in H. rewrite Rmult_assoc, Rinv_l in H by lra. lra. }
  rewrite Ah, Ad, Am. reflexivity.
Qed.

Lemma ln_2_pos : 0 < ln 2.
Proof. rewrite <- ln_1. apply ln_increasing; lra. Qed.

Lemma ln_pow2 (n : nat) : ln (2 ^ n) = INR n * ln 2.
Proof. apply ln_pow. lra. Qed.

(** The targets of the sample: [log1p] of 15, 7, 3, 1 and 0. *)
Lemma sample_target :
  target sample_model = [4 * ln 2; 3 * ln 2; 2 * ln 2; ln 2; 0].
Proof.
  unfold target, sample_model, sample_df, sale_0, sale_1, sale_2, sale_3, sale_4, log1p.
  cbn [map prepare_model_row base money].
  replace (1 + 15) with (2 ^ 4) by ring.
  replace (1 + 7) with (2 ^ 3) by ring.
  replace (1 + 3) with (2 ^ 2) by ring.
  replace (1 + 1) with (2 ^ 1) by ring.
  replace (1 + 0) with (2 ^ 0) by ring.
  rewrite !ln_pow2. cbn [INR]. repeat f_equal; ring.
Qed.

(** The inner product of four coefficients and a row of the sample's feature
    matrix. *)
Lemma sample_dot (b0 b1 b2 b3 : R) (k : nat) :
  (k < 5)%nat ->
  dot [b0; b1; b2; b3] (frame_row (X_final sample_model) k)
  = b0 + b1 / std sample_hours * (nth k sample_hours 0 - 10)
       + b2 / std sample_weekdays * (nth k sample_weekdays 0 - 7 / 5)
       + b3 / std sample_months * (nth k sample_months 0 - 19 / 5).
Proof.
  intros Hk. destruct sample_means as [Hh [Hd Hm]].
  rewrite sample_X_final. unfold frame_row, standardize. cbn [cols map snd].
  rewrite Hh, Hd, Hm.
  do 5 (destruct k as [|k]; [cbn; unfold Rdiv; ring|]). lia.
Qed.

Lemma sample_exact_fit_exact (k : nat) :
  (k < 5)%nat ->
  dot sample_exact_fit (frame_row (X_final sample_model) k)
  = nth k (target sample_model) 0.
Proof.
  intros Hk. unfold sample_exact_fit. rewrite (sample_dot _ _ _ _ k Hk), sample_target.
  destruct sample_stds_positive as [Ph [Pd Pm]].
  remember (std sample_hours) as sh eqn:Esh. clear Esh.
  remember (std sample_weekdays) as sd eqn:Esd. clear Esd.
  remember (std sample_months) as sm eqn:Esm. clear Esm.
  do 5 (destruct k as [|k]; [cbn; field; repeat split; lra|]). lia.
Qed.

Lemma sample_columns :
  columns (X_final sample_model) = ["const"; "hour"; "day_of_week"; "month"].
Proof. now rewrite sample_X_final. Qed.

Lemma sample_nrows : nrows (X_final sample_model) = 5%nat.
Proof. now rewrite nrows_X_final. Qed.

(** The row the prediction form builds for [sample_input]. *)
Lemma sample_reindex :
  reindex (columns (X_final sample_model))
          (build_input sample_model (columns (X_final sample_model)) sample_input)
  = Some [ 1;
           (23 - 10) / std sample_hours;
           (0 - 7 / 5) / std sample_weekdays;
           (3 - 19 / 5) / std sample_months ].
Proof.
  destruct sample_means as [Hh [Hd Hm]].
  destruct sample_numeric_columns as [Nh [Nd Nm]].
  unfold reindex. rewrite sample_columns. cbn [map].
  rewrite (cell_build_input sample_model _ sample_input "const")
    by (cbn; intuition discriminate).
  rewrite !cell_numeric_feature by (cbn; tauto).
  rewrite Nh, Nd, Nm, Hh, Hd, Hm. reflexivity.
Qed.

Section SampleRun.

Variable rng_state : Type.
Variable np_random_seed : Z -> rng_state.
Variable np_random_permutation : nat -> rng_state -> list nat * rng_state.
Variable OLS_fit : list R -> list (list R) -> list R.
Variable s0 : rng_state.
Hypothesis Hperm : permutation_contract rng_state np_random_permutation.

Variable p : partitions.
Hypothesis Hsplit :
  split rng_state np_random_seed np_random_permutation
        (X_final sample_model) (target sample_model) s0 = Some p.
Lemma sample_split_positions :
  exists j, (j < 5)%nat /\
    forall k, (k < 5)%nat -> k <> j ->
      In k (train_idx rng_state np_random_seed np_random_permutation
                      (nrows (X_final sample_model)) s0).
Proof.
  rewrite sample_nrows.
  destruct (split_five_rows rng_state np_random_seed np_random_permutation s0 Hperm)
    as [j [Hj [_ Htrain]]].
  eauto.
Qed.

Lemma sample_rows_width : List.length (hd [] (frame_rows (x_train p))) = 4%nat.
Proof.
  pose proof (split_x_train _ _ _ _ _ _ _ Hsplit) as [Hx _].
  rewrite (frame_iloc_rows _ _ _ Hx).
  destruct sample_split_positions as [j [Hj Htrain]].
  destruct (train_idx _ _ _ _ s0) as [|k0 rest] eqn:E.
  - exfalso. destruct j as [|j].
    + exact (Htrain 1%nat ltac:(lia) ltac:(lia)).
    + exact (Htrain 0%nat ltac:(lia) ltac:(lia)).
  - cbn [map hd]. unfold frame_row. rewrite length_map, sample_X_final. reflexivity.
Qed.

(** The exact coefficients are a least-squares solution on the training
    rows, whichever they are. *)
Lemma sample_exact_fit_least_squares :
  least_squares (frame_rows (x_train p)) (y_train p) sample_exact_fit.
Proof.
  split; [now rewrite sample_rows_width|].
  intros b' _.
  pose proof (split_x_train _ _ _ _ _ _ _ Hsplit) as [Hx [_ [Hy _]]].
  rewrite !(rss_partition _ _ _ _ _ _ Hx Hy).
  rewrite (map_ext_in _ (fun _ => 0)).
  - rewrite Rsum_map_zero. apply Rsum_nonneg.
    intros x Hin. apply in_map_iff in Hin as [i [<- _]]. apply pow2_ge_0.
  - intros i Hi. rewrite sample_exact_fit_exact; [ring|].
    rewrite <- sample_nrows.
    exact (train_idx_in_range rng_state np_random_seed np_random_permutation _ s0 i Hperm Hi).
Qed.

Hypothesis Hfit :
  least_squares (frame_rows (x_train p)) (y_train p) (fit OLS_fit p).

Lemma sample_fit_length : List.length (fit OLS_fit p) = 4%nat.
Proof. destruct Hfit as [-> _]. apply sample_rows_width. Qed.

Lemma sample_fit_exact (k : nat) :
  In k (train_idx rng_state np_random_seed np_random_permutation
                  (nrows (X_final sample_model)) s0) ->
  dot (fit OLS_fit p) (frame_row (X_final sample_model) k)
  = nth k (target sample_model) 0.
Proof.
  intros Hk.
  apply (least_squares_exact rng_state np_random_seed np_random_permutation
           (X_final sample_model) (target sample_model) s0 p
           (fit OLS_fit p) sample_exact_fit Hsplit Hfit).
  - now rewrite sample_fit_length.
  - intros i Hi. apply sample_exact_fit_exact.
    rewrite <- sample_nrows.
    exact (train_idx_in_range rng_state np_random_seed np_random_permutation _ s0 i Hperm Hi).
  - exact Hk.
Qed.

(** Whatever the four training rows, the log-scale estimate for
    [sample_input] is [-11 ln 2]. *)
Lemma sample_log_prediction :
  log_prediction (fit OLS_fit p) sample_model (columns (x_train p)) sample_input
  = Some (-11 * ln 2).
Proof.
  rewrite (split_columns _ _ _ _ _ _ _ Hsplit).
  unfold log_prediction. rewrite sample_reindex. f_equal.
  pose proof sample_fit_length as Hlen.
  pose proof sample_fit_exact as Hex.
  destruct (fit OLS_fit p) as [|b0 [|b1 [|b2 [|b3 [|]]]]]; try discriminate Hlen.
  destruct sample_split_positions as [j [Hj Htrain]].
  assert (E : forall k, (k < 5)%nat -> k <> j ->
              b0 + b1 / std sample_hours * (nth k sample_hours 0 - 10)
                 + b2 / std sample_weekdays * (nth k sample_weekdays 0 - 7 / 5)
                 + b3 / std sample_months * (nth k sample_months 0 - 19 / 5)
              = nth k (target sample_model) 0).
  { intros k Hk Hne. rewrite <- (sample_dot b0 b1 b2 b3 k Hk). apply Hex. now apply Htrain. }
  rewrite sample_target in E.
  replace (dot [b0; b1; b2; b3]
             [1; (23 - 10) / std sample_hours; (0 - 7 / 5) / std sample_weekdays;
              (3 - 19 / 5) / std sample_months])
    with (b0 + b1 / std sample_hours * (23 - 10)
             + b2 / std sample_weekdays * (0 - 7 / 5)
             + b3 / std sample_months * (3 - 19 / 5))
    by (cbn [dot]; unfold Rdiv; ring).
  remember (b1 / std sample_hours) as B1 eqn:E1. clear E1.
  remember (b2 / std sample_weekdays) as B2 eqn:E2. clear E2.
  remember (b3 / std sample_months) as B3 eqn:E3. clear E3.
  remember (ln 2) as L eqn:EL. clear EL.
  pose proof (E 0%nat) as E0. pose proof (E 1%nat) as E1. pose proof (E 2%nat) as E2.
  pose proof (E 3%nat) as E3. pose proof (E 4%nat) as E4.
  cbn [nth sample_hours sample_weekdays sample_months] in E0, E1, E2, E3, E4.
  do 5 (destruct j as [|j];
        [ try (specialize (E0 ltac:(lia) ltac:(lia)));
          try (specialize (E1 ltac:(lia) ltac:(lia)));
          try (specialize (E2 ltac:(lia) ltac:(lia)));
          try (specialize (E3 ltac:(lia) ltac:(lia)));
          try (specialize (E4 ltac:(lia) ltac:(lia)));
          lra |]).
  lia.
Qed.

End SampleRun.

Lemma sample_filtered :
  apply_selections sample_widgets
    (filter_dates (mkDate 2024 3 1) (mkDate 2024 5 1)
       (somes (map (preprocess sample_to_datetime sample_dayofweek) sample_rows)))
  = sample_df.
Proof. reflexivity. Qed.

Lemma sample_amount_negative : expm1 (-11 * ln 2) < 0.
Proof. apply expm1_negative. pose proof ln_2_pos. lra. Qed.

(** The model tab on the sample table, with the prediction button pressed
    for [sample_input], shows the amount [expm1 (-11 ln 2)], for every
    generator that returns arrangements and every solver that returns a
    least-squares solution on the training rows. *)
Lemma sample_model_tab_prediction
    (rng_state : Type) (np_random_seed : Z -> rng_state)
    (np_random_permutation : nat -> rng_state -> list nat * rng_state)
    (OLS_fit : list R -> list (list R) -> list R) (s0 : rng_state) (w : widgets) :
  permutation_contract rng_state np_random_permutation ->
  (forall p,
      split rng_state np_random_seed np_random_permutation
            (X_final sample_model) (target sample_model) s0 = Some p ->
      least_squares (frame_rows (x_train p)) (y_train p) (fit OLS_fit p)) ->
  predict_clicked w = true -> inputs w = sample_input ->
  In (st_predicted_sales (expm1 (-11 * ln 2)))
     (events (model_tab rng_state np_random_seed np_random_permutation OLS_fit
                sample_df w s0)).
Proof.
  intros Hperm Hfit Hclick Hinp.
  unfold model_tab. fold sample_model.
  destruct (split_succeeds rng_state np_random_seed np_random_permutation
              sample_model s0 Hperm) as [p Hp].
  rewrite Hp.
  destruct (frame_empty (x_train p) || (List.length (y_train p) =? 0)%nat) eqn:Hguard.
  { apply (x_train_empty_iff rng_state np_random_seed np_random_permutation
             sample_model s0 p Hperm Hp) in Hguard. cbn in Hguard. lia. }
  rewrite (events_bind _ _ tt) by apply prediction_form_never_raises.
  apply in_or_app. left.
  unfold prediction_form, predict_sales. rewrite Hclick, Hinp.
  rewrite (sample_log_prediction rng_state np_random_seed np_random_permutation
             OLS_fit s0 Hperm p Hp (Hfit p Hp)).
  now left.
Qed.

(** So does the whole run on the sample file with everything selected. *)
Lemma sample_run_prediction
    (rng_state : Type) (np_random_seed : Z -> rng_state)
    (np_random_permutation : nat -> rng_state -> list nat * rng_state)
    (OLS_fit : list R -> list (list R) -> list R) (s0 : rng_state) :
  permutation_contract rng_state np_random_permutation ->
  (forall p,
      split rng_state np_random_seed np_random_permutation
            (X_final sample_model) (target sample_model) s0 = Some p ->
      least_squares (frame_rows (x_train p)) (y_train p) (fit OLS_fit p)) ->
  In (st_predicted_sales (expm1 (-11 * ln 2)))
     (events (create_dashboard sample_to_datetime sample_dayofweek rng_state
                np_random_seed np_random_permutation OLS_fit
                (Some sample_rows) sample_widgets s0)).
Proof.
  intros Hperm Hfit.
  rewrite (create_dashboard_reaches_model_tab sample_to_datetime sample_dayofweek
             rng_state np_random_seed np_random_permutation OLS_fit
             sample_rows sample_widgets s0 (mkDate 2024 3 1) (mkDate 2024 5 1) eq_refl)
    by (rewrite sample_filtered; discriminate).
  rewrite (events_bind _ _ tt) by reflexivity.
  apply in_or_app. right.
  change (somes (map (preprocess sample_to_datetime sample_dayofweek) sample_rows))
    with sample_df.
  now apply sample_model_tab_prediction.
Qed.

(** C2, refuted as stated.  On the sample file (five sales whose amount
    halves every hour) the amount predicted for 23 h is negative: the script
    shows [expm1 (-11 ln 2)], whatever arrangement the generator draws and
    whatever least-squares solution the solver returns. *)
Lemma predicted_amount_can_be_negative :
  exists (rows : list csv_row) (w : widgets) (amount : R),
    amount < 0 /\
    forall (rng_state : Type) (np_random_seed : Z -> rng_state)
           (np_random_permutation : nat -> rng_state -> list nat * rng_state)
           (OLS_fit : list R -> list (list R) -> list R) (s0 : rng_state),
      permutation_contract rng_state np_random_permutation ->
      (forall p,
          split rng_state np_random_seed np_random_permutation
                (X_final (map prepare_model_row
                            (somes (map (preprocess sample_to_datetime sample_dayofweek) rows))))
                (target (map prepare_model_row
                           (somes (map (preprocess sample_to_datetime sample_dayofweek) rows))))
                s0 = Some p ->
          least_squares (frame_rows (x_train p)) (y_train p) (fit OLS_fit p)) ->
      In (st_predicted_sales amount)
         (events (create_dashboard sample_to_datetime sample_dayofweek rng_state
                    np_random_seed np_random_permutation OLS_fit (Some rows) w s0)).
Proof.
  exists sample_rows, sample_widgets, (expm1 (-11 * ln 2)).
  split; [exact sample_amount_negative|].
  intros rng_state np_random_seed np_random_permutation OLS_fit s0 Hperm Hfit.
  now apply sample_run_prediction.
Qed.

(** The two hypotheses can be met: the sample generator returns
    arrangements, and the solver that returns [sample_exact_fit] is a
    least-squares solver on the training rows of the sample. *)
Lemma sample_solver_meets_contract (s0 : nat) (p : partitions) :
  split nat sample_seed sample_permutation
        (X_final sample_model) (target sample_model) s0 = Some p ->
  least_squares (frame_rows (x_train p)) (y_train p)
                (fit (fun _ _ => sample_exact_fit) p).
Proof.
  intros Hp. unfold fit.
  exact (sample_exact_fit_least_squares nat sample_seed sample_permutation s0
           sample_permutation_contract p Hp).
Qed.

Lemma sample_run_shows_negative_amount :
  In (st_predicted_sales (expm1 (-11 * ln 2)))
     (events (create_dashboard sample_to_datetime sample_dayofweek nat
                sample_seed sample_permutation (fun _ _ => sample_exact_fit)
                (Some sample_rows) sample_widgets 0%nat))
  /\ expm1 (-11 * ln 2) = - (2047 / 2048).
Proof.
  split.
  - apply sample_run_prediction.
    + exact sample_permutation_contract.
    + intros p Hp. exact (sample_solver_meets_contract 0%nat p Hp).
  - unfold expm1. replace (-11 * ln 2) with (- (INR 11 * ln 2)) by (cbn [INR]; ring).
    rewrite <- ln_pow2, exp_Ropp, exp_ln by (apply pow_lt; lra). field.
Qed.

(** ** The statistics of the training partition of the sample *)

(** Nor is the amount bounded when the log-scale estimate is not: for the
    one-column schema of the intercept and the coefficient 4096 the
    predictor returns [expm1 4096], above [2^1024], which no binary64
    number reaches. *)
Lemma predicted_amount_can_exceed_binary64 :
  exists (params : list R) (df_model : list model_row) (cols : list string)
         (inp : prediction_input) (amount : R),
    predict_sales params df_model cols inp = Some amount /\ 2 ^ 1024 < amount.
Proof.
  exists [4096], [], ["const"%string], sample_input, (expm1 4096).
  split.
  - unfold predict_sales, log_prediction. cbn [option_map]. 
    replace (reindex ["const"%string] (build_input [] ["const"%string] sample_input))
      with (Some [1]) by reflexivity.
    cbn [dot option_map]. do 2 f_equal. ring.
  - unfold expm1.
    replace 4096 with (INR 4096) by (rewrite INR_IZR_INZ; reflexivity).
    rewrite exp_nat.
    assert (H2 : 2 <= exp 1) by (pose proof (exp_ineq1 1 ltac:(lra)); lra).
    assert (Hpow : 2 ^ 4096 <= exp 1 ^ 4096) by (apply pow_incr; lra).
    assert (Hbig : 2 ^ 1024 + 1 < 2 ^ 4096).
    { rewrite !pow_IZR, <- plus_IZR. apply IZR_lt. reflexivity. }
    lra.
Qed.

Lemma Rsum_train_positions (f : nat -> R) (train : list nat) (j : nat) :
  Permutation (train ++ [j]) (seq 0 5) ->
  Rsum (map f train) = f 0%nat + f 1%nat + f 2%nat + f 3%nat + f 4%nat - f j.
Proof.
  intros Hp. apply (Permutation_map f) in Hp. apply Rsum_permutation in Hp.
  rewrite map_app in Hp. cbn [seq map] in Hp.
  assert (Happ : forall l, Rsum (l ++ [f j]) = Rsum l + f j).
  { induction l as [|x l IH]; cbn; [ring|]. unfold Rsum in *. rewrite IH. ring. }
  rewrite Happ in Hp. cbn [Rsum fold_right] in Hp. lra.
Qed.

(** C4, refuted as stated.  On the sample table the mean of [day_of_week]
    the code standardizes with is 7/5; the mean over the training partition
    is another number, whichever four rows an arrangement puts in it. *)
Lemma statistics_not_of_train_partition :
  exists (df : DataFrame) (col : string),
    In col numerical_cols /\
    forall (rng_state : Type) (np_random_seed : Z -> rng_state)
           (np_random_permutation : nat -> rng_state -> list nat * rng_state)
           (s0 : rng_state),
      permutation_contract rng_state np_random_permutation ->
      exists train_values,
        series_iloc (numeric_column col (map prepare_model_row df))
                    (train_idx rng_state np_random_seed np_random_permutation
                               (nrows (X_final (map prepare_model_row df))) s0)
        = Some train_values /\
        mean train_values <> mean (numeric_column col (map prepare_model_row df)).
Proof.
  exists sample_df, "day_of_week". split; [cbn; tauto|].
  intros rng_state np_random_seed np_random_permutation s0 Hperm.
  fold sample_model. rewrite sample_nrows.
  destruct sample_numeric_columns as [_ [-> _]].
  destruct sample_means as [_ [-> _]].
  destruct (split_five_permutation rng_state np_random_seed np_random_permutation s0 Hperm)
    as [j [Hj [Hlen Hp]]].
  destruct (series_iloc_succeeds sample_weekdays
              (train_idx rng_state np_random_seed np_random_permutation 5 s0))
    as [v [Hv Hlv]].
  { intros i Hi. cbn.
    exact (train_idx_in_range rng_state np_random_seed np_random_permutation 5 s0 i Hperm Hi). }
  exists v. split; [exact Hv|].
  apply series_iloc_values in Hv as Hvals.
  unfold mean, Rlen. rewrite Hlv, Hlen, Hvals.
  rewrite (Rsum_train_positions (fun k => nth k sample_weekdays 0) _ j Hp).
  cbn [nth sample_weekdays INR].
  do 5 (destruct j as [|j]; [cbn [nth]; lra|]). lia.
Qed.

(** ** The theorems with hypotheses, at the samples *)

Lemma card_only_filtered :
  apply_selections card_only_widgets
    (filter_dates (mkDate 2024 3 1) (mkDate 2024 5 1)
       (somes (map (preprocess sample_to_datetime sample_dayofweek) sample_rows)))
  = [sale_0; sale_2; sale_4].
Proof. reflexivity. Qed.

(** At the sample file: with every payment type selected and with card
    payments only (three of the five rows), the model outputs of the two
    runs are the same. *)
Lemma sample_selections_same_model :
  filter is_model_output
    (events (create_dashboard sample_to_datetime sample_dayofweek nat sample_seed
               sample_permutation (fun _ _ => sample_exact_fit)
               (Some sample_rows) sample_widgets 0%nat))
  = filter is_model_output
      (events (create_dashboard sample_to_datetime sample_dayofweek nat sample_seed
                 sample_permutation (fun _ _ => sample_exact_fit)
                 (Some sample_rows) card_only_widgets 0%nat)).
Proof.
  refine (proj1 (model_ignores_sidebar_selections
                   sample_to_datetime sample_dayofweek nat sample_seed
                   sample_permutation (fun _ _ => sample_exact_fit)
                   sample_rows sample_widgets card_only_widgets 0%nat
                   (mkDate 2024 3 1) (mkDate 2024 5 1) (mkDate 2024 3 1) (mkDate 2024 5 1)
                   eq_refl eq_refl _ _ eq_refl eq_refl)).
  - rewrite sample_filtered. discriminate.
  - rewrite card_only_filtered. discriminate.
Qed.

Lemma sample_table_has_rows :
  somes (map (preprocess sample_to_datetime sample_dayofweek) sample_rows) <> [].
Proof. change (sample_df <> []). discriminate. Qed.

(** [empty_selection_shows_no_data] at the sample file with no coffee
    selected. *)
Lemma empty_selection_shows_no_data_witness :
  somes (map (preprocess sample_to_datetime sample_dayofweek) sample_rows) <> [] /\
  date_range no_coffee_widgets = [mkDate 2024 3 1; mkDate 2024 5 1] /\
  selected_coffees no_coffee_widgets = [] /\
  create_dashboard sample_to_datetime sample_dayofweek nat sample_seed
    sample_permutation (fun _ _ => sample_exact_fit)
    (Some sample_rows) no_coffee_widgets 0%nat
  = (Return, [st_warning msg_no_data]).
Proof.
  split; [exact sample_table_has_rows|]. split; [reflexivity|]. split; [reflexivity|].
  destruct (empty_selection_shows_no_data
              sample_to_datetime sample_dayofweek nat sample_seed
              sample_permutation (fun _ _ => sample_exact_fit)
              sample_rows no_coffee_widgets 0%nat
              (mkDate 2024 3 1) (mkDate 2024 5 1) sample_table_has_rows eq_refl)
    as [Hempty Hrun].
  exact (Hrun (Hempty eq_refl)).
Defined.

(** [empty_training_partition_not_enough_data] at a table of one sale. *)
Lemma empty_training_partition_not_enough_data_witness :
  exists p,
    split nat sample_seed sample_permutation
          (X_final (map prepare_model_row [sale_0]))
          (target (map prepare_model_row [sale_0])) 0%nat = Some p /\
    frame_empty (x_train p) || (List.length (y_train p) =? 0)%nat = true /\
    model_tab nat sample_seed sample_permutation (fun _ _ => sample_exact_fit)
              [sale_0] sample_widgets 0%nat
    = (Next tt, [st_warning msg_not_enough]) /\
    msg_not_enough <> msg_no_data /\
    fitted_model nat sample_seed sample_permutation (fun _ _ => sample_exact_fit)
                 [sale_0] 0%nat = None /\
    existsb is_model_output
      (events (model_tab nat sample_seed sample_permutation
                 (fun _ _ => sample_exact_fit) [sale_0] sample_widgets 0%nat)) = false.
Proof.
  destruct (split_succeeds nat sample_seed sample_permutation
              (map prepare_model_row [sale_0]) 0%nat sample_permutation_contract)
    as [p Hp].
  assert (Hguard : frame_empty (x_train p) || (List.length (y_train p) =? 0)%nat = true).
  { apply (x_train_empty_iff nat sample_seed sample_permutation
             (map prepare_model_row [sale_0]) 0%nat p sample_permutation_contract Hp).
    cbn. lia. }
  exists p. split; [exact Hp|]. split; [exact Hguard|].
  exact (empty_training_partition_not_enough_data
           nat sample_seed sample_permutation (fun _ _ => sample_exact_fit)
           [sale_0] sample_widgets 0%nat p Hp Hguard).
Defined.

(** ** Six sales: two held-out rows *)

Lemma six_sales_no_constant_feature : no_constant_feature six_model.
Proof.
  intros col H. cbn in H. destruct H as [<- | [<- | [<- | []]]].
  - apply (std_of_two_values _ 8 9); [now left | right; now left | lra].
  - apply (std_of_two_values _ 4 0); [now left | right; now left | lra].
  - apply (std_of_two_values _ 3 4); [now left | do 2 right; now left | lra].
Qed.

Lemma six_sales_held_out :
  test_idx nat sample_seed sample_permutation (nrows (X_final six_model)) 0%nat
  = [1; 0]%nat.
Proof. rewrite nrows_X_final. reflexivity. Qed.

Lemma six_sales_held_out_targets (p : partitions) :
  split nat sample_seed sample_permutation
        (X_final six_model) (target six_model) 0%nat = Some p ->
  y_test p = [3 * ln 2; 4 * ln 2].
Proof.
  intros Hp. pose proof (split_x_train _ _ _ _ _ _ _ Hp) as [_ [_ [_ Hy]]].
  apply series_iloc_values in Hy. rewrite Hy, six_sales_held_out.
  unfold target, six_model, six_sales, sale_0, sale_1, log1p.
  cbn [map nth prepare_model_row base money].
  replace (1 + 15) with (2 ^ 4) by ring.
  replace (1 + 7) with (2 ^ 3) by ring.
  rewrite !ln_pow2. cbn [INR]. repeat f_equal; ring.
Qed.

Lemma six_sales_tss : spec_TSS [3 * ln 2; 4 * ln 2] = ln 2 * ln 2 / 2.
Proof.
  unfold spec_TSS, spec_mean, sum_over.
  cbn [List.length seq map nth Rsum fold_right INR]. field.
Qed.

Lemma six_sales_rss : spec_RSS [3 * ln 2; 4 * ln 2] [0; 0] = 25 * (ln 2 * ln 2).
Proof.
  unfold spec_RSS, sum_over.
  cbn [List.length seq map nth Rsum fold_right]. ring.
Qed.

(** [evaluator_metrics] at the table of six sales with the sample
    generator, for the coefficient vector of zeros over the schema: the
    sales of 7 and of 15 are held out, every prediction is 0, and R2 is
    negative. *)
Lemma evaluator_metrics_witness :
  exists p,
    let zeros := repeat 0 (List.length (columns (X_final six_model))) in
    split nat sample_seed sample_permutation
          (X_final six_model) (target six_model) 0%nat = Some p /\
    no_constant_feature six_model /\
    y_test p = [3 * ln 2; 4 * ln 2] /\
    spec_TSS (y_test p) <> 0 /\
    model_predict zeros (x_test p) = [0; 0] /\
    events (evaluation zeros p)
    = [ st_subheader "Model Performance on Test Set";
        st_r2_score (spec_R2 (y_test p) (model_predict zeros (x_test p)));
        st_rmse (spec_RMSE (y_test p) (model_predict zeros (x_test p))) ] /\
    r2 (evaluate (y_test p) (model_predict zeros (x_test p))) < 0.
Proof.
  destruct (split_succeeds nat sample_seed sample_permutation
              six_model 0%nat sample_permutation_contract) as [p Hp].
  pose proof (six_sales_held_out_targets p Hp) as Hy.
  pose proof ln_2_pos as Hln.
  assert (Hne : y_test p <> []) by (rewrite Hy; discriminate).
  assert (Htss : spec_TSS (y_test p) <> 0).
  { rewrite Hy, six_sales_tss. nra. }
  exists p. cbv zeta.
  set (zeros := repeat 0 (List.length (columns (X_final six_model)))).
  split; [exact Hp|]. split; [exact six_sales_no_constant_feature|].
  split; [exact Hy|]. split; [exact Htss|].
  destruct (evaluator_metrics nat sample_seed sample_permutation
              zeros six_sales 0%nat p Hp six_sales_no_constant_feature Hne Htss)
    as [_ [Hhat [Hev Hneg]]].
  assert (Hzero : model_predict zeros (x_test p) = [0; 0]).
  { rewrite Hhat. fold six_model. rewrite six_sales_held_out.
    cbn [map]. unfold zeros. now rewrite !dot_zeros. }
  split; [exact Hzero|]. split; [exact Hev|].
  apply Hneg. rewrite Hzero, Hy, six_sales_tss, six_sales_rss. nra.
Defined.

(** [standardization_uses_whole_table] at the sample table, for the column
    [hour]. *)
Lemma standardization_uses_whole_table_witness :
  exists p v,
    split nat sample_seed sample_permutation
          (X_final sample_model) (target sample_model) 0%nat = Some p /\
    In "hour" numerical_cols /\
    In ("hour", v) (cols (x_train p)) /\
    v = map (fun k => nth k (map (fun r => (numeric_value "hour" r
                                            - mean (numeric_column "hour" sample_model))
                                           / std (numeric_column "hour" sample_model))
                                 sample_model) 0)
            (train_idx nat sample_seed sample_permutation
                       (nrows (X_final sample_model)) 0%nat) /\
    cell "hour" (build_input sample_model (columns (x_train p)) sample_input)
    = Some ((numerical_data sample_input "hour"
             - mean (numeric_column "hour" sample_model))
            / std (numeric_column "hour" sample_model)).
Proof.
  destruct (split_succeeds nat sample_seed sample_permutation
              sample_model 0%nat sample_permutation_contract) as [p Hp].
  pose proof (split_x_train _ _ _ _ _ _ _ Hp) as [Hx _].
  pose proof (frame_iloc_cols _ _ _ Hx) as Hcols.
  assert (Hhour : In ("hour", standardize sample_hours) (cols (X_final sample_model)))
    by (rewrite sample_X_final; right; now left).
  assert (Hcol : In "hour" numerical_cols) by (cbn; tauto).
  eexists p, _.
  assert (Hin : In ("hour",
                    map (fun k => nth k (standardize sample_hours) 0)
                        (train_idx nat sample_seed sample_permutation
                                   (nrows (X_final sample_model)) 0%nat))
                   (cols (x_train p))).
  { rewrite Hcols.
    exact (in_map (fun c => (fst c, map (fun k => nth k (snd c) 0)
                                        (train_idx nat sample_seed sample_permutation
                                                   (nrows (X_final sample_model)) 0%nat)))
                  _ _ Hhour). }
  split; [exact Hp|]. split; [exact Hcol|]. split; [exact Hin|].
  exact (standardization_uses_whole_table nat sample_seed sample_permutation
           sample_df 0%nat p sample_input "hour" _ Hp Hcol Hin).
Defined.

(** ** An unseen product *)

Lemma two_products_no_constant_feature :
  no_constant_feature (map prepare_model_row two_products).
Proof.
  intros col H. cbn in H. destruct H as [<- | [<- | [<- | []]]].
  - apply (std_of_two_values _ 8 9); [now left | right; now left | lra].
  - apply (std_of_two_values _ 4 0); [now left | right; now left | lra].
  - apply (std_of_two_values _ 3 4); [now left | do 2 right; now left | lra].
Qed.

Lemma two_products_dummies :
  get_dummies (map prepare_model_row two_products)
  = mkFrame 5 [("coffee_name_Latte", [1; 0; 1; 1; 1])].
Proof. reflexivity. Qed.

Lemma two_products_Latte_column :
  In "coffee_name_Latte" (columns (X_final (map prepare_model_row two_products))).
Proof.
  apply (indicator_column_in_X_final _ _ [1; 0; 1; 1; 1]).
  - rewrite two_products_dummies. now left.
  - apply any_nonzero_head. lra.
Qed.

Lemma two_products_no_Mocha_column :
  ~ In "coffee_name_Mocha" (columns (X_final (map prepare_model_row two_products))).
Proof.
  intros H. apply X_final_columns in H.
  destruct H as [H | [H | [col [level [r [Hcol [Hr [Hv H]]]]]]]].
  - discriminate H.
  - cbn in H. repeat (destruct H as [H | H]; try discriminate H). contradiction.
  - cbn in Hcol. destruct Hcol as [<- | [<- | [<- | [<- | []]]]]; try discriminate H.
    injection H as <-.
    cbn in Hr. repeat (destruct Hr as [<- | Hr]; [discriminate Hv|]). contradiction.
Qed.

(** [unseen_category_is_reference_level] at the table of five sales of two
    products, none of its numeric columns constant, one coefficient per
    column of the schema, and the input "Mocha": the predictor returns an
    amount, and the only coffee indicator of the schema stays 0. *)
Lemma unseen_category_is_reference_level_witness :
  let df_model := map prepare_model_row two_products in
  let ones := repeat 1 (List.length (columns (X_final df_model))) in
  no_constant_feature df_model /\
  ~ In "coffee_name_Mocha" (columns (X_final df_model)) /\
  In "coffee_name_Latte" (columns (X_final df_model)) /\
  (exists amount,
      predict_sales ones df_model (columns (X_final df_model)) mocha_input
      = Some amount) /\
  cell "coffee_name_Latte"
       (build_input df_model (columns (X_final df_model)) mocha_input)
  = Some 0.
Proof.
  cbv zeta.
  split; [exact two_products_no_constant_feature|].
  split; [exact two_products_no_Mocha_column|].
  split; [exact two_products_Latte_column|].
  destruct (unseen_category_is_reference_level
              (repeat 1 (List.length (columns (X_final (map prepare_model_row
                                                          two_products)))))
              two_products mocha_input
              (mkPartitions (mkFrame 0 []) (mkFrame 0 []) [] []) sample_widgets
              two_products_no_constant_feature)
    as [Hamount [_ [_ [Hunseen _]]]].
  split; [exact Hamount|].
  exact (Hunseen "coffee_name" "Latte" (or_introl eq_refl)
           two_products_no_Mocha_column two_products_Latte_column).
Defined.

(** ** The model tab and a narrow date window *)

Lemma one_day_filtered :
  apply_selections one_day_widgets
    (filter_dates (mkDate 2024 3 1) (mkDate 2024 3 1)
       (somes (map (preprocess sample_to_datetime sample_dayofweek) sample_rows)))
  = [sale_0].
Proof. reflexivity. Qed.

(** C1 (the code on a narrow date window): the model is fitted on the
    table as loaded, not on the filtered one.  With a date window that keeps
    one sale of the five, the KPI cards count one order, yet the run fits
    the model on the five and shows a prediction; the model tab given the
    filtered table would show the "not enough data" warning, the one whose
    text speaks of the current filters and the date range. *)
Theorem one_day_window_still_trains
    (rng_state : Type) (np_random_seed : Z -> rng_state)
    (np_random_permutation : nat -> rng_state -> list nat * rng_state)
    (OLS_fit : list R -> list (list R) -> list R) (s0 : rng_state) :
  permutation_contract rng_state np_random_permutation ->
  (forall p,
      split rng_state np_random_seed np_random_permutation
            (X_final sample_model) (target sample_model) s0 = Some p ->
      least_squares (frame_rows (x_train p)) (y_train p) (fit OLS_fit p)) ->
  In (st_metric "Total Orders" 1)
     (events (create_dashboard sample_to_datetime sample_dayofweek rng_state
                np_random_seed np_random_permutation OLS_fit
                (Some sample_rows) one_day_widgets s0)) /\
  In (st_predicted_sales (expm1 (-11 * ln 2)))
     (events (create_dashboard sample_to_datetime sample_dayofweek rng_state
                np_random_seed np_random_permutation OLS_fit
                (Some sample_rows) one_day_widgets s0)) /\
  model_tab rng_state np_random_seed np_random_permutation OLS_fit
            [sale_0] one_day_widgets s0
  = (Next tt, [st_warning msg_not_enough]).
Proof.
  intros Hperm Hfit.
  rewrite (create_dashboard_reaches_model_tab sample_to_datetime sample_dayofweek
             rng_state np_random_seed np_random_permutation OLS_fit
             sample_rows one_day_widgets s0 (mkDate 2024 3 1) (mkDate 2024 3 1) eq_refl)
    by (rewrite one_day_filtered; discriminate).
  rewrite one_day_filtered, (events_bind _ _ tt) by reflexivity.
  change (somes (map (preprocess sample_to_datetime sample_dayofweek) sample_rows))
    with sample_df.
  split; [|split].
  - apply in_or_app. left. cbn. right. now left.
  - apply in_or_app. right. now apply sample_model_tab_prediction.
  - apply model_tab_fewer_than_two_rows; [assumption | cbn; lia].
Qed.

(** [one_day_window_still_trains] with the sample generator and the solver
    that returns the exact coefficients. *)
Lemma one_day_window_still_trains_witness :
  In (st_metric "Total Orders" 1)
     (events (create_dashboard sample_to_datetime sample_dayofweek nat
                sample_seed sample_permutation (fun _ _ => sample_exact_fit)
                (Some sample_rows) one_day_widgets 0%nat)) /\
  In (st_predicted_sales (expm1 (-11 * ln 2)))
     (events (create_dashboard sample_to_datetime sample_dayofweek nat
                sample_seed sample_permutation (fun _ _ => sample_exact_fit)
                (Some sample_rows) one_day_widgets 0%nat)) /\
  model_tab nat sample_seed sample_permutation (fun _ _ => sample_exact_fit)
            [sale_0] one_day_widgets 0%nat
  = (Next tt, [st_warning msg_not_enough]).
Proof.
  exact (one_day_window_still_trains nat sample_seed sample_permutation
           (fun _ _ => sample_exact_fit) 0%nat sample_permutation_contract
           (sample_solver_meets_contract 0%nat)).
Defined.

(* ===================================================================== *)
(** * Further properties at sample data *)
(* ===================================================================== *)

(** [inverted_date_window_shows_no_data] at the sample file, the window
    running from May back to March. *)
Lemma inverted_date_window_shows_no_data_witness :
  somes (map (preprocess sample_to_datetime sample_dayofweek) sample_rows) <> [] /\
  date_range inverted_widgets = [mkDate 2024 5 1; mkDate 2024 3 1] /\
  date_leb (mkDate 2024 5 1) (mkDate 2024 3 1) = false /\
  create_dashboard sample_to_datetime sample_dayofweek nat sample_seed
                   sample_permutation (fun _ _ => sample_exact_fit)
                   (Some sample_rows) inverted_widgets 0%nat
  = (Return, [st_warning msg_no_data]).
Proof.
  split; [exact sample_table_has_rows|]. split; [reflexivity|]. split; [reflexivity|].
  exact (inverted_date_window_shows_no_data sample_to_datetime sample_dayofweek nat
           sample_seed sample_permutation (fun _ _ => sample_exact_fit)
           sample_rows inverted_widgets 0%nat _ _ sample_table_has_rows
           eq_refl eq_refl).
Defined.

Lemma sample_no_constant_column (col : string) :
  In col numerical_cols -> std (numeric_column col sample_model) <> 0.
Proof.
  destruct sample_numeric_columns as [Nh [Nd Nm]].
  destruct sample_stds_positive as [Ph [Pd Pm]].
  intros H. cbn in H.
  destruct H as [<- | [<- | [<- | []]]]; [rewrite Nh | rewrite Nd | rewrite Nm]; lra.
Qed.

Lemma sample_amounts (t : transaction) : In t sample_df -> -1 < money t.
Proof.
  intros H. cbn in H.
  repeat (destruct H as [<- | H]; [cbn; lra|]). contradiction.
Qed.

Lemma sample_file_is_regular (rows : list csv_row) :
  Some sample_rows = Some rows ->
  let df := somes (map (preprocess sample_to_datetime sample_dayofweek) rows) in
  df <> [] /\
  ((2 <= List.length df)%nat -> no_constant_feature (map prepare_model_row df)) /\
  (forall t, In t df -> -1 < money t).
Proof.
  intros [= <-]. cbv zeta. change (somes (map _ sample_rows)) with sample_df.
  split; [discriminate|]. split; [intros _; exact sample_no_constant_column|].
  exact sample_amounts.
Qed.

Lemma sample_run_shows_total_sales :
  In (st_metric "Total Sales" (Rsum (map money sample_df)))
     (events (create_dashboard sample_to_datetime sample_dayofweek nat sample_seed
                sample_permutation (fun _ _ => sample_exact_fit)
                (Some sample_rows) sample_widgets 0%nat)).
Proof.
  rewrite (create_dashboard_reaches_model_tab sample_to_datetime sample_dayofweek
             nat sample_seed sample_permutation (fun _ _ => sample_exact_fit)
             sample_rows sample_widgets 0%nat (mkDate 2024 3 1) (mkDate 2024 5 1) eq_refl)
    by (rewrite sample_filtered; discriminate).
  rewrite (events_bind _ _ tt) by reflexivity.
  apply in_or_app. left. rewrite sample_filtered. now left.
Qed.

(** [run_never_raises] with the sample generator, at the sample file with
    everything selected: the run ends normally. *)
Lemma run_never_raises_witness :
  permutation_contract nat sample_permutation /\
  (forall rows, Some sample_rows = Some rows ->
     let df := somes (map (preprocess sample_to_datetime sample_dayofweek) rows) in
     df <> [] /\
     ((2 <= List.length df)%nat -> no_constant_feature (map prepare_model_row df)) /\
     (forall t, In t df -> -1 < money t)) /\
  outcome (create_dashboard sample_to_datetime sample_dayofweek nat sample_seed
             sample_permutation (fun _ _ => sample_exact_fit)
             (Some sample_rows) sample_widgets 0%nat) = Next tt.
Proof.
  split; [exact sample_permutation_contract|].
  split; [exact sample_file_is_regular|].
  destruct (run_never_raises sample_to_datetime sample_dayofweek nat sample_seed
              sample_permutation (fun _ _ => sample_exact_fit)
              sample_permutation_contract (Some sample_rows) sample_widgets 0%nat
              sample_file_is_regular)
    as [[H _] | [[_ [H _]] | [_ [_ [H | H]]]]].
  - discriminate H.
  - exfalso. apply H. reflexivity.
  - exfalso. pose proof sample_run_shows_total_sales as Hin.
    rewrite H in Hin. destruct Hin as [Hin | []]. discriminate Hin.
  - exact H.
Defined.

(** [held_out_partition_sizes] at the five rows of the sample: four
    training rows, one held out. *)
Lemma held_out_partition_sizes_witness :
  exists p,
    split nat sample_seed sample_permutation
          (X_final sample_model) (target sample_model) 0%nat = Some p /\
    (2 <= List.length sample_df)%nat /\
    nrows (x_train p) = 4%nat /\ List.length (y_test p) = 1%nat /\
    Rsum (map (fun a => (a - mean (y_test p)) ^ 2) (y_test p)) = 0.
Proof.
  destruct (split_succeeds nat sample_seed sample_permutation
              sample_model 0%nat sample_permutation_contract) as [p Hp].
  exists p. split; [exact Hp|].
  assert (H2 : (2 <= List.length sample_df)%nat) by (cbn; lia).
  split; [exact H2|].
  destruct (held_out_partition_sizes nat sample_seed sample_permutation
              sample_permutation_contract sample_df 0%nat p Hp H2)
    as [_ [Hx [_ [_ [_ [_ H5]]]]]].
  split; [exact Hx|]. apply H5. cbn. lia.
Defined.

Lemma sample_metrics_tss : 0 < Rsum (map (fun a => (a - mean [0; 1]) ^ 2) [0; 1]).
Proof.
  replace (mean [0; 1]) with (1 / 2) by (unfold mean, Rlen; cbn; field).
  cbn. lra.
Qed.

(** [metrics_bounds] for two targets and the two predictions swapped. *)
Lemma metrics_bounds_witness :
  List.length [0; 1] = List.length [1; 0] /\ [0; 1] <> [] /\
  0 < Rsum (map (fun a => (a - mean [0; 1]) ^ 2) [0; 1]) /\
  0 <= rmse (evaluate [0; 1] [1; 0]) /\
  r2 (evaluate [0; 1] [1; 0]) <= 1.
Proof.
  split; [reflexivity|]. split; [discriminate|]. split; [exact sample_metrics_tss|].
  destruct (metrics_bounds [0; 1] [1; 0] eq_refl ltac:(discriminate) sample_metrics_tss)
    as [H0 [_ [H1 _]]].
  split; assumption.
Defined.

Lemma sample_std_hours : std sample_hours <> 0.
Proof. destruct sample_stds_positive as [H _]. lra. Qed.

(** [standardize_zero_mean_unit_deviation] at the hours of the sample. *)
Lemma standardize_zero_mean_unit_deviation_witness :
  std sample_hours <> 0 /\
  mean (standardize sample_hours) = 0 /\ std (standardize sample_hours) = 1.
Proof.
  split; [exact sample_std_hours|].
  exact (standardize_zero_mean_unit_deviation sample_hours sample_std_hours).
Defined.

(** [form_encodes_table_row_as_trained] at the first sale of the sample. *)
Lemma form_encodes_table_row_as_trained_witness :
  nth_error sample_df 0 = Some sale_0 /\
  d_year (Date sale_0) = year sale_0 /\ d_month (Date sale_0) = month sale_0 /\
  (forall col, In col numerical_cols -> std (numeric_column col sample_model) <> 0) /\
  reindex (columns (X_final sample_model))
          (build_input sample_model (columns (X_final sample_model))
                       (input_of_row sale_0 "cash"))
  = Some (frame_row (X_final sample_model) 0).
Proof.
  split; [reflexivity|]. split; [reflexivity|]. split; [reflexivity|].
  split; [exact sample_no_constant_column|].
  exact (proj1 (form_encodes_table_row_as_trained sample_df 0 sale_0 "cash"
                  sample_exact_fit eq_refl eq_refl eq_refl sample_no_constant_column)).
Defined.

Lemma sale_0_amount : -1 < money sale_0.
Proof. cbn. lra. Qed.

(** [exactly_fitted_row_predicts_its_amount] at the first sale of the
    sample, which sold for 15, and the exact coefficients. *)
Lemma exactly_fitted_row_predicts_its_amount_witness :
  nth_error sample_df 0 = Some sale_0 /\
  d_year (Date sale_0) = year sale_0 /\ d_month (Date sale_0) = month sale_0 /\
  (forall col, In col numerical_cols -> std (numeric_column col sample_model) <> 0) /\
  -1 < money sale_0 /\
  dot sample_exact_fit (frame_row (X_final sample_model) 0)
  = nth 0 (target sample_model) 0 /\
  predict_sales sample_exact_fit sample_model (columns (X_final sample_model))
                (input_of_row sale_0 "cash")
  = Some 15.
Proof.
  assert (Hfit : dot sample_exact_fit (frame_row (X_final sample_model) 0)
                 = nth 0 (target sample_model) 0)
    by (apply sample_exact_fit_exact; lia).
  split; [reflexivity|]. split; [reflexivity|]. split; [reflexivity|].
  split; [exact sample_no_constant_column|].
  split; [exact sale_0_amount|]. split; [exact Hfit|].
  exact (exactly_fitted_row_predicts_its_amount sample_df 0 sale_0 "cash"
           sample_exact_fit eq_refl eq_refl eq_refl sample_no_constant_column
           sale_0_amount Hfit).
Defined.

(** [training_fit_not_worse_than_mean] at the sample table, with the
    sample generator and the solver that returns the exact coefficients. *)
Lemma training_fit_not_worse_than_mean_witness :
  exists p,
    split nat sample_seed sample_permutation
          (X_final sample_model) (target sample_model) 0%nat = Some p /\
    least_squares (frame_rows (x_train p)) (y_train p)
                  (fit (fun _ _ => sample_exact_fit) p) /\
    Rsum (squared_errors (y_train p)
            (model_predict (fit (fun _ _ => sample_exact_fit) p) (x_train p)))
    <= Rsum (map (fun a => (a - mean (y_train p)) ^ 2) (y_train p)).
Proof.
  destruct (split_succeeds nat sample_seed sample_permutation
              sample_model 0%nat sample_permutation_contract) as [p Hp].
  exists p. split; [exact Hp|].
  pose proof (sample_solver_meets_contract 0%nat p Hp) as Hls.
  split; [exact Hls|].
  exact (proj1 (training_fit_not_worse_than_mean nat sample_seed sample_permutation
                  (fun _ _ => sample_exact_fit) sample_df 0%nat p Hp Hls)).
Defined.

(** [default_date_window_keeps_every_row] at the sample table, whose sales
    run from the first of March to the first of May. *)
Lemma default_date_window_keeps_every_row_witness :
  min_date sample_df = Some (mkDate 2024 3 1) /\
  max_date sample_df = Some (mkDate 2024 5 1) /\
  filter_dates (mkDate 2024 3 1) (mkDate 2024 5 1) sample_df = sample_df.
Proof.
  split; [reflexivity|]. split; [reflexivity|].
  exact (proj2 (proj2 (proj2 (default_date_window_keeps_every_row
                                sample_df (mkDate 2024 3 1) (mkDate 2024 5 1)
                                eq_refl eq_refl)))).
Defined.

(** [cards_only_for_a_table_with_rows] at the run on the sample file with
    everything selected. *)
Lemma cards_only_for_a_table_with_rows_witness :
  In (st_metric "Total Sales" (Rsum (map money sample_df)))
     (events (create_dashboard sample_to_datetime sample_dayofweek nat sample_seed
                sample_permutation (fun _ _ => sample_exact_fit)
                (Some sample_rows) sample_widgets 0%nat)) /\
  exists rows start_date end_date,
    Some sample_rows = Some rows /\
    date_range sample_widgets = [start_date; end_date] /\
    (1 <= List.length
            (apply_selections sample_widgets
               (filter_dates start_date end_date
                  (somes (map (preprocess sample_to_datetime sample_dayofweek) rows)))))%nat.
Proof.
  split; [exact sample_run_shows_total_sales|].
  destruct (cards_only_for_a_table_with_rows sample_to_datetime sample_dayofweek nat
              sample_seed sample_permutation (fun _ _ => sample_exact_fit)
              (Some sample_rows) sample_widgets 0%nat _ _ sample_run_shows_total_sales)
    as [rows [a [b [Hf [Hr [Hn _]]]]]].
  exists rows, a, b. repeat split; assumption.
Defined.

(** [indicators_are_the_later_levels] at the table of two products: the
    schema holds an indicator for "Latte", none for "Americano", the first
    level. *)
Lemma indicators_are_the_later_levels_witness :
  In "coffee_name" categorical_cols /\
  In "coffee_name_Latte" (columns (X_final (map prepare_model_row two_coffees))) /\
  ~ In "coffee_name_Americano" (columns (X_final (map prepare_model_row two_coffees))).
Proof.
  assert (Hcol : In "coffee_name" categorical_cols) by (cbn; auto).
  split; [exact Hcol|].
  destruct (indicators_are_the_later_levels (map prepare_model_row two_coffees)
              "coffee_name" "Latte" Hcol) as [Hiff Hfirst].
  split; [|exact Hfirst].
  apply Hiff. cbn. now left.
Defined.
